(** * esm: package configuration resolver and compiled-artifact cache

    A shallow embedding of [src/package.js] (the [Package] class with
    [createCJS], [createOptions], [getInfo], [readInfo], [getRange]) and of
    the compiler front end that accompanies it ([compileAndCache],
    [compileAndWrite], [removeExpired]), with the properties the
    specification states about them, followed by further properties of
    the same code: the options merge field by field, the constructor's
    cache load, [clearBabelCache], [findRoot], [getRoot], [Package.get],
    [Package.set] and [Compiler.compile]. *)

From stdpp Require Import base option list strings gmap.
From Stdlib Require Import ZArith Ascii DecimalString.

Local Open Scope string_scope.
Local Open Scope list_scope.
#[local] Set Warnings "-register-all".

(** ** JavaScript values *)

Module JS.

(** The values that flow through the options records and the parsed
    manifests. An object is the list of its own enumerable properties in
    the order [Object.keys] enumerates them; its prototype link is not
    part of the model. *)
Inductive JValue : Type :=
| JUndefined
| JNull
| JBool (b : bool)
| JNum (n : Z)
| JStr (s : string)
| JArr (items : list JValue)
| JObj (props : list (string * JValue)).

Abbreviation Obj := (list (string * JValue)).

(** [!! v] *)
Definition truthy (v : JValue) : bool :=
  match v with
  | JUndefined | JNull => false
  | JBool b => b
  | JNum n => negb (n =? 0)%Z
  | JStr s => negb (s =? "")
  | JArr _ | JObj _ => true
  end.

(** [v === void 0] *)
Definition isUndefined (v : JValue) : bool :=
  match v with JUndefined => true | _ => false end.

(** [v === null] *)
Definition isNull (v : JValue) : bool :=
  match v with JNull => true | _ => false end.

(** [v === true] *)
Definition isTrue (v : JValue) : bool :=
  match v with JBool true => true | _ => false end.

(** [a || b] *)
Definition jor (a b : JValue) : JValue := if truthy a then a else b.

(** [names.indexOf(name) !== -1] *)
Fixpoint elem (name : string) (names : list string) : bool :=
  match names with
  | [] => false
  | n :: rest => (n =? name) || elem name rest
  end.

(** [Object.prototype.hasOwnProperty.call(o, name)] on the own properties. *)
Fixpoint hasProp (o : Obj) (name : string) : bool :=
  match o with
  | [] => false
  | (k, _) :: rest => (k =? name) || hasProp rest name
  end.

(** [o[name]] on the own properties; [undefined] when absent. *)
Fixpoint getProp (o : Obj) (name : string) : JValue :=
  match o with
  | [] => JUndefined
  | (k, v) :: rest => if k =? name then v else getProp rest name
  end.

(** Defining or overwriting an own property: an existing key keeps its
    place in the enumeration order, a new key goes last. *)
Fixpoint setProp (o : Obj) (name : string) (v : JValue) : Obj :=
  match o with
  | [] => [(name, v)]
  | (k, w) :: rest =>
      if k =? name then (k, v) :: rest else (k, w) :: setProp rest name v
  end.

(** [o[name] = v] on an ordinary object. Assigning [__proto__] runs the
    setter inherited from [Object.prototype] and creates no own property. *)
Definition putProp (o : Obj) (name : string) (v : JValue) : Obj :=
  if name =? "__proto__" then o else setProp o name v.

(** The property names every ordinary object inherits from
    [Object.prototype]. *)
Definition objectPrototypeNames : list string :=
  [ "constructor"; "__defineGetter__"; "__defineSetter__"; "hasOwnProperty";
    "__lookupGetter__"; "__lookupSetter__"; "isPrototypeOf";
    "propertyIsEnumerable"; "toString"; "valueOf"; "__proto__";
    "toLocaleString" ].

(** [Reflect.has(o, name)], the [in] operator: own or inherited, for an
    object literal (whose prototype is [Object.prototype]). *)
Definition Reflect_has (o : Obj) (name : string) : bool :=
  hasProp o name || elem name objectPrototypeNames.

(** [o !== null] for a value that is a string or [null] *)
Definition is_Some_b {A} (o : option A) : bool :=
  match o with Some _ => true | None => false end.

(** [typeof v === "object" && v !== null] *)
Definition isObjectLike (v : JValue) : bool :=
  match v with JArr _ | JObj _ => true | _ => false end.

(** The own property names of an array of [n] items: its indices in decimal. *)
Definition indexNames (n : nat) : list string :=
  (fun i => NilZero.string_of_uint (Nat.to_uint i)) <$> seq 0 n.

(** Modelled from the spec: [util/keys.js] is not among the sources; the
    own enumerable property names of an object-like value, and no names
    for anything else (the constructor passes [undefined] through it). *)
Definition keys (v : JValue) : list string :=
  match v with
  | JObj props => fst <$> props
  | JArr items => indexNames (length items)
  | _ => []
  end.

(** [v[name]] for the names [keys] yields on an object. *)
Definition get (v : JValue) (name : string) : JValue :=
  match v with
  | JObj props => getProp props name
  | _ => JUndefined
  end.

(** Modelled from the spec: [util/has.js] is not among the sources; an own
    property test that is false on values that are not objects. *)
Definition has (v : JValue) (name : string) : bool :=
  match v with
  | JObj props => hasProp props name
  | _ => false
  end.

(** Modelled from the spec: [util/assign.js] is not among the sources;
    copies every own property of [source] onto [object]. *)
Definition assign (object source : Obj) : Obj :=
  foldl (fun acc kv => putProp acc kv.1 kv.2) object source.

(** Modelled from the spec: [util/defaults.js] is not among the sources;
    fills in, from [source], the properties that [object] lacks or holds
    as [undefined]. *)
Definition defaults (object source : Obj) : Obj :=
  foldl (fun acc kv =>
           if isUndefined (getProp acc kv.1) || negb (hasProp acc kv.1)
           then putProp acc kv.1 kv.2 else acc)
        object source.

End JS.

Export JS.

(** ** Errors and completions *)

Inductive Error : Type :=
| ERR_INVALID_ESM_OPTION (name : string) (value : JValue)
| ERR_UNKNOWN_ESM_OPTION (name : string)
| ForeignError (message : string).

(** The outcome of a call that touches no shared state: a value or a
    thrown error. *)
Inductive Completion (A : Type) : Type :=
| Return (a : A)
| Throw (e : Error).
Arguments Return {A} a.
Arguments Throw {A} e.

Definition bindC {A B} (c : Completion A) (k : A -> Completion B) : Completion B :=
  match c with
  | Return a => k a
  | Throw e => Throw e
  end.

Notation "'let?' x ':=' c 'in' k" := (bindC c (fun x => k))
  (at level 10, x name, c at level 100, k at level 200).

(** ** The options merge of [Package] *)

Module Options.

Section WithConstants.

(** [constant/env.js], [constant/package.js] and [util/to-string-literal.js]
    are not among the sources: the values they export are parameters of
    the development. *)
Variable DEVELOPMENT : bool.
Variables OPTIONS_MODE_ALL OPTIONS_MODE_AUTO OPTIONS_MODE_STRICT : JValue.
Variable toStringLiteral : string -> string.

Definition defaultCJS : Obj :=
  [ ("cache", JBool false);
    ("extensions", JBool false);
    ("interop", JBool false);
    ("mutableNamespace", JBool false);
    ("namedExports", JBool false);
    ("paths", JBool false);
    ("topLevelReturn", JBool false);
    ("vars", JBool false) ].

Definition defaultOptions : Obj :=
  [ ("await", JBool false);
    ("cache", JBool true);
    ("cjs", JObj defaultCJS);
    ("debug", JBool false);
    ("mainFields", JArr [JStr "main"]);
    ("mode", JStr "strict");
    ("sourceMap", JUndefined);
    ("warnings", JBool DEVELOPMENT) ].

Definition autoCJS : Obj :=
  [ ("cache", JBool true);
    ("extensions", JBool true);
    ("interop", JBool true);
    ("mutableNamespace", JBool true);
    ("namedExports", JBool true);
    ("paths", JBool true);
    ("topLevelReturn", JBool false);
    ("vars", JBool true) ].

Definition autoOptions : Obj :=
  [ ("cjs", JObj autoCJS); ("mode", JStr "auto") ].

(** The [for] loop of [createCJS] over the names of an object-like value. *)
Fixpoint cjsLoop (value : JValue) (possibleNames : list string) (options : Obj)
  : Completion Obj :=
  match possibleNames with
  | [] => Return options
  | name :: rest =>
      if Reflect_has defaultCJS name
      then cjsLoop value rest (putProp options name (JBool (truthy (get value name))))
      else Throw (ERR_UNKNOWN_ESM_OPTION ("cjs[" +:+ toStringLiteral name +:+ "]"))
  end.

Definition createCJS (value : JValue) : Completion Obj :=
  let options : Obj := [] in
  if isUndefined value then Return (assign options defaultCJS)
  else if isObjectLike value then
    let? options := cjsLoop value (keys value) options in
    Return (defaults options defaultCJS)
  else
    let names := keys (JObj defaultCJS) in
    let optionsValue := truthy value in
    Return (foldl (fun acc name => putProp acc name (JBool optionsValue)) options names).

(** The [for] loop of [createOptions] over the names of a value that is
    not a string; the accumulator is the pair [names], [options]. *)
Fixpoint optionsLoop (value : JValue) (possibleNames todo : list string)
    (names : list string) (options : Obj) : Completion (list string * Obj) :=
  match todo with
  | [] => Return (names, options)
  | name :: rest =>
      if Reflect_has defaultOptions name then
        optionsLoop value possibleNames rest
          (names ++ [name]) (putProp options name (get value name))
      else if (name =? "sourcemap") && negb (elem "sourceMap" possibleNames) then
        let sourcemap := get value "sourcemap" in
        if negb (isUndefined sourcemap) then
          optionsLoop value possibleNames rest
            (names ++ ["sourceMap"])
            (putProp options "sourceMap" (JBool (truthy sourcemap)))
        else optionsLoop value possibleNames rest names options
      else Throw (ERR_UNKNOWN_ESM_OPTION name)
  end.

Definition normalizeMainFields (mainFields : JValue) : Completion JValue :=
  match mainFields with
  | JArr items => Return (JArr items)
  | JStr s => Return (JArr [JStr s])
  | _ => Throw (ERR_INVALID_ESM_OPTION "mainFields" mainFields)
  end.

Definition normalizeMode (mode : JValue) : Completion JValue :=
  match mode with
  | JStr s =>
      if s =? "all" then Return OPTIONS_MODE_ALL
      else if s =? "auto" then Return OPTIONS_MODE_AUTO
      else if s =? "strict" then Return OPTIONS_MODE_STRICT
      else Throw (ERR_INVALID_ESM_OPTION "mode" mode)
  | _ => Throw (ERR_INVALID_ESM_OPTION "mode" mode)
  end.

Definition normalizeCache (cache : JValue) : JValue :=
  match cache with
  | JStr _ => cache
  | _ => JBool (truthy cache)
  end.

Definition createOptions (value : JValue) : Completion Obj :=
  let? no := match value with
         | JStr _ => Return (["mode"], putProp [] "mode" value)
         | _ => let possibleNames := keys value in
                optionsLoop value possibleNames possibleNames [] []
         end in
  let names := no.1 in
  let options := no.2 in
  let options :=
    if negb (elem "cjs" names)
    then putProp options "cjs" (getProp autoOptions "cjs") else options in
  let options :=
    if negb (elem "mode" names)
    then putProp options "mode" (getProp autoOptions "mode") else options in
  let? cjsOptions := createCJS (getProp options "cjs") in
  let options := defaults options defaultOptions in
  let options := putProp options "cjs" (JObj cjsOptions) in
  let? mainFields := normalizeMainFields (getProp options "mainFields") in
  let options := putProp options "mainFields" mainFields in
  let? mode := normalizeMode (getProp options "mode") in
  let options := putProp options "mode" mode in
  let options := putProp options "cache" (normalizeCache (getProp options "cache")) in
  let options := putProp options "debug" (JBool (truthy (getProp options "debug"))) in
  let options := putProp options "warnings" (JBool (truthy (getProp options "warnings"))) in
  Return options.

End WithConstants.

End Options.

(** ** File probe *)

Module FileProbe.

(** The file system as the resolver sees it: the files, by path, in the
    order directory enumeration yields them. *)
Abbreviation Files := (list (string * string)).

Fixpoint stripPrefix (pre s : string) : option string :=
  match pre, s with
  | EmptyString, _ => Some s
  | String a pre', String b s' => if Ascii.eqb a b then stripPrefix pre' s' else None
  | String _ _, EmptyString => None
  end.

(** [s.includes(sub)] *)
Fixpoint includes (sub s : string) : bool :=
  String.prefix sub s ||
  match s with
  | EmptyString => false
  | String _ s' => includes sub s'
  end.

Section WithSeparator.

Variable sep : string.

(** Modelled from the spec: [fs/read-file.js] and [fs/read-file-fast.js]
    are not among the sources; the content of the file, or [null] (here
    [None]) when there is none. *)
Fixpoint readFile (fs : Files) (path : string) : option string :=
  match fs with
  | [] => None
  | (p, content) :: rest => if p =? path then Some content else readFile rest path
  end.

(** Modelled from the spec: [util/is-file.js] is not among the sources. *)
Definition isFile (fs : Files) (path : string) : bool :=
  match readFile fs path with Some _ => true | None => false end.

(** Modelled from the spec: [fs/remove-file.js] is not among the sources;
    the file is gone afterwards, and removing an absent file is a no-op. *)
Definition removeFile (fs : Files) (path : string) : Files :=
  filter (fun pc => negb (pc.1 =? path)) fs.

(** The name under which [path] is listed in directory [dirPath]. *)
Definition childName (dirPath path : string) : option string :=
  match stripPrefix (dirPath +:+ sep) path with
  | Some name => if includes sep name then None else Some name
  | None => None
  end.

(** Modelled from the spec: [fs/readdir.js] is not among the sources; the
    names of the files of the directory, empty when there is none. *)
Definition readdir (fs : Files) (dirPath : string) : list string :=
  omap (fun pc => childName dirPath pc.1) fs.

End WithSeparator.

End FileProbe.

Export FileProbe.

(** ** Shared state *)

(** [shared.package.dir[cachePath]]: the artifact cache of a cache path. *)
Record Cache : Type := mkCache {
  buffer : option string;
  compile : Obj;
  map : JValue;
}.

(** An instance of [Package]. Its [cache] field is the object registered
    at [shared.package.dir[cachePath]], which is never replaced once
    registered: the model reads it through [cachePath]. *)
Record PackageObj : Type := mkPackage {
  cachePath : string;
  dirPath : string;
  options : Obj;
  range : JValue;
}.

(** References to [Package] instances: positions in the heap. *)
Abbreviation Ref := nat.

Record State : Type := mkState {
  files : Files;
  (** [shared.package.dir] *)
  dir : gmap string Cache;
  (** [shared.package.root] *)
  root : gmap string string;
  (** the [Package] instances allocated so far *)
  heap : list PackageObj;
  (** [Package.state.cache]; [Some None] is a memoized [null] *)
  memo : gmap string (option Ref);
  (** [Package.state.default] *)
  state_default : option Ref;
  (** [shared.moduleState.parseOnly], [shared.moduleState.parsing] *)
  moduleState : bool * bool;
  (** the cache paths whose cache in [dir] is still the object the
      constructor registers before it scans the directory,
      [{ buffer: null, compile: null, map: null }]: the scan threw, and
      [compile] never became an index; [dir] holds such a cache with an
      empty [compile] *)
  unbuilt : gset string;
}.

Definition setFiles (st : State) (fs : Files) : State :=
  mkState fs (dir st) (root st) (heap st) (memo st) (state_default st) (moduleState st)
          (unbuilt st).
Definition setDir (st : State) (d : gmap string Cache) : State :=
  mkState (files st) d (root st) (heap st) (memo st) (state_default st) (moduleState st)
          (unbuilt st).
Definition setRoot (st : State) (r : gmap string string) : State :=
  mkState (files st) (dir st) r (heap st) (memo st) (state_default st) (moduleState st)
          (unbuilt st).
Definition setHeap (st : State) (h : list PackageObj) : State :=
  mkState (files st) (dir st) (root st) h (memo st) (state_default st) (moduleState st)
          (unbuilt st).
Definition setMemo (st : State) (m : gmap string (option Ref)) : State :=
  mkState (files st) (dir st) (root st) (heap st) m (state_default st) (moduleState st)
          (unbuilt st).
Definition setModuleState (st : State) (ms : bool * bool) : State :=
  mkState (files st) (dir st) (root st) (heap st) (memo st) (state_default st) ms
          (unbuilt st).
Definition setUnbuilt (st : State) (u : gset string) : State :=
  mkState (files st) (dir st) (root st) (heap st) (memo st) (state_default st)
          (moduleState st) u.

(** The outcome of a call that works on the shared state: a value, a
    thrown error, or no answer within the recursion budget. *)
Inductive Outcome (A : Type) : Type :=
| Done (a : A) (st : State)
| Failed (e : Error) (st : State)
| Diverged.
Arguments Done {A} a st.
Arguments Failed {A} e st.
Arguments Diverged {A}.

Definition M (A : Type) : Type := State -> Outcome A.

Definition retM {A} (a : A) : M A := fun st => Done a st.
Definition bindM {A B} (c : M A) (k : A -> M B) : M B :=
  fun st =>
    match c st with
    | Done a st' => k a st'
    | Failed e st' => Failed e st'
    | Diverged => Diverged
    end.
Definition liftC {A} (c : Completion A) : M A :=
  fun st => match c with Return a => Done a st | Throw e => Failed e st end.
Definition getState : M State := fun st => Done st st.
Definition modify (f : State -> State) : M unit := fun st => Done tt (f st).
(** [try { body } finally { st := restore st }] *)
Definition finallyM {A} (body : M A) (restore : State -> State) : M A :=
  fun st =>
    match body st with
    | Done a st' => Done a (restore st')
    | Failed e st' => Failed e (restore st')
    | Diverged => Diverged
    end.

Notation "'let!' x ':=' c 'in' k" := (bindM c (fun x => k))
  (at level 10, x name, c at level 100, k at level 200).

(** ** The [Package] class *)

Module Package.

Section WithEnvironment.

(** What [src/package.js] imports and the sources do not hold:
    the constants of [constant/env.js], [constant/esm.js] and
    [constant/package.js]; Node's path functions ([safe/path.js],
    [path/dirname.js], [path/extname.js]); the parsers
    ([util/parse-json.js], [util/parse-json6.js]); [validRange] of the
    semver package; the module finder and the loader
    ([module/_find-path.js], [module/esm/load.js]). *)
Variable DEVELOPMENT : bool.
Variable OPTIONS : JValue.
Variable NYC : bool.
Variable PKG_VERSION : string.
Variables OPTIONS_MODE_ALL OPTIONS_MODE_AUTO OPTIONS_MODE_STRICT : JValue.
Variable RANGE_ALL : JValue.
Variable sep : string.
Variables basename dirname extname : string -> string.
Variable resolve : string -> string -> string.
Variable resolve1 : string -> string.
Variable toStringLiteral : string -> string.
Variables parseJSON parseJSON6 : string -> JValue.
Variable validRange : JValue -> JValue.
Variable _findPath : Files -> string -> list string -> bool -> list string -> string.
(** [loadESM(path, null, false).module.exports]: the exports of the
    activation script, or the error its evaluation throws. *)
Variable loadESM : Files -> string -> Completion JValue.

Definition ESMRC_FILENAME := ".esmrc".
Definition PACKAGE_FILENAME := "package.json".
Definition searchExts := [".mjs"; ".js"; ".json"].

Definition createOptions : JValue -> Completion Obj :=
  Options.createOptions DEVELOPMENT
    OPTIONS_MODE_ALL OPTIONS_MODE_AUTO OPTIONS_MODE_STRICT toStringLiteral.

(** Modelled from the spec: [fs/read-json.js] and [fs/read-json6.js] are
    not among the sources; the parsed content of the file, [null] when
    there is no file. *)
Definition readJSON (fs : Files) (path : string) : JValue :=
  match readFile fs path with Some text => parseJSON text | None => JNull end.
Definition readJSON6 (fs : Files) (path : string) : JValue :=
  match readFile fs path with Some text => parseJSON6 text | None => JNull end.

(** [v.name]: a [TypeError] on [null] and [undefined]. *)
Definition member (v : JValue) (name : string) : Completion JValue :=
  match v with
  | JUndefined | JNull => Throw (ForeignError "TypeError")
  | _ => Return (get v name)
  end.

(** [v !== s] for a string [s] *)
Definition differsFrom (v : JValue) (s : string) : bool :=
  match v with JStr t => negb (t =? s) | _ => true end.

(** [cacheName.charCodeAt(0) !== DOT] *)
Definition notDotted (cacheName : string) : bool :=
  match cacheName with
  | String c _ => negb (Ascii.eqb c "."%char)
  | EmptyString => true
  end.

(** The locals the constructor's scan of the cache directory sets. *)
Record Scan : Type := mkScan {
  compileCache : Obj;
  hasBuffer : bool;
  hasDirtyMarker : bool;
  hasMap : bool;
  hasNycMarker : bool;
}.

Definition scanStart : Scan := mkScan [] false false false false.

(** The [for] loop over [cacheNames]; it stops at the dirty marker. *)
Fixpoint scanCacheNames (cacheNames : list string) (s : Scan) : Scan :=
  match cacheNames with
  | [] => s
  | cacheName :: rest =>
      if notDotted cacheName then
        scanCacheNames rest
          (mkScan (setProp (compileCache s) cacheName (JBool true))
                  (hasBuffer s) (hasDirtyMarker s) (hasMap s) (hasNycMarker s))
      else if cacheName =? ".data.blob" then
        scanCacheNames rest
          (mkScan (compileCache s) true (hasDirtyMarker s) (hasMap s) (hasNycMarker s))
      else if cacheName =? ".data.json" then
        scanCacheNames rest
          (mkScan (compileCache s) (hasBuffer s) (hasDirtyMarker s) true (hasNycMarker s))
      else if cacheName =? ".dirty" then
        mkScan (compileCache s) (hasBuffer s) true (hasMap s) (hasNycMarker s)
      else if cacheName =? ".nyc" then
        scanCacheNames rest
          (mkScan (compileCache s) (hasBuffer s) (hasDirtyMarker s) (hasMap s) true)
      else scanCacheNames rest s
  end.

Definition clearBabelCache (fs : Files) (cachePath : string) : Files :=
  let babelCachePath := resolve cachePath "../@babel/register" in
  let cacheNames := readdir sep fs babelCachePath in
  foldl (fun fs cacheName =>
           if extname cacheName =? ".json"
           then removeFile fs (babelCachePath +:+ sep +:+ cacheName) else fs)
        fs cacheNames.

(** The part of the constructor that runs when [cachePath] is not empty
    and no cache is registered for it yet: it loads the cache directory
    and yields the files left on disk and the loaded cache. *)
Definition loadCache (fs : Files) (cachePath : string) : Completion (Files * Cache) :=
  let cacheNames := readdir sep fs cachePath in
  let s := scanCacheNames cacheNames scanStart in
  let hasNycNoMarker := NYC && negb (hasNycMarker s) in
  let noNycHasMarker := negb NYC && hasNycMarker s in
  let isCacheInvalid := hasDirtyMarker s || hasNycNoMarker || noNycHasMarker in
  let dataJSON :=
    if hasMap s && negb isCacheInvalid
    then readJSON fs (cachePath +:+ sep +:+ ".data.json") else JUndefined in
  let? isCacheInvalid :=
    (if hasMap s && negb isCacheInvalid
     then let? version := member dataJSON "version" in
          Return (differsFrom version PKG_VERSION)
     else Return isCacheInvalid) in
  let fs := if hasDirtyMarker s then removeFile fs (cachePath +:+ sep +:+ ".dirty") else fs in
  let fs := if noNycHasMarker then removeFile fs (cachePath +:+ sep +:+ ".nyc") else fs in
  let compileCache' := if isCacheInvalid then [] else compileCache s in
  let hasBuffer' := if isCacheInvalid then false else hasBuffer s in
  let hasMap' := if isCacheInvalid then false else hasMap s in
  let fs := if isCacheInvalid then clearBabelCache fs cachePath else fs in
  let buffer := if hasBuffer' then readFile fs (cachePath +:+ sep +:+ ".data.blob") else Some "" in
  let? map := (if hasMap' then member dataJSON "map" else Return (JObj [])) in
  Return (fs, mkCache buffer compileCache' map).

(** The [cachePath] the constructor derives from the merged options. *)
Definition cachePathFor (dirPath : string) (options : Obj) : string :=
  match getProp options "cache" with
  | JStr s => resolve dirPath s
  | JBool false => ""
  | _ => dirPath +:+ sep +:+ "node_modules" +:+ sep +:+ ".cache" +:+ sep +:+ "esm"
  end.

(** Modelled from the spec: the [get] of the artifact cache is not among
    the sources; the index entry of the name, [undefined] when the index
    has none. *)
Definition cacheGet (cache : Cache) (entryName : string) : JValue :=
  getProp (compile cache) entryName.

(** [new Package(dirPath, range, options)]: the new instance is
    allocated on the heap once the constructor's body has run. The
    constructor registers the cache object under [cachePath] before it
    scans the directory and fills the object in afterwards; nothing reads
    the registry in between, so a load that returns registers the loaded
    cache in one step, and a load that throws leaves the object as
    registered, with [null] fields, and marks it in [unbuilt]. *)
Definition newPackage (dirPath : string) (range : JValue) (options : JValue) : M Ref :=
  let! options := liftC (createOptions options) in
  let cachePath := cachePathFor dirPath options in
  let! st := getState in
  let! _ :=
    match dir st !! cachePath with
    | Some _ => retM tt
    | None =>
        if cachePath =? "" then
          modify (fun st => setDir st (<[cachePath := mkCache None [] JNull]> (dir st)))
        else
          fun st =>
            match loadCache (files st) cachePath with
            | Return fc =>
                Done tt (setDir (setFiles st fc.1) (<[cachePath := fc.2]> (dir st)))
            | Throw e =>
                Failed e
                  (setUnbuilt
                     (setDir st (<[cachePath := mkCache None [] JNull]> (dir st)))
                     ({[cachePath]} ∪ unbuilt st))
            end
    end in
  let! st := getState in
  let! _ := modify (fun st => setHeap st (heap st ++ [mkPackage cachePath dirPath options range])) in
  retM (length (heap st)).

(** [Package.set(dirPath, pkg)] *)
Definition set (dirPath : string) (pkg : option Ref) : M unit :=
  modify (fun st => setMemo st (<[dirPath := pkg]> (memo st))).

Fixpoint findRoot (fuel : nat) (fs : Files) (dirPath : string) : option string :=
  match fuel with
  | O => None
  | S fuel =>
      if (basename dirPath =? "node_modules")
         || isFile fs (dirPath +:+ sep +:+ PACKAGE_FILENAME)
      then Some dirPath
      else
        let parentPath := dirname dirPath in
        if parentPath =? dirPath then Some ""
        else if basename parentPath =? "node_modules" then Some dirPath
        else findRoot fuel fs parentPath
  end.

Definition getRoot (fuel : nat) (dirPath : string) : M string :=
  fun st =>
    match root st !! dirPath with
    | Some cached =>
        if negb (cached =? "") then Done cached st
        else match findRoot fuel (files st) dirPath with
             | None => Diverged
             | Some found =>
                 let r := if negb (found =? "") then found else dirPath in
                 Done r (setRoot st (<[dirPath := r]> (root st)))
             end
    | None =>
        match findRoot fuel (files st) dirPath with
        | None => Diverged
        | Some found =>
            let r := if negb (found =? "") then found else dirPath in
            Done r (setRoot st (<[dirPath := r]> (root st)))
        end
    end.

Definition getRange (json : JValue) (name : string) : JValue :=
  if has json name then
    let object := get json name in
    if has object "esm" then validRange (get object "esm") else JNull
  else JNull.

(** [pkg.options = options] and [pkg.range = range] on the instance at [pkg]. *)
Definition assignOptions (pkg : Ref) (opts : Obj) : M unit :=
  modify (fun st =>
    setHeap st (alter (fun p => mkPackage (cachePath p) (dirPath p) opts (range p))
                      pkg (heap st))).
Definition assignRange (pkg : Ref) (r : JValue) : M unit :=
  modify (fun st =>
    setHeap st (alter (fun p => mkPackage (cachePath p) (dirPath p) (options p) r)
                      pkg (heap st))).

(** [parentPkg.range] *)
Definition rangeOf (st : State) (pkg : Ref) : JValue :=
  match heap st !! pkg with Some p => range p | None => JUndefined end.

(** What the first part of [readInfo] leaves in its locals
    [optionsFound], [options] and [pkg]. *)
Record Probe : Type := mkProbe {
  optionsFound : bool;
  foundOptions : JValue;
  scriptPkg : option Ref;
}.

(** [readInfo] up to [let parentPkg]: the search for an activation file. *)
Definition probeOptions (dirPath : string) : M Probe :=
  let! st := getState in
  let text := readFile (files st) (dirPath +:+ sep +:+ ESMRC_FILENAME) in
  match text with
  | Some text => retM (mkProbe true (parseJSON6 text) None)
  | None =>
      let optionsPath := _findPath (files st) ESMRC_FILENAME [dirPath] false searchExts in
      if negb (optionsPath =? "") then
        if extname optionsPath =? ".json" then
          retM (mkProbe true (readJSON6 (files st) optionsPath) None)
        else
          let saved := moduleState st in
          let! _ := modify (fun st => setModuleState st (false, false)) in
          let! pkg := newPackage dirPath RANGE_ALL JUndefined in
          let! _ := set dirPath (Some pkg) in
          let! _ :=
            finallyM
              (let! st := getState in
               let! exports := liftC (loadESM (files st) optionsPath) in
               let! opts := liftC (createOptions exports) in
               assignOptions pkg opts)
              (fun st => setModuleState st saved) in
          retM (mkProbe true JNull (Some pkg))
      else retM (mkProbe false JNull None)
  end.

(** The tail of [readInfo], from [if (pkg)] on. *)
Definition finishInfo (fuel : nat) (dirPath : string) (p : Probe)
    (pkgParsed : bool) (pkgText : option string) (range : JValue) : M (option Ref) :=
  match scriptPkg p with
  | Some pkg =>
      let! _ := assignRange pkg range in
      retM (Some pkg)
  | None =>
      let options :=
        if isTrue (foundOptions p) || negb (optionsFound p)
        then OPTIONS else foundOptions p in
      let! dirPath :=
        (if negb pkgParsed && negb (is_Some_b pkgText)
         then getRoot fuel dirPath else retM dirPath) in
      let! pkg := newPackage dirPath range options in
      retM (Some pkg)
  end.

Definition readInfo (fuel : nat) (getInfo : string -> bool -> M (option Ref))
    (dirPath : string) (force : bool) : M (option Ref) :=
  let! p := probeOptions dirPath in
  let! st := getState in
  let pkgText := readFile (files st) (dirPath +:+ sep +:+ PACKAGE_FILENAME) in
  if negb force && negb (is_Some_b pkgText) && negb (optionsFound p) then retM None
  else
    let! parentPkg :=
      (if negb force && negb (is_Some_b pkgText)
       then getInfo (dirname dirPath) false else retM None) in
    (* if (! optionsFound && pkgJSON !== null) *)
    let parsedEarly := negb (optionsFound p) && is_Some_b pkgText in
    let pkgJSON :=
      match pkgText with
      | Some text => if parsedEarly then parseJSON text else JNull
      | None => JNull
      end in
    let p :=
      if parsedEarly && has pkgJSON "esm"
      then mkProbe true (get pkgJSON "esm") (scriptPkg p) else p in
    if force then finishInfo fuel dirPath p parsedEarly pkgText RANGE_ALL
    else
      match parentPkg with
      | Some parent =>
          let! st := getState in
          finishInfo fuel dirPath p parsedEarly pkgText (rangeOf st parent)
      | None =>
          let pkgJSON :=
            match pkgText with
            | Some text => if parsedEarly then pkgJSON else parseJSON text
            | None => JNull
            end in
          let pkgParsed := parsedEarly || is_Some_b pkgText in
          let range :=
            jor (getRange pkgJSON "dependencies") (getRange pkgJSON "peerDependencies") in
          if isNull range then
            if optionsFound p || truthy (getRange pkgJSON "devDependencies")
            then finishInfo fuel dirPath p pkgParsed pkgText RANGE_ALL
            else retM None
          else finishInfo fuel dirPath p pkgParsed pkgText range
      end.

(** [getInfo] past the memo check; [getInfo] stands for the recursive
    calls. *)
Definition resolveInfo (fuel : nat) (getInfo : string -> bool -> M (option Ref))
    (dirPath : string) (force : bool) : M (option Ref) :=
  if basename dirPath =? "node_modules" then
    let! _ := set dirPath None in retM None
  else
    let! pkg := readInfo fuel getInfo dirPath false in
    let! pkg :=
      match pkg with
      | None =>
          let parentPath := dirname dirPath in
          if negb (parentPath =? dirPath)
          then getInfo parentPath false else retM None
      | Some _ => retM pkg
      end in
    let! pkg :=
      match pkg with
      | None => if force then readInfo fuel getInfo dirPath force else retM None
      | Some _ => retM pkg
      end in
    let! _ := set dirPath pkg in
    retM pkg.

(** The recursion of [getInfo] through parent directories has no bound
    in the source; [fuel] bounds its depth here. *)
Fixpoint getInfo (fuel : nat) (dirPath : string) (force : bool) : M (option Ref) :=
  match fuel with
  | O => fun _ => Diverged
  | S fuel =>
      let! st := getState in
      match memo st !! dirPath with
      | Some (Some pkg) => retM (Some pkg)
      | Some None =>
          if negb force then retM None
          else resolveInfo fuel (getInfo fuel) dirPath force
      | None => resolveInfo fuel (getInfo fuel) dirPath force
      end
  end.

(** [Package.get(dirPath, force)] *)
Definition get (fuel : nat) (dirPath : string) (force : bool) : M (option Ref) :=
  let dirPath := if dirPath =? "." then resolve1 dirPath else dirPath in
  let! pkg := getInfo fuel dirPath force in
  let! st := getState in
  retM (match pkg with Some _ => pkg | None => state_default st end).

(** The state once the module body has run on a disk holding [fs]: the
    memo holds the in-memory package of the empty path. *)
Definition boot (fs : Files) : Outcome unit :=
  (let! pkg := newPackage "" (JStr PKG_VERSION)
                 (JObj [("cache", JBool false); ("cjs", JBool true)]) in
   set "" (Some pkg))
    (mkState fs ∅ ∅ [] ∅ None (false, false) ∅).

End WithEnvironment.

End Package.

(** ** The compiler front end *)

Module Compiler.

(** [{ type, code }] as the translator returns it. *)
Record CompileResult : Type := mkResult {
  result_type : string;
  result_code : string;
}.

(** [pkgInfo] as the compiler front end uses it: [cache] is a reference
    into the store of caches (the object is shared by every package of
    the same cache path), [options] the package options. *)
Record PkgInfo : Type := mkPkgInfo {
  pkgCache : nat;
  pkgDirPath : string;
  pkgOptions : JValue;
}.

(** The options record [compile] works on, after [util/create-options]. *)
Record CallOptions : Type := mkCallOptions {
  filePath : option string;
  cachePath : string;
  cacheFileName : string;
  pkgInfo : PkgInfo;
  runtimeAlias : JValue;
}.

Record CompileOptions : Type := mkCompileOptions {
  co_cjs : JValue;
  co_ext : JValue;
  co_runtimeAlias : JValue;
  co_type : string;
  co_var : JValue;
}.

(** A write handed to [writeFileDefer] and not yet carried out. The
    completion callback of [compileAndWrite] closes over the cache, the
    cache path and the entry name: these are its data here. *)
Record DeferredWrite : Type := mkDeferred {
  dw_path : string;
  dw_content : string;
  dw_encoding : option string;
  dw_scopePath : string;
  dw_cache : nat;
  dw_cachePath : string;
  dw_cacheFileName : string;
}.

(** The state of the front end: the caches (each an insertion-ordered
    map from entry name to result), the files on disk with their
    content, the deferred writes in flight. *)
Record CState : Type := mkCState {
  caches : gmap nat (list (string * CompileResult));
  disk : gmap string string;
  pending : list DeferredWrite;
}.

(** [cache.set(name, result)] on an insertion-ordered map. *)
Fixpoint cacheSet (entries : list (string * CompileResult)) (name : string)
    (result : CompileResult) : list (string * CompileResult) :=
  match entries with
  | [] => [(name, result)]
  | (k, r) :: rest =>
      if k =? name then (k, result) :: rest else (k, r) :: cacheSet rest name result
  end.

(** [cache.get(name)] *)
Fixpoint cacheGetEntry (entries : list (string * CompileResult)) (name : string)
  : option CompileResult :=
  match entries with
  | [] => None
  | (k, r) :: rest => if k =? name then Some r else cacheGetEntry rest name
  end.

(** [cache.keys()] *)
Definition cacheKeys (entries : list (string * CompileResult)) : list string :=
  fst <$> entries.

(** A JavaScript string is a sequence of UTF-16 code units, and
    [slice] and [startsWith] count in them. A [string] holds the UTF-8
    bytes of a name: [utf16] gives its code units, a surrogate pair for a
    four-byte sequence and [U+FFFD] for a byte that starts no sequence. *)
Definition continuation (a : ascii) : option N :=
  let b := N_of_ascii a in
  if (128 <=? b)%N && (b <? 192)%N then Some (b - 128)%N else None.

Fixpoint utf16 (s : string) : list N :=
  match s with
  | EmptyString => []
  | String a r =>
      let b := N_of_ascii a in
      if (b <? 128)%N then b :: utf16 r
      else
        match r with
        | String a1 r1 =>
            match continuation a1 with
            | Some c1 =>
                if (192 <=? b)%N && (b <? 224)%N
                then ((b - 192) * 64 + c1)%N :: utf16 r1
                else
                  match r1 with
                  | String a2 r2 =>
                      match continuation a2 with
                      | Some c2 =>
                          if (224 <=? b)%N && (b <? 240)%N
                          then ((b - 224) * 4096 + c1 * 64 + c2)%N :: utf16 r2
                          else
                            match r2 with
                            | String a3 r3 =>
                                match continuation a3 with
                                | Some c3 =>
                                    if (240 <=? b)%N && (b <? 248)%N then
                                      let cp :=
                                        ((b - 240) * 262144 + c1 * 4096 + c2 * 64 + c3
                                         - 65536)%N in
                                      (55296 + cp / 1024)%N :: (56320 + cp mod 1024)%N
                                        :: utf16 r3
                                    else 65533%N :: utf16 r
                                | None => 65533%N :: utf16 r
                                end
                            | EmptyString => 65533%N :: utf16 r
                            end
                      | None => 65533%N :: utf16 r
                      end
                  | EmptyString => 65533%N :: utf16 r
                  end
            | None => 65533%N :: utf16 r
            end
        | EmptyString => [65533%N]
        end
  end.

(** [l.startsWith(p)] on code units *)
Fixpoint startsWith (l p : list N) : bool :=
  match p, l with
  | [], _ => true
  | x :: p', y :: l' => (x =? y)%N && startsWith l' p'
  | _ :: _, [] => false
  end.

(** [key.startsWith(cacheFileName.slice(0, 8))] *)
Definition sharesShortname (cacheFileName key : string) : bool :=
  startsWith (utf16 key) (take 8 (utf16 cacheFileName)).

Section WithCollaborators.

(** The translator ([compiler.js]), [fs/gzip.js] and Node's [path] are
    not among the sources. *)
Variable compile : string -> CompileOptions -> Completion CompileResult.
Variable gzip : string -> string.
Variable path_join : string -> string -> string.
Variable path_extname : string -> string.

Definition toCompileOptions (options : CallOptions) : CompileOptions :=
  let pkgOptions := pkgOptions (pkgInfo options) in
  let type :=
    match filePath options with
    | Some filePath =>
        if path_extname filePath =? ".mjs" then "module"
        else match JS.get pkgOptions "esm" with
             | JStr "js" => "unambiguous"
             | _ => "script"
             end
    | None =>
        match JS.get pkgOptions "esm" with
        | JStr "js" => "unambiguous"
        | _ => "script"
        end
    end in
  mkCompileOptions (JS.get pkgOptions "cjs") (JS.get pkgOptions "ext")
    (runtimeAlias options) type (JS.get pkgOptions "var").

Definition cacheOf (st : CState) (c : nat) : list (string * CompileResult) :=
  default [] (caches st !! c).

Definition compileAndCache (code : string) (options : CallOptions) (st : CState)
  : Completion (CompileResult * CState) :=
  let? result := compile code (toCompileOptions options) in
  let c := pkgCache (pkgInfo options) in
  Return (result,
          mkCState (<[c := cacheSet (cacheOf st c) (cacheFileName options) result]> (caches st))
                   (disk st) (pending st)).

(** Modelled from the spec: [fs/write-file-defer.js] is not among the
    sources; the write is deferred, so the call only records it. *)
Definition writeFileDefer (w : DeferredWrite) (st : CState) : CState :=
  mkCState (caches st) (disk st) (pending st ++ [w]).

Definition compileAndWrite (code : string) (options : CallOptions) (st : CState)
  : Completion (CompileResult * CState) :=
  let? rs := compileAndCache code options st in
  let result := rs.1 in
  let st := rs.2 in
  if negb (result_type result =? "module") then Return (result, st)
  else
    let cachePath := cachePath options in
    let cacheFileName := cacheFileName options in
    let cacheFilePath := path_join cachePath cacheFileName in
    let output := result_code result in
    let isGzipped := path_extname cacheFilePath =? ".gz" in
    let content := if isGzipped then gzip output else output in
    let encoding := if isGzipped then None else Some "utf8" in
    let pkgInfo := pkgInfo options in
    let scopePath := pkgDirPath pkgInfo in
    Return (result,
            writeFileDefer
              (mkDeferred cacheFilePath content encoding scopePath
                          (pkgCache pkgInfo) cachePath cacheFileName)
              st).

(** [compileWithFilename]: the error is thrown on, tagged with the file
    (the tag is not part of [Error]). *)
Definition compileWithFilename (code : string) (options : CallOptions) (st : CState)
  : Completion (CompileResult * CState) :=
  compileAndWrite code options st.

(** [Compiler.compile], on options [util/create-options] has filled. *)
Definition Compiler_compile (code : string) (options : CallOptions) (st : CState)
  : Completion (CompileResult * CState) :=
  match filePath options with
  | Some _ => compileWithFilename code options st
  | None => compileAndCache code options st
  end.

(** Modelled from the spec: [fs/remove-file.js] is not among the sources. *)
Definition removeFile (d : gmap string string) (path : string) : gmap string string :=
  delete path d.

Definition removeExpired (keys : list string) (cachePath cacheFileName : string)
    (d : gmap string string) : gmap string string :=
  foldl (fun d key =>
           if negb (key =? cacheFileName) && sharesShortname cacheFileName key
           then removeFile d (path_join cachePath key) else d)
        d keys.

(** The callback [compileAndWrite] hands to [writeFileDefer]. *)
Definition onDone (w : DeferredWrite) (success : bool) (st : CState) : CState :=
  if success then
    mkCState (caches st)
      (removeExpired (cacheKeys (cacheOf st (dw_cache w)))
                     (dw_cachePath w) (dw_cacheFileName w) (disk st))
      (pending st)
  else st.

(** Modelled from the spec: the completion of the deferred write at
    position [i]. On success the content is on disk and the callback runs
    with [true]; on failure the disk is as it was and the callback runs
    with [false]. *)
Definition completeWrite (i : nat) (success : bool) (st : CState) : CState :=
  match pending st !! i with
  | None => st
  | Some w =>
      let written :=
        if success then <[dw_path w := dw_content w]> (disk st) else disk st in
      onDone w success (mkCState (caches st) written (delete i (pending st)))
  end.

End WithCollaborators.

End Compiler.

(** ** A small environment for the examples *)

Module Sample.

(** The segment after the last separator, and what precedes it. *)
Fixpoint splitLast (path dirAcc segAcc : string) : string * string :=
  match path with
  | EmptyString => (dirAcc, segAcc)
  | String c rest =>
      if Ascii.eqb c "/"%char
      then splitLast rest (dirAcc +:+ (if dirAcc =? "" then "" else "/") +:+ segAcc) ""
      else splitLast rest dirAcc (segAcc +:+ String c EmptyString)
  end.

Definition basename (path : string) : string := (splitLast path "" "").2.

Definition dirname (path : string) : string :=
  match path with
  | String c rest =>
      if Ascii.eqb c "/"%char then
        String c match rest with
                 | EmptyString => EmptyString
                 | _ => (splitLast rest "" "").1
                 end
      else (splitLast path "" "").1
  | EmptyString => "."
  end.

Fixpoint lastDot (name acc : string) (seen : bool) : string :=
  match name with
  | EmptyString => if seen then acc else ""
  | String c rest =>
      if Ascii.eqb c "."%char then lastDot rest "." true
      else lastDot rest (acc +:+ String c EmptyString) seen
  end.

Definition extname (path : string) : string :=
  match basename path with
  | String _ rest => lastDot rest "" false
  | EmptyString => ""
  end.

Definition resolve (from to : string) : string :=
  match stripPrefix "../" to with
  | Some rest => dirname from +:+ "/" +:+ rest
  | None => if String.prefix "/" to then to else from +:+ "/" +:+ to
  end.

(** What [createOptions] makes of the empty record, with [mode] the
    constant that stands for the auto mode. *)
Definition autoRecord (mode : JValue) : Obj :=
  [ ("cjs", JObj [ ("cache", JBool true); ("extensions", JBool true);
                   ("interop", JBool true); ("mutableNamespace", JBool true);
                   ("namedExports", JBool true); ("paths", JBool true);
                   ("topLevelReturn", JBool false); ("vars", JBool true) ]);
    ("mode", mode);
    ("await", JBool false);
    ("cache", JBool true);
    ("debug", JBool false);
    ("mainFields", JArr [JStr "main"]);
    ("sourceMap", JUndefined);
    ("warnings", JBool false) ].

(** A parser that knows two documents: a manifest that declares the tool
    under [devDependencies] only, and cache metadata of version 1.0.0. *)
Definition parse (text : string) : JValue :=
  if text =? "dev-only manifest" then
    JObj [("name", JStr "app");
          ("devDependencies", JObj [("esm", JStr "^3.0.0")])]
  else if text =? "metadata 1.0.0" then
    JObj [("version", JStr "1.0.0"); ("map", JObj [])]
  else JNull.

(** [validRange] on the ranges of the examples: a non-empty string is a
    range, anything else is not. *)
Definition validRange (v : JValue) : JValue :=
  match v with
  | JStr s => if s =? "" then JStr "*" else JStr s
  | _ => JNull
  end.

Definition findPath (fs : Files) (request : string) (paths : list string)
    (isMain : bool) (exts : list string) : string :=
  match paths with
  | [dirPath] =>
      default ""
        (head (filter (fun p => isFile fs p)
                      ((fun ext => dirPath +:+ "/" +:+ request +:+ ext) <$> exts)))
  | _ => ""
  end.

Definition loadESM (fs : Files) (path : string) : Completion JValue :=
  Return (JObj []).

Definition newPackage :=
  Package.newPackage false false "2.0.0" (JNum 1) (JNum 2) (JNum 3) "/"
    extname resolve (fun s => s) parse.

Definition getInfo :=
  Package.getInfo false (JObj []) false "2.0.0" (JNum 1) (JNum 2) (JNum 3) (JStr "*")
    "/" basename dirname extname resolve (fun s => s) parse parse validRange
    findPath loadESM.

Definition emptyState (fs : Files) : State :=
  mkState fs ∅ ∅ [] ∅ None (false, false) ∅.

(** The value and the state of an outcome. *)
Definition valueOf {A} (o : Outcome A) : option A :=
  match o with Done a _ => Some a | _ => None end.
Definition stateOf {A} (o : Outcome A) (otherwise : State) : State :=
  match o with Done _ st => st | _ => otherwise end.

(** A project whose manifest declares the tool under [devDependencies]
    only, without an activation file and without a cache directory. *)
Definition devProject : State :=
  emptyState [("/app/package.json", "dev-only manifest")].

(** The same project with an activation file next to the manifest. *)
Definition rcProject : State :=
  emptyState [("/app/package.json", "dev-only manifest"); ("/app/.esmrc", "{}")].

(** A project whose cache was written by version 1.0.0. *)
Definition staleProject : State :=
  emptyState [ ("/app/node_modules/.cache/esm/.data.json", "metadata 1.0.0");
               ("/app/node_modules/.cache/esm/.data.blob", "blob");
               ("/app/node_modules/.cache/esm/0a1b2c3d4e5f.js", "code") ].

(** A project whose cache carries both markers, listed in the order of
    their names: the dirty marker comes first. *)
Definition markedProject : State :=
  emptyState [ ("/app/node_modules/.cache/esm/.dirty", "");
               ("/app/node_modules/.cache/esm/.nyc", "");
               ("/app/node_modules/.cache/esm/0a1b2c3d4e5f.js", "code") ].

(** A project whose cache was written under instrumentation. *)
Definition instrumentedProject : State :=
  emptyState [ ("/app/node_modules/.cache/esm/.nyc", "");
               ("/app/node_modules/.cache/esm/0a1b2c3d4e5f.js", "code") ].

(** A translator that tags its output with the requested type. *)
Definition translate (code : string) (o : Compiler.CompileOptions)
  : Completion Compiler.CompileResult :=
  Return (Compiler.mkResult (Compiler.co_type o) code).

Definition join (a b : string) : string := a +:+ "/" +:+ b.

Definition compileAndWrite :=
  Compiler.compileAndWrite translate (fun s => s) join extname.

Definition pkgInfo : Compiler.PkgInfo := Compiler.mkPkgInfo 0 "/app" (JObj []).

Definition scriptCall : Compiler.CallOptions :=
  Compiler.mkCallOptions (Some "/app/a.js") "/app/.cache" "aaaaaaaa1.js"
    pkgInfo JUndefined.

Definition moduleCall : Compiler.CallOptions :=
  Compiler.mkCallOptions (Some "/app/a.mjs") "/app/.cache" "aaaaaaaa2.js"
    pkgInfo JUndefined.

(** A cache with an older entry of the same source and an entry of
    another source, both on disk. *)
Definition idle : Compiler.CState :=
  Compiler.mkCState
    {[ 0 := [ ("aaaaaaaa0.js", Compiler.mkResult "module" "old");
              ("bbbbbbbb0.js", Compiler.mkResult "module" "other") ] ]}
    {[ "/app/.cache/aaaaaaaa0.js" := "old"; "/app/.cache/bbbbbbbb0.js" := "other" ]}
    [].

(** The state once [a.mjs] has been compiled. *)
Definition written : Compiler.CState :=
  match compileAndWrite "import x" moduleCall idle with
  | Return rs => rs.2
  | Throw _ => idle
  end.

End Sample.

(** ** Predicates on manifests *)

Module Manifest.

(** The manifest declares the tool in the object [field]. *)
Definition declares (json : JValue) (field : string) : bool :=
  has json field && has (get json field) "esm".

(** The manifest declares the tool under [devDependencies] only, with a
    constraint [validRange] accepts. *)
Definition devOnly (validRange : JValue → JValue) (json : JValue) : Prop :=
  declares json "dependencies" = false ∧
  declares json "peerDependencies" = false ∧
  declares json "devDependencies" = true ∧
  truthy (validRange (get (get json "devDependencies") "esm")) = true.

(** The options [readInfo] passes to the constructor for the options
    value [found]: [true] stands for the options of the environment. *)
Definition effective (OPTIONS found : JValue) : JValue :=
  if isTrue found then OPTIONS else found.

(** The options [readInfo] takes from a manifest when there is no
    activation file: its [esm] field, else the options of the environment. *)
Definition manifestOptions (OPTIONS json : JValue) : JValue :=
  if has json "esm" then effective OPTIONS (get json "esm") else OPTIONS.

End Manifest.

(** ** Predicates on records *)

Module Shape.

(** Own keys are distinct, none is [__proto__], and each passes
    [Reflect.has(schema, key)]. *)
Definition wfKeys (schema o : Obj) : Prop :=
  NoDup o.*1 ∧ hasProp o "__proto__" = false ∧
  ∀ k, hasProp o k = true → Reflect_has schema k = true.

(** Every own property holds a boolean. *)
Definition allBool (o : Obj) : Prop :=
  ∀ k, hasProp o k = true → ∃ b, getProp o k = JBool b.

(** The toggles of the [cjs] group, each set to [b]. *)
Definition broadcast (b : bool) : Obj :=
  (fun name => (name, JBool b)) <$>
  ["cache"; "extensions"; "interop"; "mutableNamespace"; "namedExports";
   "paths"; "topLevelReturn"; "vars"].

Section WithConstants.

Variable DEVELOPMENT : bool.
Variable toStringLiteral : string -> string.

(** The shape of a record [createOptions] returns, but for its mode. *)
Definition normalized (R : Obj) : Prop :=
  wfKeys (Options.defaultOptions DEVELOPMENT) R ∧
  (∀ k, hasProp (Options.defaultOptions DEVELOPMENT) k = true → hasProp R k = true) ∧
  (∃ c, getProp R "cjs" = JObj c ∧ Options.createCJS toStringLiteral (JObj c) = Return c) ∧
  (∃ l, getProp R "mainFields" = JArr l) ∧
  Options.normalizeCache (getProp R "cache") = getProp R "cache" ∧
  (∃ b, getProp R "debug" = JBool b) ∧
  (∃ b, getProp R "warnings" = JBool b) ∧
  isUndefined (getProp R "await") = false.

(** The names the loop of [createOptions] rejects. *)
Definition rejected (possibleNames : list string) (name : string) : bool :=
  negb (Reflect_has (Options.defaultOptions DEVELOPMENT) name) &&
  negb ((name =? "sourcemap") && negb (elem "sourceMap" possibleNames)).

End WithConstants.

End Shape.

Export Shape.

(** ** The parts of [createOptions] *)

Module More.

Section WithConstants.

Variable DEVELOPMENT : bool.

(** What the first part of [createOptions] collects from [value]: the
    names it recognised and the options copied from it. *)
Definition collected (value : JValue) : Completion (list string * Obj) :=
  match value with
  | JStr _ => Return (["mode"], putProp [] "mode" value)
  | _ => Options.optionsLoop DEVELOPMENT value (keys value) (keys value) [] []
  end.

(** The options once [cjs] and [mode] have been taken from [autoOptions]
    where [names] lacks them. *)
Definition baseline (names : list string) (options : Obj) : Obj :=
  let options :=
    if negb (elem "cjs" names)
    then putProp options "cjs" (getProp Options.autoOptions "cjs") else options in
  if negb (elem "mode" names)
  then putProp options "mode" (getProp Options.autoOptions "mode") else options.

End WithConstants.

Section WithConstants.

Variable DEVELOPMENT : bool.
Variables OPTIONS_MODE_ALL OPTIONS_MODE_AUTO OPTIONS_MODE_STRICT : JValue.
Variable toStringLiteral : string -> string.

(** [createOptions] from [const cjsOptions] on. *)
Definition finish (options : Obj) : Completion Obj :=
  let? cjsOptions := Options.createCJS toStringLiteral (getProp options "cjs") in
  let options := defaults options (Options.defaultOptions DEVELOPMENT) in
  let options := putProp options "cjs" (JObj cjsOptions) in
  let? mainFields := Options.normalizeMainFields (getProp options "mainFields") in
  let options := putProp options "mainFields" mainFields in
  let? mode :=
    Options.normalizeMode OPTIONS_MODE_ALL OPTIONS_MODE_AUTO OPTIONS_MODE_STRICT
      (getProp options "mode") in
  let options := putProp options "mode" mode in
  let options := putProp options "cache" (Options.normalizeCache (getProp options "cache")) in
  let options := putProp options "debug" (JBool (truthy (getProp options "debug"))) in
  let options := putProp options "warnings" (JBool (truthy (getProp options "warnings"))) in
  Return options.

End WithConstants.

End More.

(** ** Sample option records *)

Module Examples.

Definition createOptions :=
  Options.createOptions false (JNum 1) (JNum 2) (JNum 3) (fun s => s).

Definition createCJS := Options.createCJS (fun s => s).

(** The value a completion returns. *)
Definition resultOf {A} (c : Completion A) (otherwise : A) : A :=
  match c with Return a => a | Throw _ => otherwise end.

(** A record that names a cache directory, switches one toggle of the
    [cjs] group on and spells the source-map option in lower case. *)
Definition tuned : Obj :=
  [ ("cache", JStr "/tmp/cache"); ("debug", JNum 1);
    ("cjs", JObj [("vars", JNum 1)]); ("mode", JStr "all");
    ("sourcemap", JStr "inline") ].

Definition tunedRecord : Obj :=
  Eval vm_compute in resultOf (createOptions (JObj tuned)) [].

(** A record that lists [cjs] and [mode] without a value. *)
Definition hollow : Obj := [("cjs", JUndefined); ("mode", JUndefined)].

Definition hollowRecord : Obj :=
  Eval vm_compute in resultOf (createOptions (JObj hollow)) [].

(** A parser that also knows cache metadata of the running version and
    a manifest that declares the tool under [dependencies] and under
    [peerDependencies]. *)
Definition parse (text : string) : JValue :=
  if text =? "metadata 2.0.0" then
    JObj [("version", JStr "2.0.0"); ("map", JObj [("0a1b2c3d4e5f.js", JStr "module")])]
  else if text =? "lib manifest" then
    JObj [("name", JStr "lib");
          ("dependencies", JObj [("esm", JStr "^3.0.0")]);
          ("peerDependencies", JObj [("esm", JStr "^2.0.0")])]
  else Sample.parse text.

Definition newPackage :=
  Package.newPackage false false "2.0.0" (JNum 1) (JNum 2) (JNum 3) "/"
    Sample.extname Sample.resolve (fun s => s) parse.

Definition getInfo :=
  Package.getInfo false (JObj []) false "2.0.0" (JNum 1) (JNum 2) (JNum 3) (JStr "*")
    "/" Sample.basename Sample.dirname Sample.extname Sample.resolve (fun s => s)
    parse parse Sample.validRange Sample.findPath Sample.loadESM.

Definition getRoot := Package.getRoot "/" Sample.basename Sample.dirname.

(** A disk with a Babel cache next to the cache directory of [/app]. *)
Definition babelDisk : Files :=
  [ ("/app/node_modules/.cache/@babel/register/.babel.7.json", "{}");
    ("/app/node_modules/.cache/esm/0a1b2c3d4e5f.js", "code") ].

(** A cache directory written by the running version. *)
Definition warmDisk : Files :=
  [ ("/app/node_modules/.cache/esm/.data.json", "metadata 2.0.0");
    ("/app/node_modules/.cache/esm/.data.blob", "blob");
    ("/app/node_modules/.cache/esm/0a1b2c3d4e5f.js", "code") ].

(** A library whose manifest declares the tool under [dependencies] and
    under [peerDependencies]. *)
Definition libProject : State :=
  Sample.emptyState [("/lib/package.json", "lib manifest")].

(** A project with an activation file in a directory below the manifest. *)
Definition nestedProject : State :=
  Sample.emptyState [ ("/app/package.json", "dev-only manifest");
                      ("/app/.esmrc", "{}");
                      ("/app/sub/.esmrc", "{}") ].

(** A project whose activation file is a script, seen while the loader
    is parsing only. *)
Definition scriptProject : State :=
  setModuleState (Sample.emptyState [("/app/.esmrc.js", "module.exports = {")])
                 (true, false).

(** A loader for which the script does not parse. *)
Definition loadFailing (fs : Files) (path : string) : Completion JValue :=
  Throw (ForeignError "SyntaxError").

(** The state an outcome ends in. *)
Definition finalState {A} (o : Outcome A) (otherwise : State) : State :=
  match o with Done _ st | Failed _ st => st | Diverged => otherwise end.

Definition probeOptions :=
  Package.probeOptions false false "2.0.0" (JNum 1) (JNum 2) (JNum 3) (JStr "*") "/"
    Sample.extname Sample.resolve (fun s => s) parse parse Sample.findPath loadFailing.

Definition readInfo :=
  Package.readInfo false (JObj []) false "2.0.0" (JNum 1) (JNum 2) (JNum 3) (JStr "*")
    "/" Sample.basename Sample.dirname Sample.extname Sample.resolve (fun s => s)
    parse parse Sample.validRange Sample.findPath Sample.loadESM.

(** [path.join] of a directory and a name, dropping a leading [./] of
    the name as Node's normalisation does. *)
Definition joinNormal (a b : string) : string :=
  a +:+ "/" +:+ default b (stripPrefix "./" b).

(** A cache that lists one file under two names, with the write of a
    newer entry of the same source in flight. *)
Definition aliased : Compiler.CState :=
  Compiler.mkCState
    {[ 0 := [ ("aaaaaaaa0.js", Compiler.mkResult "module" "old");
              ("./aaaaaaaa0.js", Compiler.mkResult "module" "old") ] ]}
    {[ "/app/.cache/aaaaaaaa0.js" := "old" ]}
    [ Compiler.mkDeferred "/app/.cache/aaaaaaaa2.js" "import x" (Some "utf8") "/app"
        0 "/app/.cache" "aaaaaaaa2.js" ].

(** A project whose cache metadata does not parse. *)
Definition corruptProject : State :=
  Sample.emptyState [ ("/app/node_modules/.cache/esm/.data.json", "{");
                      ("/app/node_modules/.cache/esm/0a1b2c3d4e5f.js", "code") ].

(** The state once the module has been loaded on an empty disk. *)
Definition booted : State :=
  finalState
    (Package.boot false false "2.0.0" (JNum 1) (JNum 2) (JNum 3) "/"
       Sample.extname Sample.resolve (fun s => s) parse [])
    (Sample.emptyState []).

(** The record for [{ cache: false }]. *)
Definition uncachedRecord : Obj :=
  Eval vm_compute in resultOf (createOptions (JObj [("cache", JBool false)])) [].

End Examples.

(** ** Facts about objects *)

Module ObjFacts.

Lemma elem_spec (name : string) (names : list string) :
  elem name names = true ↔ name ∈ names.
Proof.
  induction names as [|n rest IH]; simpl.
  - split; [done | by intros ?%elem_of_nil].
  - rewrite orb_true_iff, IH, elem_of_cons, String.eqb_eq.
    split; (intros [->|?]; [by left | by right]).
Qed.

Lemma elem_app (name : string) (l1 l2 : list string) :
  elem name (l1 ++ l2) = elem name l1 || elem name l2.
Proof.
  induction l1 as [|n l1 IH]; simpl; [done|]. by rewrite IH, orb_assoc.
Qed.

Lemma hasProp_spec (o : Obj) (name : string) :
  hasProp o name = true ↔ name ∈ o.*1.
Proof.
  induction o as [|[k v] rest IH]; csimpl.
  - split; [done | by intros ?%elem_of_nil].
  - rewrite orb_true_iff, IH, elem_of_cons, String.eqb_eq.
    split; (intros [->|?]; [by left | by right]).
Qed.

Lemma hasProp_elem (o : Obj) (name : string) :
  hasProp o name = elem name o.*1.
Proof.
  induction o as [|[k v] rest IH]; csimpl; [done|]. by rewrite IH.
Qed.

Lemma hasProp_false (o : Obj) (name : string) :
  hasProp o name = false ↔ name ∉ o.*1.
Proof.
  rewrite <- hasProp_spec. destruct (hasProp o name); split; congruence.
Qed.

Lemma hasProp_app (o1 o2 : Obj) (name : string) :
  hasProp (o1 ++ o2) name = hasProp o1 name || hasProp o2 name.
Proof.
  induction o1 as [|[k v] o1 IH]; simpl; [done|]. by rewrite IH, orb_assoc.
Qed.

Lemma getProp_app_r (o1 o2 : Obj) (name : string) :
  hasProp o1 name = false → getProp (o1 ++ o2) name = getProp o2 name.
Proof.
  induction o1 as [|[k v] o1 IH]; simpl; [done|].
  intros [Hk Ho]%orb_false_iff. rewrite Hk. auto.
Qed.

Lemma setProp_fresh (o : Obj) (name : string) (v : JValue) :
  hasProp o name = false → setProp o name v = o ++ [(name, v)].
Proof.
  induction o as [|[k w] o IH]; simpl; [done|].
  intros [Hk Ho]%orb_false_iff. rewrite Hk. by rewrite IH.
Qed.

Lemma setProp_same (o : Obj) (name : string) :
  hasProp o name = true → setProp o name (getProp o name) = o.
Proof.
  induction o as [|[k w] o IH]; simpl; [done|].
  destruct (k =? name) eqn:E; simpl; [done|]. intros H. by rewrite IH.
Qed.

Lemma keys_setProp (o : Obj) (name : string) (v : JValue) :
  (setProp o name v).*1 = if hasProp o name then o.*1 else o.*1 ++ [name].
Proof.
  induction o as [|[k w] o IH]; csimpl; [done|].
  destruct (k =? name) eqn:E; csimpl; [done|].
  rewrite IH. by destruct (hasProp o name).
Qed.

Lemma hasProp_setProp (o : Obj) (name k : string) (v : JValue) :
  hasProp (setProp o name v) k = hasProp o k || (name =? k).
Proof.
  induction o as [|[k' w] o IH]; simpl.
  - by rewrite orb_false_r.
  - destruct (k' =? name) eqn:E; simpl.
    + apply String.eqb_eq in E. subst.
      destruct (name =? k); simpl; [done | by rewrite orb_false_r].
    + by rewrite IH, orb_assoc.
Qed.

Lemma getProp_setProp (o : Obj) (name k : string) (v : JValue) :
  getProp (setProp o name v) k = if name =? k then v else getProp o k.
Proof.
  induction o as [|[k' w] o IH]; simpl.
  - by destruct (name =? k).
  - destruct (k' =? name) eqn:E; simpl.
    + apply String.eqb_eq in E. subst. by destruct (name =? k).
    + rewrite IH. destruct (name =? k) eqn:Ek; [|done].
      apply String.eqb_eq in Ek. subst. by rewrite E.
Qed.

Lemma putProp_same (o : Obj) (name : string) (v : JValue) :
  hasProp o name = true → getProp o name = v → putProp o name v = o.
Proof.
  intros H <-. unfold putProp. destruct (name =? "__proto__"); [done|].
  by apply setProp_same.
Qed.

Lemma getProp_putProp (o : Obj) (name k : string) (v : JValue) :
  getProp (putProp o name v) k =
  if negb (name =? "__proto__") && (name =? k) then v else getProp o k.
Proof.
  unfold putProp. destruct (name =? "__proto__"); simpl; [done|].
  apply getProp_setProp.
Qed.

Lemma hasProp_putProp (o : Obj) (name k : string) (v : JValue) :
  hasProp (putProp o name v) k =
  hasProp o k || (negb (name =? "__proto__") && (name =? k)).
Proof.
  unfold putProp. destruct (name =? "__proto__"); simpl.
  - by rewrite orb_false_r.
  - apply hasProp_setProp.
Qed.

Lemma keys_putProp (o : Obj) (name : string) (v : JValue) :
  (putProp o name v).*1 =
  if hasProp o name || (name =? "__proto__") then o.*1 else o.*1 ++ [name].
Proof.
  unfold putProp. destruct (name =? "__proto__"); simpl.
  - by rewrite orb_true_r.
  - rewrite orb_false_r. apply keys_setProp.
Qed.

Lemma wfKeys_nil schema : wfKeys schema [].
Proof. split; [constructor | split; [done | by intros k ?]]. Qed.

Lemma wfKeys_putProp schema o k v :
  wfKeys schema o → Reflect_has schema k = true → wfKeys schema (putProp o k v).
Proof.
  intros (Hnd & Hp & Hall) Hk. split; [|split].
  - rewrite keys_putProp.
    destruct (hasProp o k) eqn:E; simpl; [done|].
    destruct (k =? "__proto__"); [done|].
    apply NoDup_app. split; [done|]. split; [|apply NoDup_singleton].
    intros x Hx ->%list_elem_of_singleton.
    apply hasProp_spec in Hx. congruence.
  - rewrite hasProp_putProp, Hp. simpl.
    by destruct (k =? "__proto__") eqn:E.
  - intros k'. rewrite hasProp_putProp. intros [H|H]%orb_true_iff; [by apply Hall|].
    apply andb_true_iff in H as [_ H]. apply String.eqb_eq in H. by subst.
Qed.

Lemma wfKeys_defaults schema src o :
  wfKeys schema o → (∀ k, hasProp src k = true → Reflect_has schema k = true) →
  wfKeys schema (defaults o src).
Proof.
  unfold defaults. revert o.
  induction src as [|[k d] src IH]; intros o Ho Hsrc; simpl; [done|].
  apply IH.
  - destruct (_ || _); [|done]. apply wfKeys_putProp; [done|].
    apply Hsrc. simpl. by rewrite String.eqb_refl.
  - intros k' Hk'. apply Hsrc. simpl. rewrite Hk'. by rewrite orb_true_r.
Qed.

(** What [defaults] leaves at each name, for a source with distinct
    names, none of them [__proto__]. *)
Lemma getProp_defaults src o k :
  NoDup src.*1 → hasProp src "__proto__" = false →
  getProp (defaults o src) k =
  if hasProp src k && (isUndefined (getProp o k) || negb (hasProp o k))
  then getProp src k else getProp o k.
Proof.
  unfold defaults. revert o.
  induction src as [|[k0 d0] src IH]; intros o Hnd Hp; csimpl in *; [done|].
  apply NoDup_cons in Hnd as [Hk0 Hnd].
  apply orb_false_iff in Hp as [Hp0 Hp].
  rewrite IH by done.
  destruct (k0 =? k) eqn:E.
  - apply String.eqb_eq in E. subst k0. simpl.
    assert (hasProp src k = false) as -> by by apply hasProp_false.
    simpl. destruct (_ || _); [|done].
    rewrite getProp_putProp, Hp0. simpl.
    by rewrite String.eqb_refl.
  - simpl.
    assert (getProp (if isUndefined (getProp o k0) || negb (hasProp o k0)
                     then putProp o k0 d0 else o) k = getProp o k) as ->.
    { destruct (_ || _); [|done]. rewrite getProp_putProp, E. by rewrite andb_false_r. }
    assert (hasProp (if isUndefined (getProp o k0) || negb (hasProp o k0)
                     then putProp o k0 d0 else o) k = hasProp o k) as ->.
    { destruct (_ || _); [|done]. rewrite hasProp_putProp, E.
      by rewrite andb_false_r, orb_false_r. }
    done.
Qed.

Lemma hasProp_defaults src o k :
  hasProp src "__proto__" = false →
  hasProp (defaults o src) k = hasProp o k || hasProp src k.
Proof.
  unfold defaults. revert o.
  induction src as [|[k0 d0] src IH]; intros o Hp; csimpl in *.
  - by rewrite orb_false_r.
  - apply orb_false_iff in Hp as [Hp0 Hp]. rewrite IH by done.
    destruct (isUndefined (getProp o k0) || negb (hasProp o k0)) eqn:C.
    + rewrite hasProp_putProp, Hp0. simpl.
      by rewrite orb_assoc.
    + apply orb_false_iff in C as [_ C]. apply negb_false_iff in C.
      destruct (k0 =? k) eqn:E; simpl; [|done].
      apply String.eqb_eq in E. subst. by rewrite C.
Qed.

(** [defaults] changes nothing on an object that holds every name of the
    source, with [undefined] only where the source has it too. *)
Lemma defaults_id src o :
  (∀ k, hasProp src k = true → hasProp o k = true) →
  (∀ k d, (k, d) ∈ src → isUndefined (getProp o k) = true → d = JUndefined) →
  defaults o src = o.
Proof.
  unfold defaults.
  induction src as [|[k d] src IH]; intros Hhas Hund; simpl; [done|].
  assert (hasProp o k = true) as Hk.
  { apply Hhas. simpl. by rewrite String.eqb_refl. }
  assert ((if isUndefined (getProp o k) || negb (hasProp o k)
           then putProp o k d else o) = o) as ->.
  { rewrite Hk. simpl. rewrite orb_false_r.
    destruct (isUndefined (getProp o k)) eqn:E; [|done].
    apply putProp_same; [done|].
    rewrite (Hund k d); [|apply elem_of_cons; by left|done].
    by destruct (getProp o k). }
  apply IH.
  - intros k' Hk'. apply Hhas. simpl. by rewrite Hk', orb_true_r.
  - intros k' d' Hin. apply Hund. apply elem_of_cons. by right.
Qed.

End ObjFacts.

(** ** Facts about the options merge *)

Module OptionsFacts.
Import ObjFacts.

#[local] Arguments defaults : simpl never.
#[local] Arguments assign : simpl never.
#[local] Arguments putProp : simpl never.

(** Decides the comparisons of string literals in the goal. *)
Ltac eval_eqb :=
  repeat match goal with
  | |- context [String.eqb ?a ?b] =>
      let r := eval vm_compute in (String.eqb a b) in
      match r with
      | true => change (String.eqb a b) with true
      | false => change (String.eqb a b) with false
      end
  end; cbn [negb andb orb].

Ltac solve_nodup := apply (bool_decide_unpack _); by vm_compute.

Ltac eval_eqb_in H :=
  repeat match type of H with
  | context [String.eqb ?a ?b] =>
      let r := eval vm_compute in (String.eqb a b) in
      match r with
      | true => change (String.eqb a b) with true in H
      | false => change (String.eqb a b) with false in H
      end
  end; cbn [negb andb orb] in H.

Lemma allBool_nil : allBool [].
Proof. by intros k ?. Qed.

Lemma allBool_putProp o k b : allBool o → allBool (putProp o k (JBool b)).
Proof.
  intros Ho k'. rewrite hasProp_putProp, getProp_putProp.
  destruct (negb (k =? "__proto__") && (k =? k')); [by eexists|].
  rewrite orb_false_r. apply Ho.
Qed.

Lemma allBool_Forall o :
  Forall (fun kv : string * JValue => ∃ b, kv.2 = JBool b) o → allBool o.
Proof.
  induction 1 as [|[k v] o [b Hv] _ IH]; intros k'; simpl; [done|].
  destruct (k =? k'); simpl; [by exists b|]. apply IH.
Qed.

Lemma wfKeys_In_notin schema (pre post : Obj) k v :
  wfKeys schema (pre ++ (k, v) :: post) →
  hasProp pre k = false ∧ (k =? "__proto__") = false ∧ Reflect_has schema k = true.
Proof.
  intros (Hnd & Hp & Hall). rewrite fmap_app in Hnd. csimpl in Hnd.
  apply NoDup_app in Hnd as (_ & Hdis & _).
  split; [|split].
  - apply hasProp_false. intros Hin. apply (Hdis _ Hin). by left.
  - rewrite hasProp_app in Hp. simpl in Hp.
    apply orb_false_iff in Hp as [_ Hp]. by apply orb_false_iff in Hp as [Hp _].
  - apply Hall. rewrite hasProp_app. simpl. by rewrite String.eqb_refl, orb_true_r.
Qed.

Lemma getProp_middle (pre post : Obj) k v :
  hasProp pre k = false → getProp (pre ++ (k, v) :: post) k = v.
Proof. intros H. rewrite getProp_app_r by done. simpl. by rewrite String.eqb_refl. Qed.

Section WithConstants.

Variable DEVELOPMENT : bool.
Variables OPTIONS_MODE_ALL OPTIONS_MODE_AUTO OPTIONS_MODE_STRICT : JValue.
Variable toStringLiteral : string → string.

Local Abbreviation defaultCJS := Options.defaultCJS.
Local Abbreviation defaultOptions := (Options.defaultOptions DEVELOPMENT).
Local Abbreviation cjsLoop := (Options.cjsLoop toStringLiteral).
Local Abbreviation createCJS := (Options.createCJS toStringLiteral).
Local Abbreviation optionsLoop := (Options.optionsLoop DEVELOPMENT).
Local Abbreviation normalizeMode :=
  (Options.normalizeMode OPTIONS_MODE_ALL OPTIONS_MODE_AUTO OPTIONS_MODE_STRICT).
Local Abbreviation createOptions :=
  (Options.createOptions DEVELOPMENT
     OPTIONS_MODE_ALL OPTIONS_MODE_AUTO OPTIONS_MODE_STRICT toStringLiteral).
Local Abbreviation normalized := (Shape.normalized DEVELOPMENT toStringLiteral).
Local Abbreviation rejected := (Shape.rejected DEVELOPMENT).

Lemma cjsLoop_wf value names o o' :
  cjsLoop value names o = Return o' →
  wfKeys defaultCJS o → allBool o → wfKeys defaultCJS o' ∧ allBool o'.
Proof.
  revert o. induction names as [|name rest IH]; intros o H Hwf Hb; simpl in H.
  - by inversion H; subst.
  - destruct (Reflect_has defaultCJS name) eqn:E; [|done].
    eapply IH; [done | by apply wfKeys_putProp | by apply allBool_putProp].
Qed.

(** Run on an object it could have produced, the loop of [createCJS]
    rebuilds that object. *)
Lemma cjsLoop_rebuild (c : Obj) :
  wfKeys defaultCJS c → allBool c →
  ∀ post pre, c = pre ++ post → cjsLoop (JObj c) post.*1 pre = Return c.
Proof.
  intros Hwf Hb. induction post as [|[k v] post IH]; intros pre ->; csimpl.
  - by rewrite app_nil_r.
  - destruct (wfKeys_In_notin _ _ _ _ _ Hwf) as (Hpre & Hproto & Hhas).
    rewrite Hhas. rewrite getProp_middle by done.
    destruct (Hb k) as [b Hv].
    { rewrite hasProp_app. simpl. by rewrite String.eqb_refl, orb_true_r. }
    rewrite getProp_middle in Hv by done. subst v. simpl.
    unfold putProp. rewrite Hproto, setProp_fresh by done.
    apply IH. by rewrite <- app_assoc.
Qed.

Lemma defaultCJS_has k : hasProp defaultCJS k = true → Reflect_has defaultCJS k = true.
Proof. intros H. unfold Reflect_has. by rewrite H. Qed.

Lemma createCJS_wf value c :
  createCJS value = Return c →
  wfKeys defaultCJS c ∧ allBool c ∧ ∀ k, hasProp defaultCJS k = true → hasProp c k = true.
Proof.
  unfold Options.createCJS.
  destruct (isUndefined value) eqn:Eu.
  { intros [= <-]. split; [|split].
    - repeat (apply wfKeys_putProp; [|reflexivity]). apply wfKeys_nil.
    - apply allBool_Forall. vm_compute. repeat (constructor; [by eexists|]). constructor.
    - done. }
  destruct (isObjectLike value) eqn:Eo.
  - destruct (cjsLoop value (keys value) []) as [o|] eqn:El; cbn [bindC]; [|done].
    intros [= <-].
    destruct (cjsLoop_wf _ _ _ _ El (wfKeys_nil _) allBool_nil) as [Hwf Hb].
    split; [|split].
    + apply wfKeys_defaults; [done | apply defaultCJS_has].
    + intros k. rewrite hasProp_defaults by done.
      rewrite getProp_defaults; [|solve_nodup|done].
      destruct (hasProp defaultCJS k) eqn:Ed; simpl.
      * destruct (isUndefined (getProp o k) || negb (hasProp o k)) eqn:C.
        -- intros _. apply (allBool_Forall defaultCJS); [|done].
           repeat (constructor; [by eexists|]). constructor.
        -- apply orb_false_iff in C as [_ C]. apply negb_false_iff in C.
           intros _. by apply Hb.
      * rewrite orb_false_r. apply Hb.
    + intros k Hk. rewrite hasProp_defaults by done. by rewrite Hk, orb_true_r.
  - intros [= <-]. split; [|split].
    + repeat (apply wfKeys_putProp; [|reflexivity]). apply wfKeys_nil.
    + apply allBool_Forall. destruct (truthy value); vm_compute;
        repeat (constructor; [by eexists|]); constructor.
    + by destruct (truthy value).
Qed.

Lemma createCJS_again value c :
  createCJS value = Return c → createCJS (JObj c) = Return c.
Proof.
  intros H. destruct (createCJS_wf _ _ H) as (Hwf & Hb & Hall).
  unfold Options.createCJS. cbn [isUndefined isObjectLike keys].
  rewrite (cjsLoop_rebuild c Hwf Hb c []) by done. cbn [bindC].
  f_equal. apply defaults_id; [done|].
  intros k d Hin Hu. destruct (Hb k) as [b E].
  { apply Hall, hasProp_spec, list_elem_of_fmap. by exists (k, d). }
  by rewrite E in Hu.
Qed.

Lemma optionsLoop_wf value possibleNames todo names o names' o' :
  optionsLoop value possibleNames todo names o = Return (names', o') →
  wfKeys defaultOptions o → wfKeys defaultOptions o'.
Proof.
  revert names o. induction todo as [|name rest IH]; intros names o H Hwf; simpl in H.
  - by inversion H; subst.
  - destruct (Reflect_has defaultOptions name) eqn:E.
    { eapply IH; [done | by apply wfKeys_putProp]. }
    destruct ((name =? "sourcemap") && negb (elem "sourceMap" possibleNames)); [|done].
    destruct (negb (isUndefined (get value "sourcemap"))).
    + eapply IH; [done | by apply wfKeys_putProp].
    + eapply IH; done.
Qed.

(** Run on a record it could have produced, the loop of [createOptions]
    rebuilds that record and lists its names. *)
Lemma optionsLoop_rebuild (R : Obj) possibleNames :
  wfKeys defaultOptions R →
  ∀ post pre, R = pre ++ post →
    optionsLoop (JObj R) possibleNames post.*1 pre.*1 pre = Return (R.*1, R).
Proof.
  intros Hwf. induction post as [|[k v] post IH]; intros pre ->; csimpl.
  - by rewrite app_nil_r.
  - destruct (wfKeys_In_notin _ _ _ _ _ Hwf) as (Hpre & Hproto & Hhas).
    rewrite Hhas. rewrite getProp_middle by done.
    unfold putProp. rewrite Hproto, setProp_fresh by done.
    replace (pre.*1 ++ [k]) with ((pre ++ [(k, v)]).*1) by by rewrite fmap_app.
    apply (IH (pre ++ [(k, v)])). by rewrite <- app_assoc.
Qed.

Lemma hasProp_putProp_mono (o : Obj) name k v :
  hasProp o k = true → hasProp (putProp o name v) k = true.
Proof. intros H. by rewrite hasProp_putProp, H. Qed.

Lemma normalizeCache_again v :
  Options.normalizeCache (Options.normalizeCache v) = Options.normalizeCache v.
Proof. by destruct v. Qed.

Lemma createOptions_normalized O R :
  createOptions O = Return R →
  normalized R ∧ ∃ m0, normalizeMode m0 = Return (getProp R "mode").
Proof.
  unfold Options.createOptions. intros H.
  match type of H with
  | bindC ?first _ = _ => destruct first as [[names o0]|] eqn:E0; cbn [bindC fst snd] in H; [|done]
  end.
  assert (wfKeys defaultOptions o0) as Hwf0.
  { destruct O; try (by eapply optionsLoop_wf; [exact E0 | apply wfKeys_nil]).
    injection E0 as <- <-. apply wfKeys_putProp; [apply wfKeys_nil | reflexivity]. }
  match type of H with
  | context [createCJS (getProp ?o "cjs")] => set (o2 := o) in H
  end.
  assert (wfKeys defaultOptions o2) as Hwf2.
  { subst o2. repeat (case_match; [apply wfKeys_putProp; [|reflexivity]|]); done. }
  destruct (createCJS (getProp o2 "cjs")) as [c|] eqn:Ec; cbn [bindC] in H; [|done].
  set (o3 := defaults o2 defaultOptions) in H.
  assert (wfKeys defaultOptions o3) as Hwf3.
  { apply wfKeys_defaults; [done|]. intros k Hk. unfold Reflect_has. by rewrite Hk. }
  assert (∀ k, hasProp defaultOptions k = true → hasProp o3 k = true) as Hall3.
  { intros k Hk. subst o3. rewrite hasProp_defaults by done. by rewrite Hk, orb_true_r. }
  assert (isUndefined (getProp o3 "await") = false) as Haw3.
  { subst o3. rewrite getProp_defaults; [|solve_nodup|done].
    change (hasProp defaultOptions "await") with true. cbn [andb].
    by destruct (isUndefined (getProp o2 "await") || negb (hasProp o2 "await")) eqn:C;
      [|apply orb_false_iff in C as [C _]]. }
  clearbody o3. clear Hwf2 Hwf0 E0.
  match type of H with
  | context [Options.normalizeMainFields ?x] =>
      destruct (Options.normalizeMainFields x) as [mf|] eqn:Emf; cbn [bindC] in H; [|done]
  end.
  match type of H with
  | context [normalizeMode ?x] =>
      destruct (normalizeMode x) as [m|] eqn:Em; cbn [bindC] in H; [|done]
  end.
  injection H as <-.
  assert (∃ l, mf = JArr l) as [l ->].
  { revert Emf. rewrite !getProp_putProp. eval_eqb.
    destruct (getProp o3 "mainFields"); simpl; intros [= <-]; by eexists. }
  split; [|eexists; rewrite !getProp_putProp; eval_eqb; exact Em].
  split; [|split; [|split; [|split; [|split; [|split; [|split]]]]]].
  - repeat (apply wfKeys_putProp; [|reflexivity]). done.
  - intros k Hk. repeat apply hasProp_putProp_mono. by apply Hall3.
  - exists c. rewrite !getProp_putProp. eval_eqb. split; [done|].
    by eapply createCJS_again.
  - exists l. rewrite !getProp_putProp. by eval_eqb.
  - rewrite !getProp_putProp. eval_eqb. apply normalizeCache_again.
  - eexists. rewrite !getProp_putProp. by eval_eqb.
  - eexists. rewrite !getProp_putProp. by eval_eqb.
  - rewrite !getProp_putProp. by eval_eqb.
Qed.

Lemma createOptions_again R :
  normalized R → isUndefined (getProp R "mode") = false →
  createOptions (JObj R) =
  (let? mode := normalizeMode (getProp R "mode") in Return (putProp R "mode" mode)).
Proof.
  intros (Hwf & Hall & (c & Hc & Hcc) & (l & Hl) & Hcache & (bd & Hd) & (bw & Hw) & Haw) Hm.
  unfold Options.createOptions. cbn [keys].
  pose proof (optionsLoop_rebuild R R.*1 Hwf R [] eq_refl) as HL. csimpl in HL.
  rewrite HL. clear HL. cbn [bindC fst snd].
  rewrite <- !hasProp_elem, !Hall by reflexivity. cbn [negb].
  rewrite Hc, Hcc. cbn [bindC].
  assert (defaults R defaultOptions = R) as ->.
  { apply defaults_id; [done|]. intros k d Hin Hu.
    unfold Options.defaultOptions in Hin.
    repeat (apply elem_of_cons in Hin as [Heq|Hin];
            [injection Heq as -> ->; rewrite ?Hc, ?Hl, ?Hd, ?Hw in Hu;
             try done; try congruence|]).
    - rewrite <- Hcache in Hu. by destruct (getProp R "cache").
    - by apply elem_of_nil in Hin. }
  rewrite (putProp_same R "cjs") by (try apply Hall; done).
  rewrite Hl. cbn [Options.normalizeMainFields bindC].
  rewrite (putProp_same R "mainFields") by (try apply Hall; done).
  destruct (normalizeMode (getProp R "mode")) as [m|] eqn:Em; cbn [bindC]; [|done].
  f_equal.
  rewrite (putProp_same _ "cache").
  - rewrite (putProp_same _ "debug").
    + apply putProp_same.
      * apply hasProp_putProp_mono. by apply Hall.
      * rewrite getProp_putProp. eval_eqb. by rewrite Hw.
    + apply hasProp_putProp_mono. by apply Hall.
    + rewrite getProp_putProp. eval_eqb. by rewrite Hd.
  - apply hasProp_putProp_mono. by apply Hall.
  - rewrite getProp_putProp. eval_eqb. done.
Qed.

Lemma setProp_setProp (o : Obj) (name : string) (v w : JValue) :
  setProp (setProp o name v) name w = setProp o name w.
Proof.
  induction o as [|[k u] o IH]; simpl.
  - by rewrite String.eqb_refl.
  - destruct (k =? name) eqn:E; simpl; rewrite E; [done|]. by rewrite IH.
Qed.

Lemma putProp_putProp (o : Obj) (name : string) (v w : JValue) :
  putProp (putProp o name v) name w = putProp o name w.
Proof.
  unfold putProp. destruct (name =? "__proto__"); [done|]. apply setProp_setProp.
Qed.

(** Merging a record of that shape whose mode is [undefined]: the
    default mode fills it in. *)
Lemma createOptions_again_undefined R :
  normalized R → getProp R "mode" = JUndefined →
  createOptions (JObj R) = Return (putProp R "mode" OPTIONS_MODE_STRICT).
Proof.
  intros (Hwf & Hall & (c & Hc & Hcc) & (l & Hl) & Hcache & (bd & Hd) & (bw & Hw) & Haw) Hm.
  unfold Options.createOptions. cbn [keys].
  pose proof (optionsLoop_rebuild R R.*1 Hwf R [] eq_refl) as HL. csimpl in HL.
  rewrite HL. clear HL. cbn [bindC fst snd].
  rewrite <- !hasProp_elem, !Hall by reflexivity. cbn [negb].
  rewrite Hc, Hcc. cbn [bindC].
  set (R0 := putProp R "mode" (JStr "strict")).
  assert (∀ k, hasProp R k = true → hasProp R0 k = true) as Hhas.
  { intros k Hk. by apply hasProp_putProp_mono. }
  assert (∀ k, ("mode" =? k) = false → getProp R0 k = getProp R k) as Hget.
  { intros k Hk. unfold R0. rewrite getProp_putProp, Hk. by rewrite andb_false_r. }
  assert (∀ o s1 s2, defaults o (s1 ++ s2) = defaults (defaults o s1) s2) as Happ.
  { intros o s1 s2. unfold defaults. apply foldl_app. }
  assert (defaults R [ ("await", JBool false); ("cache", JBool true);
                       ("cjs", JObj Options.defaultCJS); ("debug", JBool false);
                       ("mainFields", JArr [JStr "main"]) ] = R) as Hpre.
  { apply defaults_id.
    - intros k Hk. apply Hall. revert Hk. cbn [hasProp existsb fst].
      repeat (intros Hk; apply orb_true_iff in Hk as [Hk|Hk];
              [apply String.eqb_eq in Hk as <-; reflexivity | revert Hk]).
      done.
    - intros k d Hin Hu.
      repeat (apply elem_of_cons in Hin as [Heq|Hin];
              [injection Heq as -> ->; rewrite ?Hc, ?Hl, ?Hd in Hu;
               try done; try congruence|]).
      + rewrite <- Hcache in Hu. by destruct (getProp R "cache").
      + by apply elem_of_nil in Hin. }
  assert (defaults R [("mode", JStr "strict")] = R0) as Hmid.
  { unfold defaults. cbn [foldl fst snd]. by rewrite Hm. }
  assert (defaults R0 [("sourceMap", JUndefined); ("warnings", JBool DEVELOPMENT)] = R0)
    as Hpost.
  { apply defaults_id.
    - intros k Hk. apply Hhas, Hall. revert Hk. cbn [hasProp existsb fst].
      intros Hk. apply orb_true_iff in Hk as [Hk|Hk].
      + apply String.eqb_eq in Hk as <-. reflexivity.
      + rewrite orb_false_r in Hk. apply String.eqb_eq in Hk as <-. reflexivity.
    - intros k d Hin Hu.
      apply elem_of_cons in Hin as [Heq|Hin]; [by injection Heq as -> ->|].
      apply elem_of_cons in Hin as [Heq|Hin]; [|by apply elem_of_nil in Hin].
      injection Heq as -> ->. rewrite Hget, Hw in Hu by reflexivity. done. }
  assert (defaults R defaultOptions = R0) as ->.
  { change defaultOptions with
      ([ ("await", JBool false); ("cache", JBool true);
         ("cjs", JObj Options.defaultCJS); ("debug", JBool false);
         ("mainFields", JArr [JStr "main"]) ]
       ++ [("mode", JStr "strict")]
       ++ [("sourceMap", JUndefined); ("warnings", JBool DEVELOPMENT)]).
    by rewrite !Happ, Hpre, Hmid, Hpost. }
  rewrite (putProp_same R0 "cjs");
    [|by apply Hhas, Hall | by rewrite Hget by reflexivity].
  rewrite Hget, Hl by reflexivity. cbn [Options.normalizeMainFields bindC].
  rewrite (putProp_same R0 "mainFields");
    [|by apply Hhas, Hall | by rewrite Hget by reflexivity].
  assert (getProp R0 "mode" = JStr "strict") as ->.
  { unfold R0. by rewrite getProp_putProp. }
  cbn [Options.normalizeMode String.eqb Ascii.eqb Bool.eqb bindC].
  f_equal. unfold R0. rewrite putProp_putProp.
  set (R1 := putProp R "mode" OPTIONS_MODE_STRICT).
  assert (∀ k, hasProp R k = true → hasProp R1 k = true) as Hhas1.
  { intros k Hk. by apply hasProp_putProp_mono. }
  assert (∀ k, ("mode" =? k) = false → getProp R1 k = getProp R k) as Hget1.
  { intros k Hk. unfold R1. rewrite getProp_putProp, Hk. by rewrite andb_false_r. }
  rewrite (putProp_same R1 "cache");
    [|by apply Hhas1, Hall | by rewrite Hget1 by reflexivity].
  rewrite (putProp_same R1 "debug");
    [|by apply Hhas1, Hall | by rewrite Hget1, Hd by reflexivity].
  apply putProp_same; [by apply Hhas1, Hall | by rewrite Hget1, Hw by reflexivity].
Qed.

(** C8. Supplying the [cjs] option as the boolean [true] yields a group
    record in which every toggle ([cache], [extensions], [interop],
    [mutableNamespace], [namedExports], [paths], [topLevelReturn], [vars])
    is [true]; supplying [false] yields a record in which every toggle is
    [false]. This holds of [createCJS] and of the [cjs] field of the
    record [createOptions] returns. *)
Theorem createCJS_boolean :
  createCJS (JBool true) = Return (broadcast true) ∧
  createCJS (JBool false) = Return (broadcast false) ∧
  ∀ b, ∃ R, createOptions (JObj [("cjs", JBool b)]) = Return R ∧
            getProp R "cjs" = JObj (broadcast b).
Proof.
  split; [reflexivity|]. split; [reflexivity|].
  intros b. destruct b; eexists; split; reflexivity.
Qed.

(** C9, at an input where the code departs from it. The key [toString]
    is outside the options schema, yet [createOptions] raises no
    unknown-option error for the record [{ toString: 1 }]: the test
    [Reflect.has(defaultOptions, name)] also answers [true] for the names
    [defaultOptions] inherits from [Object.prototype], and the record
    returned carries the stray key. *)
Theorem createOptions_inherited_name :
  ∃ R, createOptions (JObj [("toString", JNum 1)]) = Return R ∧
       getProp R "toString" = JNum 1.
Proof. eexists. split; reflexivity. Qed.

Lemma optionsLoop_rejects value possibleNames todo names o :
  match find (rejected possibleNames) todo with
  | Some name =>
      optionsLoop value possibleNames todo names o = Throw (ERR_UNKNOWN_ESM_OPTION name)
  | None => ∃ r, optionsLoop value possibleNames todo names o = Return r
  end.
Proof.
  revert names o. induction todo as [|name rest IH]; intros names o; cbn [find].
  - by eexists.
  - unfold rejected at 1. cbn [Options.optionsLoop].
    destruct (Reflect_has defaultOptions name); cbn [negb andb]; [apply IH|].
    destruct ((name =? "sourcemap") && negb (elem "sourceMap" possibleNames));
      cbn [negb]; [|done].
    destruct (negb (isUndefined (get value "sourcemap"))); apply IH.
Qed.

(** A record with a rejected name makes [createOptions] throw the
    unknown-option error for the first such name. *)
Lemma createOptions_unknown_key (O : Obj) (name : string) :
  find (rejected O.*1) O.*1 = Some name →
  createOptions (JObj O) = Throw (ERR_UNKNOWN_ESM_OPTION name).
Proof.
  intros Hf. unfold Options.createOptions. cbn [keys].
  pose proof (optionsLoop_rejects (JObj O) O.*1 O.*1 [] []) as H.
  rewrite Hf in H. by rewrite H.
Qed.

Example createOptions_foo :
  createOptions (JObj [("foo", JNum 1)]) = Throw (ERR_UNKNOWN_ESM_OPTION "foo").
Proof. reflexivity. Qed.

Lemma optionsLoop_app value possibleNames l1 l2 names o :
  optionsLoop value possibleNames (l1 ++ l2) names o =
  (let? r := optionsLoop value possibleNames l1 names o in
   optionsLoop value possibleNames l2 r.1 r.2).
Proof.
  revert names o. induction l1 as [|name l1 IH]; intros names o; [done|].
  cbn [app Options.optionsLoop].
  destruct (Reflect_has defaultOptions name); [apply IH|].
  destruct ((name =? "sourcemap") && negb (elem "sourceMap" possibleNames)); [|done].
  destruct (negb (isUndefined (get value "sourcemap"))); apply IH.
Qed.

(** Away from the alias, the loop only reads the properties it visits. *)
Lemma optionsLoop_ext value value' possibleNames possibleNames' todo names o :
  (∀ k, k ∈ todo → (k =? "sourcemap") = false ∧ get value k = get value' k) →
  optionsLoop value possibleNames todo names o =
  optionsLoop value' possibleNames' todo names o.
Proof.
  revert names o. induction todo as [|name rest IH]; intros names o Hk; [done|].
  cbn [Options.optionsLoop].
  destruct (Hk name) as [Hne Hget]; [by left|].
  rewrite Hne, Hget. cbn [andb].
  destruct (Reflect_has defaultOptions name); [|done].
  apply IH. intros k Hin. apply Hk. by right.
Qed.

Lemma getProp_skip (pre post : Obj) a x k :
  (a =? k) = false → getProp (pre ++ (a, x) :: post) k = getProp (pre ++ post) k.
Proof.
  intros Ha. induction pre as [|[k' w] pre IH]; simpl; [by rewrite Ha|].
  by rewrite IH.
Qed.

Lemma find_rejected_some possibleNames todo :
  "sourcemap" ∈ todo → elem "sourceMap" possibleNames = true →
  ∃ name, find (rejected possibleNames) todo = Some name.
Proof.
  intros Hin He. induction todo as [|n rest IH]; [by apply elem_of_nil in Hin|].
  cbn [find]. destruct (rejected possibleNames n) eqn:E; [by eexists|].
  apply elem_of_cons in Hin as [<-|Hin]; [|by apply IH].
  unfold rejected in E. rewrite He in E. done.
Qed.

Lemma find_rejected_first possibleNames pre post :
  (∀ k, k ∈ pre → Reflect_has defaultOptions k = true) →
  elem "sourceMap" possibleNames = true →
  find (rejected possibleNames) (pre ++ "sourcemap" :: post) = Some "sourcemap".
Proof.
  intros Hpre He. induction pre as [|n pre IH]; cbn [app find].
  - unfold rejected. by rewrite He.
  - unfold rejected at 1. rewrite (Hpre n) by by left. cbn [negb andb].
    apply IH. intros k Hk. apply Hpre. by right.
Qed.

Lemma createOptions_loop_throw O e :
  optionsLoop (JObj O) O.*1 O.*1 [] [] = Throw e → createOptions (JObj O) = Throw e.
Proof. intros H. unfold Options.createOptions. cbn [keys]. by rewrite H. Qed.

Lemma createOptions_loop_eq O O' :
  optionsLoop (JObj O) O.*1 O.*1 [] [] = optionsLoop (JObj O') O'.*1 O'.*1 [] [] →
  createOptions (JObj O) = createOptions (JObj O').
Proof. intros H. unfold Options.createOptions. cbn [keys]. by rewrite H. Qed.

(** A record that holds both [sourceMap] and [sourcemap] is rejected,
    for [sourcemap] when every key listed before it is a recognised one.
    A record that holds the alias only is merged as if it held
    [sourceMap] with the alias's value coerced to a boolean, and as if it
    did not hold the alias when that value is [undefined]. *)
Lemma createOptions_alias_as_canonical (pre post : Obj) (v : JValue) :
  let O := pre ++ ("sourcemap", v) :: post in
  (hasProp (pre ++ post) "sourceMap" = true →
     (∃ name, createOptions (JObj O) = Throw (ERR_UNKNOWN_ESM_OPTION name)) ∧
     ((∀ k, hasProp pre k = true → Reflect_has defaultOptions k = true) →
      createOptions (JObj O) = Throw (ERR_UNKNOWN_ESM_OPTION "sourcemap"))) ∧
  (hasProp (pre ++ post) "sourceMap" = false →
   hasProp (pre ++ post) "sourcemap" = false →
     createOptions (JObj O) =
     if isUndefined v then createOptions (JObj (pre ++ post))
     else createOptions (JObj (pre ++ ("sourceMap", JBool (truthy v)) :: post))).
Proof.
  intros O.
  assert (O.*1 = pre.*1 ++ "sourcemap" :: post.*1) as HO.
  { unfold O. by rewrite fmap_app. }
  split.
  - intros Hboth.
    assert (elem "sourceMap" O.*1 = true) as He.
    { rewrite <- hasProp_elem. unfold O. rewrite hasProp_app in *. simpl.
      by destruct (hasProp pre "sourceMap"). }
    split.
    + destruct (find_rejected_some O.*1 O.*1) as [name Hf]; [|done|].
      { rewrite HO. set_solver. }
      exists name. apply createOptions_loop_throw.
      pose proof (optionsLoop_rejects (JObj O) O.*1 O.*1 [] []) as H.
      by rewrite Hf in H.
    + intros Hpre. apply createOptions_loop_throw.
      pose proof (optionsLoop_rejects (JObj O) O.*1 O.*1 [] []) as H.
      pose proof (find_rejected_first O.*1 pre.*1 post.*1) as Hf.
      rewrite <- HO in Hf. rewrite Hf in H; [done| |done].
      intros k Hk. by apply Hpre, hasProp_spec.
  - intros HsM Hsm.
    rewrite hasProp_app in HsM, Hsm.
    apply orb_false_iff in HsM as [HsM1 HsM2], Hsm as [Hsm1 Hsm2].
    assert (∀ (X Y : Obj) pn pn' todo names o,
              (∀ k, k ∈ todo → hasProp (pre ++ post) k = true) →
              (∀ k, (k =? "sourcemap") = false → (k =? "sourceMap") = false →
                    getProp X k = getProp Y k) →
              optionsLoop (JObj X) pn todo names o = optionsLoop (JObj Y) pn' todo names o)
      as Hext.
    { intros X Y pn pn' todo names o Hin Hget. apply optionsLoop_ext.
      intros k Hk. specialize (Hin k Hk). rewrite hasProp_app in Hin.
      assert ((k =? "sourcemap") = false) as E1.
      { destruct (k =? "sourcemap") eqn:E; [|done]. apply String.eqb_eq in E. subst.
        by rewrite Hsm1, Hsm2 in Hin. }
      assert ((k =? "sourceMap") = false) as E2.
      { destruct (k =? "sourceMap") eqn:E; [|done]. apply String.eqb_eq in E. subst.
        by rewrite HsM1, HsM2 in Hin. }
      split; [done|]. by apply Hget. }
    assert (∀ k, k ∈ pre.*1 → hasProp (pre ++ post) k = true) as Hinpre.
    { intros k Hk. rewrite hasProp_app. apply hasProp_spec in Hk. by rewrite Hk. }
    assert (∀ k, k ∈ post.*1 → hasProp (pre ++ post) k = true) as Hinpost.
    { intros k Hk. rewrite hasProp_app. apply hasProp_spec in Hk. by rewrite Hk, orb_true_r. }
    assert (elem "sourceMap" O.*1 = false) as He.
    { rewrite <- hasProp_elem. unfold O. rewrite hasProp_app. simpl.
      by rewrite HsM1, HsM2. }
    destruct (isUndefined v) eqn:Ev; apply createOptions_loop_eq.
    + rewrite HO at 2. rewrite !fmap_app.
      rewrite !optionsLoop_app.
      rewrite (Hext O (pre ++ post) _ (pre.*1 ++ post.*1) pre.*1); [|done|].
      2:{ intros k E1 E2. unfold O. by apply getProp_skip; rewrite String.eqb_sym. }
      destruct (optionsLoop (JObj (pre ++ post)) (pre.*1 ++ post.*1) pre.*1 [] [])
        as [[n1 o1]|]; cbn [bindC fst snd]; [|done].
      cbn [Options.optionsLoop].
      change (Reflect_has defaultOptions "sourcemap") with false.
      rewrite He, String.eqb_refl. cbn [negb andb].
      cbn [get].
      assert (getProp O "sourcemap" = v) as -> by (unfold O; by apply getProp_middle).
      rewrite Ev. cbn [negb].
      apply Hext; [done|].
      intros k E1 E2. by apply getProp_skip; rewrite String.eqb_sym.
    + rewrite HO at 2. rewrite !fmap_app. csimpl.
      rewrite !optionsLoop_app.
      set (O1 := pre ++ ("sourceMap", JBool (truthy v)) :: post).
      rewrite (Hext O O1 _ (pre.*1 ++ "sourceMap" :: post.*1) pre.*1); [|done|].
      2:{ intros k E1 E2. unfold O, O1.
          rewrite !getProp_skip; [done | by rewrite String.eqb_sym..]. }
      destruct (optionsLoop (JObj O1) (pre.*1 ++ "sourceMap" :: post.*1) pre.*1 [] [])
        as [[n1 o1]|]; cbn [bindC fst snd]; [|done].
      cbn [Options.optionsLoop].
      change (Reflect_has defaultOptions "sourcemap") with false.
      change (Reflect_has defaultOptions "sourceMap") with true.
      rewrite He, String.eqb_refl. cbn [negb andb].
      cbn [get].
      assert (getProp O "sourcemap" = v) as -> by (unfold O; by apply getProp_middle).
      assert (getProp O1 "sourceMap" = JBool (truthy v)) as ->
        by (unfold O1; by apply getProp_middle).
      rewrite Ev. cbn [negb].
      apply Hext; [done|].
      intros k E1 E2. unfold O, O1.
      rewrite !getProp_skip; [done | by rewrite String.eqb_sym..].
Qed.

Lemma normalizeMode_inv mode m :
  normalizeMode mode = Return m →
  m = OPTIONS_MODE_ALL ∨ m = OPTIONS_MODE_AUTO ∨ m = OPTIONS_MODE_STRICT.
Proof.
  destruct mode; try done. simpl.
  repeat (case_match; [intros [= <-]; auto|]). done.
Qed.

(** C2, amended. For every valid options record [O], merging the record
    [R] that [createOptions O] returns changes no field other than
    [mode]: it returns [R] with the mode normalised once more (the
    default mode standing in for an [undefined] one), or throws the
    invalid-option error that the mode normalisation throws for the mode
    of [R]. So the second merge returns [R] itself when the mode of [R]
    is a mode name that the merge maps to itself, and throws when it is
    any value other than [undefined] and a string, as with numeric
    [OPTIONS_MODE_ALL], [OPTIONS_MODE_AUTO] and [OPTIONS_MODE_STRICT]. *)
Theorem createOptions_twice (O : JValue) (R : Obj) :
  createOptions O = Return R →
  createOptions (JObj R) =
    (let? mode :=
       normalizeMode (if isUndefined (getProp R "mode") then JStr "strict"
                      else getProp R "mode") in
     Return (putProp R "mode" mode)) ∧
  (normalizeMode (getProp R "mode") = Return (getProp R "mode") →
   createOptions (JObj R) = Return R) ∧
  (isUndefined (getProp R "mode") = false → (∀ s, getProp R "mode" ≠ JStr s) →
   createOptions (JObj R) = Throw (ERR_INVALID_ESM_OPTION "mode" (getProp R "mode"))).
Proof.
  intros H.
  destruct (createOptions_normalized _ _ H) as [Hn [m0 Hm0]].
  assert (createOptions (JObj R) =
          (let? mode :=
             normalizeMode (if isUndefined (getProp R "mode") then JStr "strict"
                            else getProp R "mode") in
           Return (putProp R "mode" mode))) as Hagain.
  { destruct (isUndefined (getProp R "mode")) eqn:Eu.
    - rewrite createOptions_again_undefined; [|done|by destruct (getProp R "mode")].
      by cbn.
    - by apply createOptions_again. }
  split; [done|]. split.
  - intros Hmode. rewrite Hagain.
    assert (isUndefined (getProp R "mode") = false) as ->.
    { destruct (getProp R "mode"); done. }
    rewrite Hmode. cbn [bindC]. f_equal. apply putProp_same; [|done].
    by apply Hn.
  - intros Hu Hs. rewrite Hagain, Hu.
    destruct (getProp R "mode") as [| | | |s| |]; try done. by destruct (Hs s).
Qed.

End WithConstants.

Lemma createOptions_twice_witness :
  let createOptions :=
    Options.createOptions false (JNum 1) (JNum 2) (JNum 3) (fun s => s) in
  createOptions (JObj []) = Return (Sample.autoRecord (JNum 2)) ∧
  createOptions (JObj (Sample.autoRecord (JNum 2)))
    = Throw (ERR_INVALID_ESM_OPTION "mode" (JNum 2)).
Proof.
  split; [vm_compute; reflexivity|].
  destruct (createOptions_twice false (JNum 1) (JNum 2) (JNum 3) (fun s => s)
              (JObj []) (Sample.autoRecord (JNum 2))) as (_ & _ & Hthrow).
  - vm_compute. reflexivity.
  - apply Hthrow; [reflexivity|]. intros s. vm_compute. discriminate.
Defined.

Lemma createOptions_twice_counterexample :
  let createOptions :=
    Options.createOptions false (JNum 1) (JNum 2) (JNum 3) (fun s => s) in
  createOptions (JObj []) = Return (Sample.autoRecord (JNum 2)) ∧
  createOptions (JObj (Sample.autoRecord (JNum 2)))
    = Throw (ERR_INVALID_ESM_OPTION "mode" (JNum 2)) ∧
  createOptions (JObj (Sample.autoRecord (JNum 2))) ≠ Return (Sample.autoRecord (JNum 2)).
Proof.
  intros createOptions.
  assert (createOptions (JObj (Sample.autoRecord (JNum 2)))
          = Throw (ERR_INVALID_ESM_OPTION "mode" (JNum 2))) as H
    by (vm_compute; reflexivity).
  split; [vm_compute; reflexivity|]. split; [exact H|]. rewrite H. discriminate.
Qed.

End OptionsFacts.

(** ** Facts about the file probe *)

Module FileFacts.

Lemma append_inj_r (p a b : string) : p +:+ a = p +:+ b → a = b.
Proof.
  induction p as [|c p IH]; simpl; [done|]. intros [= H]. by apply IH.
Qed.

Lemma readFile_removeFile (fs : Files) (path : string) :
  readFile (removeFile fs path) path = None.
Proof.
  induction fs as [|[p c] fs IH]; simpl; [done|].
  unfold removeFile in *. rewrite filter_cons. simpl.
  destruct (p =? path) eqn:E; simpl; [done|]. by rewrite E.
Qed.

Lemma readFile_removeFile_None (fs : Files) (path other : string) :
  readFile fs path = None → readFile (removeFile fs other) path = None.
Proof.
  induction fs as [|[p c] fs IH]; simpl; [done|].
  unfold removeFile in *. rewrite filter_cons. simpl.
  destruct (p =? path) eqn:E; [done|]. intros H.
  destruct (p =? other); simpl; [by apply IH|]. rewrite E. by apply IH.
Qed.

Lemma readFile_removeFile_ne (fs : Files) (path other : string) :
  (other =? path) = false → readFile (removeFile fs other) path = readFile fs path.
Proof.
  intros Hne. induction fs as [|[p c] fs IH]; simpl; [done|].
  unfold removeFile in *. rewrite filter_cons. simpl.
  destruct (p =? other) eqn:E; simpl.
  - apply String.eqb_eq in E. subst. by rewrite Hne.
  - by rewrite IH.
Qed.

End FileFacts.

(** ** Facts about the [Package] class *)

Module PackageFacts.
Import FileFacts Manifest.

Lemma bindM_Done {A B} (c : M A) (k : A → M B) st b st' :
  bindM c k st = Done b st' → ∃ a st1, c st = Done a st1 ∧ k a st1 = Done b st'.
Proof. unfold bindM. destruct (c st) as [a st1| |]; [by eauto|done..]. Qed.

Section WithEnvironment.

Variable DEVELOPMENT : bool.
Variable OPTIONS : JValue.
Variable NYC : bool.
Variable PKG_VERSION : string.
Variables OPTIONS_MODE_ALL OPTIONS_MODE_AUTO OPTIONS_MODE_STRICT : JValue.
Variable RANGE_ALL : JValue.
Variable sep : string.
Variables basename dirname extname : string → string.
Variable resolve : string → string → string.
Variable toStringLiteral : string → string.
Variables parseJSON parseJSON6 : string → JValue.
Variable validRange : JValue → JValue.
Variable _findPath : Files → string → list string → bool → list string → string.
Variable loadESM : Files → string → Completion JValue.

Local Abbreviation createOptions :=
  (Package.createOptions DEVELOPMENT
     OPTIONS_MODE_ALL OPTIONS_MODE_AUTO OPTIONS_MODE_STRICT toStringLiteral).
Local Abbreviation clearBabelCache := (Package.clearBabelCache sep extname resolve).
Local Abbreviation readJSON := (Package.readJSON parseJSON).
Local Abbreviation loadCache :=
  (Package.loadCache NYC PKG_VERSION sep extname resolve parseJSON).
Local Abbreviation cachePathFor := (Package.cachePathFor sep resolve).
Local Abbreviation newPackage :=
  (Package.newPackage DEVELOPMENT NYC PKG_VERSION
     OPTIONS_MODE_ALL OPTIONS_MODE_AUTO OPTIONS_MODE_STRICT sep
     extname resolve toStringLiteral parseJSON).
Local Abbreviation readInfo :=
  (Package.readInfo DEVELOPMENT OPTIONS NYC PKG_VERSION
     OPTIONS_MODE_ALL OPTIONS_MODE_AUTO OPTIONS_MODE_STRICT RANGE_ALL sep
     basename dirname extname resolve toStringLiteral parseJSON parseJSON6
     validRange _findPath loadESM).
Local Abbreviation resolveInfo :=
  (Package.resolveInfo DEVELOPMENT OPTIONS NYC PKG_VERSION
     OPTIONS_MODE_ALL OPTIONS_MODE_AUTO OPTIONS_MODE_STRICT RANGE_ALL sep
     basename dirname extname resolve toStringLiteral parseJSON parseJSON6
     validRange _findPath loadESM).
Local Abbreviation getInfo :=
  (Package.getInfo DEVELOPMENT OPTIONS NYC PKG_VERSION
     OPTIONS_MODE_ALL OPTIONS_MODE_AUTO OPTIONS_MODE_STRICT RANGE_ALL sep
     basename dirname extname resolve toStringLiteral parseJSON parseJSON6
     validRange _findPath loadESM).

Lemma clearBabelCache_None (fs : Files) (cachePath path : string) :
  readFile fs path = None → readFile (clearBabelCache fs cachePath) path = None.
Proof.
  unfold Package.clearBabelCache.
  generalize (readdir sep fs (resolve cachePath "../@babel/register")).
  intros names. revert fs.
  induction names as [|n names IH]; intros fs H; simpl; [done|].
  apply IH. destruct (extname n =? ".json"); [|done].
  by apply readFile_removeFile_None.
Qed.

(** Once a flag of the scan is set it stays set. *)
Lemma scan_dirty_mono names s :
  Package.hasDirtyMarker s = true →
  Package.hasDirtyMarker (Package.scanCacheNames names s) = true.
Proof.
  revert s. induction names as [|n names IH]; intros s H; simpl; [done|].
  repeat case_match; try apply IH; done.
Qed.

Lemma scan_nyc_mono names s :
  Package.hasNycMarker s = true →
  Package.hasNycMarker (Package.scanCacheNames names s) = true.
Proof.
  revert s. induction names as [|n names IH]; intros s H; simpl; [done|].
  repeat case_match; try apply IH; done.
Qed.

Lemma scan_map_mono names s :
  Package.hasMap s = true →
  Package.hasMap (Package.scanCacheNames names s) = true.
Proof.
  revert s. induction names as [|n names IH]; intros s H; simpl; [done|].
  repeat case_match; try apply IH; done.
Qed.

(** A dirty marker in the listing is always observed. *)
Lemma scan_dirty names s :
  ".dirty" ∈ names →
  Package.hasDirtyMarker (Package.scanCacheNames names s) = true.
Proof.
  revert s. induction names as [|n names IH]; intros s H; [by apply elem_of_nil in H|].
  apply elem_of_cons in H as [<-|H]; [done|].
  simpl. repeat case_match; try (by apply IH); done.
Qed.

(** An instrumentation marker is observed unless the scan stops at a
    dirty marker before reaching it. *)
Lemma scan_nyc names s :
  ".nyc" ∈ names → ".dirty" ∉ names →
  Package.hasNycMarker (Package.scanCacheNames names s) = true.
Proof.
  revert s. induction names as [|n names IH]; intros s H Hd; [by apply elem_of_nil in H|].
  apply not_elem_of_cons in Hd as [Hn Hd].
  apply elem_of_cons in H as [<-|H].
  - simpl. by apply scan_nyc_mono.
  - simpl. repeat case_match; try (by apply IH).
    match goal with
    | E : (_ =? ".dirty") = true |- _ => apply String.eqb_eq in E; by subst
    end.
Qed.

(** The metadata file in the listing is observed unless the scan stops
    at a dirty marker. *)
Lemma scan_map names s :
  ".data.json" ∈ names →
  Package.hasDirtyMarker (Package.scanCacheNames names s) = false →
  Package.hasMap (Package.scanCacheNames names s) = true.
Proof.
  revert s. induction names as [|n names IH]; intros s H; [by apply elem_of_nil in H|].
  apply elem_of_cons in H as [<-|H].
  - simpl. intros _. by apply scan_map_mono.
  - simpl. repeat case_match; try (by apply IH). simpl. done.
Qed.

(** The scan reads a listing up to its first dirty marker. *)
Lemma scan_app pre rest s :
  ".dirty" ∉ pre →
  Package.scanCacheNames (pre ++ rest) s =
  Package.scanCacheNames rest (Package.scanCacheNames pre s).
Proof.
  revert s. induction pre as [|n pre IH]; intros s Hd; [done|].
  apply not_elem_of_cons in Hd as [Hn Hd]. cbn [app Package.scanCacheNames].
  destruct (Package.notDotted n); [by apply IH|].
  destruct (n =? ".data.blob"); [by apply IH|].
  destruct (n =? ".data.json"); [by apply IH|].
  destruct (n =? ".dirty") eqn:E; [by apply String.eqb_eq in E|].
  destruct (n =? ".nyc"); by apply IH.
Qed.

(** An instrumentation marker listed before any dirty marker is
    observed. *)
Lemma scan_nyc_before pre post s :
  ".dirty" ∉ pre →
  Package.hasNycMarker (Package.scanCacheNames (pre ++ ".nyc" :: post) s) = true.
Proof.
  intros Hd. rewrite scan_app by done. cbn. by apply scan_nyc_mono.
Qed.

(** An instrumentation marker listed after a dirty marker is not. *)
Lemma scan_nyc_unseen pre post s :
  ".nyc" ∉ pre →
  Package.hasNycMarker (Package.scanCacheNames (pre ++ ".dirty" :: post) s) =
  Package.hasNycMarker s.
Proof.
  revert s. induction pre as [|n pre IH]; intros s Hn; [done|].
  apply not_elem_of_cons in Hn as [Hn Hpre]. cbn [app Package.scanCacheNames].
  destruct (Package.notDotted n); [by rewrite IH|].
  destruct (n =? ".data.blob"); [by rewrite IH|].
  destruct (n =? ".data.json"); [by rewrite IH|].
  destruct (n =? ".dirty"); [done|].
  destruct (n =? ".nyc") eqn:E; [by apply String.eqb_eq in E|].
  by apply IH.
Qed.

(** The sweep of the Babel cache leaves alone what is not a [.json]
    file of its directory. *)
Lemma clearBabelCache_kept (fs : Files) (cachePath path : string) :
  (∀ name, extname name = ".json" →
           resolve cachePath "../@babel/register" +:+ sep +:+ name ≠ path) →
  readFile (clearBabelCache fs cachePath) path = readFile fs path.
Proof.
  intros Hpath. unfold Package.clearBabelCache.
  generalize (readdir sep fs (resolve cachePath "../@babel/register")).
  intros names. revert fs.
  induction names as [|n names IH]; intros fs; cbn [foldl]; [done|].
  rewrite IH. destruct (extname n =? ".json") eqn:E; [|done].
  apply readFile_removeFile_ne. apply String.eqb_neq.
  apply Hpath. by apply String.eqb_eq.
Qed.

(** What a load that a marker makes invalid leaves on disk. *)
Lemma loadCache_markers_files (fs : Files) (cachePath : string) :
  let s := Package.scanCacheNames (readdir sep fs cachePath) Package.scanStart in
  Package.hasDirtyMarker s || (NYC && negb (Package.hasNycMarker s))
    || (negb NYC && Package.hasNycMarker s) = true →
  loadCache fs cachePath =
  Return (clearBabelCache
            (let fs1 := if Package.hasDirtyMarker s
                        then removeFile fs (cachePath +:+ sep +:+ ".dirty") else fs in
             if negb NYC && Package.hasNycMarker s
             then removeFile fs1 (cachePath +:+ sep +:+ ".nyc") else fs1)
            cachePath,
          mkCache (Some "") [] (JObj [])).
Proof.
  intros s Hinv. unfold Package.loadCache. fold s. rewrite Hinv.
  rewrite andb_false_r. by cbn [bindC negb].
Qed.

(** When a marker makes the cache invalid, the load returns an emptied
    cache, and the markers it observed are gone. *)
Lemma loadCache_markers (fs : Files) (cachePath : string) :
  let s := Package.scanCacheNames (readdir sep fs cachePath) Package.scanStart in
  Package.hasDirtyMarker s || (NYC && negb (Package.hasNycMarker s))
    || (negb NYC && Package.hasNycMarker s) = true →
  ∃ fs', loadCache fs cachePath = Return (fs', mkCache (Some "") [] (JObj [])) ∧
         (Package.hasDirtyMarker s = true →
          readFile fs' (cachePath +:+ sep +:+ ".dirty") = None) ∧
         (negb NYC && Package.hasNycMarker s = true →
          readFile fs' (cachePath +:+ sep +:+ ".nyc") = None).
Proof.
  intros s Hinv. unfold Package.loadCache. fold s. rewrite Hinv.
  rewrite andb_false_r. cbn [bindC negb].
  eexists. split; [reflexivity|]. split.
  - intros Hd. rewrite Hd. apply clearBabelCache_None.
    destruct (negb NYC && Package.hasNycMarker s).
    + apply readFile_removeFile_None, readFile_removeFile.
    + apply readFile_removeFile.
  - intros Hn. rewrite Hn. apply clearBabelCache_None, readFile_removeFile.
Qed.

(** When no marker invalidates the cache but the recorded version
    differs, the load returns an emptied cache. *)
Lemma loadCache_version (fs : Files) (cachePath : string) (version : JValue) :
  let s := Package.scanCacheNames (readdir sep fs cachePath) Package.scanStart in
  Package.hasDirtyMarker s || (NYC && negb (Package.hasNycMarker s))
    || (negb NYC && Package.hasNycMarker s) = false →
  Package.hasMap s = true →
  Package.member (readJSON fs (cachePath +:+ sep +:+ ".data.json")) "version"
    = Return version →
  Package.differsFrom version PKG_VERSION = true →
  ∃ fs', loadCache fs cachePath = Return (fs', mkCache (Some "") [] (JObj [])).
Proof.
  intros s Hinv Hmap Hver Hdiff. unfold Package.loadCache. fold s.
  rewrite Hinv, Hmap. cbn [andb negb]. rewrite Hver. cbn [bindC]. rewrite Hdiff.
  cbn [bindC]. by eexists.
Qed.

Lemma newPackage_load (st : State) dirPath range options opts cp fs' c :
  createOptions options = Return opts →
  cachePathFor dirPath opts = cp → cp ≠ "" → dir st !! cp = None →
  loadCache (files st) cp = Return (fs', c) →
  newPackage dirPath range options st =
  Done (length (heap st))
       (mkState fs' (<[cp := c]> (dir st)) (root st)
                (heap st ++ [mkPackage cp dirPath opts range])
                (memo st) (state_default st) (moduleState st) (unbuilt st)).
Proof.
  intros Hopts Hcp Hne Hdir Hload.
  unfold Package.newPackage, bindM, liftC, getState, modify, retM.
  fold createOptions. rewrite Hopts. fold (cachePathFor dirPath opts). rewrite Hcp.
  rewrite Hdir. apply String.eqb_neq in Hne. rewrite Hne.
  fold loadCache. rewrite Hload. reflexivity.
Qed.

(** The constructor does not catch what the options merge throws. *)
Lemma newPackage_propagates (st : State) dirPath range options e :
  createOptions options = Throw e →
  newPackage dirPath range options st = Failed e st.
Proof.
  intros H. unfold Package.newPackage, bindM, liftC. fold createOptions. by rewrite H.
Qed.

(** C4. If, when the constructor loads a cache directory, the version
    recorded in [.data.json] differs from [PKG_VERSION], then the cache it
    registers has an empty index, an empty buffer and an empty map, and
    looking up any entry name in it yields [undefined]. *)
Theorem version_mismatch_clears (st : State) dirPath range options opts cp version :
  createOptions options = Return opts →
  cachePathFor dirPath opts = cp → cp ≠ "" → dir st !! cp = None →
  ".data.json" ∈ readdir sep (files st) cp →
  Package.member (readJSON (files st) (cp +:+ sep +:+ ".data.json")) "version"
    = Return version →
  Package.differsFrom version PKG_VERSION = true →
  ∃ st', newPackage dirPath range options st = Done (length (heap st)) st' ∧
         dir st' !! cp = Some (mkCache (Some "") [] (JObj [])) ∧
         ∀ cache, dir st' !! cp = Some cache →
           compile cache = [] ∧ buffer cache = Some "" ∧ map cache = JObj [] ∧
           ∀ entryName, Package.cacheGet cache entryName = JUndefined.
Proof.
  intros Hopts Hcp Hne Hdir Hlisted Hver Hdiff.
  set (s := Package.scanCacheNames (readdir sep (files st) cp) Package.scanStart).
  assert (∃ fs', loadCache (files st) cp = Return (fs', mkCache (Some "") [] (JObj [])))
    as [fs' Hload].
  { destruct (Package.hasDirtyMarker s || (NYC && negb (Package.hasNycMarker s))
              || (negb NYC && Package.hasNycMarker s)) eqn:Hinv.
    - destruct (loadCache_markers (files st) cp Hinv) as (fs' & H & _). by exists fs'.
    - eapply loadCache_version; [done| |done..].
      apply scan_map; [done|].
      by apply orb_false_iff in Hinv as [[? _]%orb_false_iff _]. }
  eexists. split; [by eapply newPackage_load|].
  cbn [dir]. rewrite lookup_insert_eq. split; [done|].
  by intros cache [= <-].
Qed.

(** C5, amended. When the constructor loads a cache directory, a
    [.dirty] marker it lists is gone from the disk afterwards. With
    instrumentation off, a [.nyc] marker is gone afterwards when it is
    listed before any [.dirty] marker. A [.nyc] marker listed only after
    a [.dirty] marker is never observed, because the scan stops at the
    [.dirty] marker: the constructor leaves it on disk (the sweep of the
    Babel cache aside, which removes [.json] files of another
    directory). *)
Theorem markers_removed (st : State) dirPath range options opts cp :
  createOptions options = Return opts →
  cachePathFor dirPath opts = cp → cp ≠ "" → dir st !! cp = None →
  let listing := readdir sep (files st) cp in
  (".dirty" ∈ listing →
     ∃ st', newPackage dirPath range options st = Done (length (heap st)) st' ∧
            readFile (files st') (cp +:+ sep +:+ ".dirty") = None) ∧
  (NYC = false →
   ∀ pre post, listing = pre ++ ".nyc" :: post → ".dirty" ∉ pre →
     ∃ st', newPackage dirPath range options st = Done (length (heap st)) st' ∧
            readFile (files st') (cp +:+ sep +:+ ".nyc") = None) ∧
  (∀ pre post, listing = pre ++ ".dirty" :: post → ".nyc" ∉ pre →
     (∀ name, extname name = ".json" →
              resolve cp "../@babel/register" +:+ sep +:+ name ≠ cp +:+ sep +:+ ".nyc") →
     ∃ st', newPackage dirPath range options st = Done (length (heap st)) st' ∧
            readFile (files st') (cp +:+ sep +:+ ".nyc") =
            readFile (files st) (cp +:+ sep +:+ ".nyc")).
Proof.
  intros Hopts Hcp Hne Hdir listing.
  set (observed := Package.scanCacheNames listing Package.scanStart).
  split; [|split].
  - intros Hd. pose proof (scan_dirty listing Package.scanStart Hd) as Hflag.
    fold observed in Hflag.
    destruct (loadCache_markers (files st) cp) as (fs' & Hload & Hgone & _).
    { fold listing. fold observed. by rewrite Hflag. }
    eexists. split; [by eapply newPackage_load|]. cbn [files]. by apply Hgone.
  - intros HNYC pre post Hlist Hpre.
    assert (Package.hasNycMarker observed = true) as Hflag.
    { unfold observed. rewrite Hlist. by apply scan_nyc_before. }
    destruct (loadCache_markers (files st) cp) as (fs' & Hload & _ & Hgone).
    { fold listing. fold observed. rewrite Hflag, HNYC. cbn. by rewrite orb_true_r. }
    eexists. split; [by eapply newPackage_load|]. cbn [files]. apply Hgone.
    fold listing. fold observed. by rewrite Hflag, HNYC.
  - intros pre post Hlist Hpre Hbabel.
    assert (Package.hasDirtyMarker observed = true) as Hdirty.
    { unfold observed. apply scan_dirty. rewrite Hlist.
      apply elem_of_app. right. by left. }
    assert (Package.hasNycMarker observed = false) as Hnyc.
    { unfold observed. rewrite Hlist. by rewrite scan_nyc_unseen. }
    pose proof (loadCache_markers_files (files st) cp) as Hload.
    fold listing in Hload. fold observed in Hload. cbv zeta in Hload.
    rewrite Hdirty, Hnyc, andb_false_r in Hload. specialize (Hload eq_refl).
    eexists. split; [by eapply newPackage_load|]. cbn [files].
    rewrite clearBabelCache_kept by done.
    apply readFile_removeFile_ne. apply String.eqb_neq.
    intros Heq. by apply append_inj_r, append_inj_r in Heq.
Qed.

Lemma set_memo dirPath pkg (k : M (option Ref)) st v st' :
  bindM (Package.set dirPath pkg) (fun _ => retM pkg) st = Done v st' →
  v = pkg ∧ memo st' !! dirPath = Some pkg.
Proof.
  unfold bindM, Package.set, modify, retM. intros [= <- <-].
  split; [done|]. cbn [memo setMemo]. apply lookup_insert_eq.
Qed.

(** Whatever [getInfo] returns past the memo, it has memoized. *)
Lemma resolveInfo_memo fuel (rec : string → bool → M (option Ref)) dirPath force st v st' :
  resolveInfo fuel rec dirPath force st = Done v st' → memo st' !! dirPath = Some v.
Proof.
  unfold Package.resolveInfo. destruct (basename dirPath =? "node_modules").
  - intros H. by apply (set_memo dirPath None (retM None)) in H as [-> H].
  - intros H.
    apply bindM_Done in H as (p1 & st1 & _ & H).
    apply bindM_Done in H as (p2 & st2 & _ & H).
    apply bindM_Done in H as (p3 & st3 & _ & H).
    by apply (set_memo dirPath p3 (retM p3)) in H as [-> H].
Qed.

Lemma getInfo_hit fuel dirPath st v :
  memo st !! dirPath = Some v → getInfo (S fuel) dirPath false st = Done v st.
Proof.
  intros H. cbn [Package.getInfo]. unfold bindM, getState. rewrite H.
  by destruct v.
Qed.

(** C7. Resolution is memoized per directory path. With [force] unset,
    [getInfo] returns whatever the memo holds for the path, a package or
    the memoized [null], and leaves the state as it is; with [force] set
    it still returns a memoized package, and resolves again only when
    the memo holds [null]. Whatever a call returns is in the memo
    afterwards, so a repeated call without [force] returns the same
    reference and changes nothing. *)
Theorem getInfo_memoized (fuel : nat) (dirPath : string) (st : State) :
  (∀ v, memo st !! dirPath = Some v →
        getInfo (S fuel) dirPath false st = Done v st) ∧
  (∀ pkg, memo st !! dirPath = Some (Some pkg) →
          getInfo (S fuel) dirPath true st = Done (Some pkg) st) ∧
  (memo st !! dirPath = Some None →
   getInfo (S fuel) dirPath true st = resolveInfo fuel (getInfo fuel) dirPath true st) ∧
  (∀ force v st', getInfo fuel dirPath force st = Done v st' →
     memo st' !! dirPath = Some v ∧
     ∀ fuel', getInfo (S fuel') dirPath false st' = Done v st').
Proof.
  split; [|split; [|split]].
  - intros v. apply getInfo_hit.
  - intros pkg H. cbn [Package.getInfo]. unfold bindM, getState. by rewrite H.
  - intros H. cbn [Package.getInfo]. unfold bindM, getState. by rewrite H.
  - intros force v st' H.
    assert (memo st' !! dirPath = Some v) as Hm.
    { destruct fuel as [|fuel]; [done|].
      cbn [Package.getInfo] in H. unfold bindM at 1 in H. unfold getState in H.
      destruct (memo st !! dirPath) as [[pkg|]|] eqn:E.
      - by injection H as <- <-.
      - destruct force; cbn [negb] in H.
        + by eapply resolveInfo_memo.
        + by injection H as <- <-.
      - by eapply resolveInfo_memo. }
    split; [done|]. intros fuel'. by apply getInfo_hit.
Qed.

Local Abbreviation getRange := (Package.getRange validRange).
Local Abbreviation probeOptions :=
  (Package.probeOptions DEVELOPMENT NYC PKG_VERSION
     OPTIONS_MODE_ALL OPTIONS_MODE_AUTO OPTIONS_MODE_STRICT RANGE_ALL sep
     extname resolve toStringLiteral parseJSON parseJSON6 _findPath loadESM).
Local Abbreviation finishInfo :=
  (Package.finishInfo DEVELOPMENT OPTIONS NYC PKG_VERSION
     OPTIONS_MODE_ALL OPTIONS_MODE_AUTO OPTIONS_MODE_STRICT sep
     basename dirname extname resolve toStringLiteral parseJSON).
Local Abbreviation devOnly := (Manifest.devOnly validRange).

Lemma getRange_undeclared json field :
  declares json field = false → getRange json field = JNull.
Proof.
  unfold declares, Package.getRange. destruct (has json field); [|done].
  simpl. by intros ->.
Qed.

Lemma getRange_declared json field :
  declares json field = true →
  getRange json field = validRange (get (get json field) "esm").
Proof.
  unfold declares, Package.getRange. destruct (has json field); [|done].
  simpl. by intros ->.
Qed.

(** With a manifest that declares the tool under [devDependencies]
    only, [readInfo] reaches its tail with the all-versions range,
    whatever the search for an activation file found. *)
Lemma readInfo_devOnly fuel rec dirPath st p st1 text :
  probeOptions dirPath st = Done p st1 →
  readFile (files st1) (dirPath +:+ sep +:+ Package.PACKAGE_FILENAME) = Some text →
  devOnly (parseJSON text) →
  readInfo fuel rec dirPath false st =
  finishInfo fuel dirPath
    (if negb (Package.optionsFound p) && has (parseJSON text) "esm"
     then Package.mkProbe true (get (parseJSON text) "esm") (Package.scriptPkg p)
     else p)
    true (Some text) RANGE_ALL st1.
Proof.
  intros Hp Htext (Hdep & Hpeer & Hdev & Hvalid).
  unfold Package.readInfo. unfold bindM at 1. fold probeOptions. rewrite Hp.
  unfold bindM at 1. unfold getState at 1. rewrite Htext.
  cbn [is_Some_b negb andb]. unfold bindM at 1. unfold retM at 1.
  fold getRange.
  destruct (Package.optionsFound p) eqn:Ef; cbn [negb andb orb];
    rewrite (getRange_undeclared _ "dependencies"),
            (getRange_undeclared _ "peerDependencies"),
            (getRange_declared _ "devDependencies"), Hvalid by done;
    cbn [jor truthy isNull]; rewrite ?orb_true_r, ?Ef; [done|].
  by destruct (has (parseJSON text) "esm").
Qed.

Lemma newPackage_alloc path r options st ref st1 :
  newPackage path r options st = Done ref st1 →
  ∃ pkg, heap st1 !! ref = Some pkg ∧ range pkg = r ∧ dirPath pkg = path ∧
         memo st1 = memo st ∧ moduleState st1 = moduleState st.
Proof.
  unfold Package.newPackage, bindM, liftC, getState, modify, retM.
  destruct (Package.createOptions _ _ _ _ _ options) as [opts|]; [|done].
  assert (∀ (h : list PackageObj) p, (h ++ [p]) !! length h = Some p) as Hlast.
  { intros h p. by rewrite lookup_app_r, Nat.sub_diag. }
  destruct (dir st !! _).
  - intros [= <- <-]. eexists. split; [apply Hlast | done].
  - destruct (_ =? ""); [|destruct (Package.loadCache _ _ _ _ _ _ _ _)]; [| |done].
    + intros [= <- <-]. eexists. split; [apply Hlast | done].
    + intros [= <- <-]. eexists. split; [apply Hlast | done].
Qed.

Lemma newPackage_range path r options st ref st1 :
  newPackage path r options st = Done ref st1 → Package.rangeOf st1 ref = r.
Proof.
  intros (pkg & Hpkg & Hr & _)%newPackage_alloc. unfold Package.rangeOf. by rewrite Hpkg.
Qed.

Lemma probe_none path st :
  readFile (files st) (path +:+ sep +:+ Package.ESMRC_FILENAME) = None →
  _findPath (files st) Package.ESMRC_FILENAME [path] false Package.searchExts = "" →
  probeOptions path st = Done (Package.mkProbe false JNull None) st.
Proof.
  intros Hrc Hfind. unfold Package.probeOptions, bindM, getState.
  by rewrite Hrc, Hfind.
Qed.

Lemma probe_rc path st rc :
  readFile (files st) (path +:+ sep +:+ Package.ESMRC_FILENAME) = Some rc →
  probeOptions path st = Done (Package.mkProbe true (parseJSON6 rc) None) st.
Proof.
  intros Hrc. unfold Package.probeOptions, bindM, getState. by rewrite Hrc.
Qed.

Lemma probe_json path st :
  let found :=
    _findPath (files st) Package.ESMRC_FILENAME [path] false Package.searchExts in
  readFile (files st) (path +:+ sep +:+ Package.ESMRC_FILENAME) = None →
  found ≠ "" → extname found = ".json" →
  probeOptions path st =
  Done (Package.mkProbe true (Package.readJSON6 parseJSON6 (files st) found) None) st.
Proof.
  intros found Hrc Hne Hext. unfold Package.probeOptions, bindM, getState.
  rewrite Hrc. fold found. apply String.eqb_neq in Hne. rewrite Hne, Hext.
  by cbn.
Qed.

(** The tail of [readInfo] when no activation script built the package. *)
Lemma finishInfo_new fuel path p text r st ref st1 :
  Package.scriptPkg p = None →
  newPackage path r
    (if isTrue (Package.foundOptions p) || negb (Package.optionsFound p)
     then OPTIONS else Package.foundOptions p) st = Done ref st1 →
  finishInfo fuel path p true (Some text) r st = Done (Some ref) st1.
Proof.
  intros Hs Hnew. unfold Package.finishInfo. rewrite Hs.
  cbn [negb andb]. unfold bindM at 1. unfold retM at 1.
  unfold bindM. fold newPackage. by rewrite Hnew.
Qed.

(** A first resolution that builds a package memoizes and returns it. *)
Lemma getInfo_resolved fuel path st ref st1 :
  memo st !! path = None → basename path ≠ "node_modules" →
  readInfo fuel (getInfo fuel) path false st = Done (Some ref) st1 →
  getInfo (S fuel) path false st =
  Done (Some ref) (setMemo st1 (<[path := Some ref]> (memo st1))).
Proof.
  intros Hmemo Hbase Hread. cbn [Package.getInfo].
  unfold bindM at 1. unfold getState at 1. rewrite Hmemo.
  unfold Package.resolveInfo. apply String.eqb_neq in Hbase. rewrite Hbase.
  unfold bindM at 1. fold readInfo. fold getInfo. rewrite Hread.
  reflexivity.
Qed.

Lemma probe_script path st ref st1 exports opts :
  let found :=
    _findPath (files st) Package.ESMRC_FILENAME [path] false Package.searchExts in
  readFile (files st) (path +:+ sep +:+ Package.ESMRC_FILENAME) = None →
  found ≠ "" → extname found ≠ ".json" →
  newPackage path RANGE_ALL JUndefined (setModuleState st (false, false)) = Done ref st1 →
  loadESM (files st1) found = Return exports →
  createOptions exports = Return opts →
  ∃ st2, probeOptions path st = Done (Package.mkProbe true JNull (Some ref)) st2 ∧
         files st2 = files st1 ∧
         ∃ pkg, heap st2 !! ref = Some pkg.
Proof.
  intros found Hrc Hne Hext Hnew Hload Hopts.
  destruct (newPackage_alloc _ _ _ _ _ _ Hnew) as (pkg & Hpkg & _).
  unfold Package.probeOptions. unfold bindM at 1. unfold getState at 1.
  rewrite Hrc. fold found.
  apply String.eqb_neq in Hne, Hext. rewrite Hne, Hext. cbn [negb].
  unfold bindM at 1. unfold modify at 1.
  unfold bindM at 1. fold newPackage. rewrite Hnew.
  unfold bindM at 1. unfold Package.set at 1. unfold modify at 1.
  unfold bindM at 1. unfold finallyM, bindM, getState, liftC.
  cbn [files setMemo]. rewrite Hload. fold createOptions. rewrite Hopts.
  unfold Package.assignOptions, modify, retM.
  eexists. split; [reflexivity|]. split.
  { reflexivity. }
  cbn [heap setModuleState setHeap setMemo].
  rewrite list_lookup_alter_eq, Hpkg. eexists. reflexivity.
Qed.

(** C1, amended. For a directory not yet resolved, other than a
    [node_modules] directory, whose manifest declares the tool under
    [devDependencies] only, with a constraint [validRange] accepts,
    [getInfo] returns a package whose range is [RANGE_ALL] and memoizes
    it, whether there is no activation file, an [.esmrc] file, an
    [.esmrc.json] file or an activation script, as soon as the package
    can be built from the options found. *)
Theorem getInfo_devDependencies (fuel : nat) (st : State) (path text : string) :
  memo st !! path = None → basename path ≠ "node_modules" →
  readFile (files st) (path +:+ sep +:+ Package.PACKAGE_FILENAME) = Some text →
  devOnly (parseJSON text) →
  let rc := readFile (files st) (path +:+ sep +:+ Package.ESMRC_FILENAME) in
  let found :=
    _findPath (files st) Package.ESMRC_FILENAME [path] false Package.searchExts in
  let resolved (ref : Ref) :=
    ∃ st', getInfo (S fuel) path false st = Done (Some ref) st' ∧
           memo st' !! path = Some (Some ref) ∧
           Package.rangeOf st' ref = RANGE_ALL in
  let built (options : JValue) :=
    ∀ ref st1, newPackage path RANGE_ALL options st = Done ref st1 → resolved ref in
  (rc = None → found = "" → built (manifestOptions OPTIONS (parseJSON text))) ∧
  (∀ content, rc = Some content → built (effective OPTIONS (parseJSON6 content))) ∧
  (rc = None → found ≠ "" → extname found = ".json" →
   built (effective OPTIONS (Package.readJSON6 parseJSON6 (files st) found))) ∧
  (rc = None → found ≠ "" → extname found ≠ ".json" →
   ∀ ref st1 exports opts,
     newPackage path RANGE_ALL JUndefined (setModuleState st (false, false))
       = Done ref st1 →
     loadESM (files st1) found = Return exports →
     createOptions exports = Return opts →
     readFile (files st1) (path +:+ sep +:+ Package.PACKAGE_FILENAME) = Some text →
     resolved ref).
Proof.
  intros Hmemo Hbase Htext Hdev rc found resolved built.
  assert (∀ p options,
            probeOptions path st = Done p st → Package.scriptPkg p = None →
            (if isTrue (Package.foundOptions
                          (if negb (Package.optionsFound p) && has (parseJSON text) "esm"
                           then Package.mkProbe true (get (parseJSON text) "esm") None
                           else p))
                || negb (Package.optionsFound
                           (if negb (Package.optionsFound p) && has (parseJSON text) "esm"
                            then Package.mkProbe true (get (parseJSON text) "esm") None
                            else p))
             then OPTIONS
             else Package.foundOptions
                    (if negb (Package.optionsFound p) && has (parseJSON text) "esm"
                     then Package.mkProbe true (get (parseJSON text) "esm") None
                     else p)) = options →
            built options) as Hgen.
  { intros p options Hp Hs Ho ref st1 Hnew. eexists. split; [|split].
    - apply getInfo_resolved; [done..|].
      rewrite (readInfo_devOnly _ _ _ _ _ _ _ Hp Htext Hdev). rewrite Hs.
      apply finishInfo_new; [by destruct (_ && _)|]. rewrite Ho. exact Hnew.
    - cbn [memo setMemo]. apply lookup_insert_eq.
    - unfold Package.rangeOf. cbn [heap setMemo].
      by apply newPackage_range in Hnew. }
  split; [|split; [|split]].
  - intros Hrc Hfound. eapply Hgen; [by apply probe_none|done|].
    cbn [Package.optionsFound negb andb]. unfold manifestOptions, effective.
    destruct (has (parseJSON text) "esm"); cbn; [|done].
    by rewrite orb_false_r.
  - intros content Hrc. eapply Hgen; [by apply probe_rc|done|].
    cbn. by rewrite orb_false_r.
  - intros Hrc Hne Hext. eapply Hgen; [by apply probe_json|done|].
    cbn. by rewrite orb_false_r.
  - intros Hrc Hne Hext ref st1 exports opts Hnew Hload Hopts Htext1.
    destruct (probe_script path st ref st1 exports opts Hrc Hne Hext Hnew Hload Hopts)
      as (st2 & Hp & Hfiles & pkg & Hpkg).
    rewrite <- Hfiles in Htext1.
    eexists. split; [|split].
    + apply getInfo_resolved; [done..|].
      rewrite (readInfo_devOnly _ _ _ _ _ _ _ Hp Htext1 Hdev).
      cbn [Package.optionsFound negb andb].
      unfold Package.finishInfo. cbn [Package.scriptPkg].
      unfold bindM, Package.assignRange, modify, retM. reflexivity.
    + cbn [memo setMemo]. apply lookup_insert_eq.
    + unfold Package.rangeOf. cbn [heap setMemo setHeap].
      rewrite list_lookup_alter_eq, Hpkg. reflexivity.
Qed.

End WithEnvironment.
Lemma getInfo_devDependencies_witness :
  ∃ st', Sample.getInfo 1 "/app" false Sample.rcProject = Done (Some 0) st' ∧
         memo st' !! "/app" = Some (Some 0) ∧
         Package.rangeOf st' 0 = JStr "*".
Proof.
  unfold Sample.getInfo.
  destruct (getInfo_devDependencies false (JObj []) false "2.0.0"
              (JNum 1) (JNum 2) (JNum 3) (JStr "*") "/"
              Sample.basename Sample.dirname Sample.extname Sample.resolve (fun s => s)
              Sample.parse Sample.parse Sample.validRange Sample.findPath Sample.loadESM
              0 Sample.rcProject "/app" "dev-only manifest")
    as (_ & Hrc & _).
  - reflexivity.
  - vm_compute. discriminate.
  - reflexivity.
  - repeat split; reflexivity.
  - apply (Hrc "{}" eq_refl 0
             (Sample.stateOf
                (Sample.newPackage "/app" (JStr "*")
                   (Manifest.effective (JObj []) (Sample.parse "{}")) Sample.rcProject)
                Sample.rcProject)).
    vm_compute. reflexivity.
Defined.

Lemma getInfo_devDependencies_counterexample :
  readFile (files Sample.devProject) "/app/.esmrc" = None ∧
  Sample.findPath (files Sample.devProject) ".esmrc" ["/app"] false Package.searchExts = "" ∧
  Manifest.devOnly Sample.validRange (Sample.parse "dev-only manifest") ∧
  Sample.valueOf (Sample.getInfo 1 "/app" false Sample.devProject) = Some (Some 0) ∧
  Sample.valueOf (Sample.getInfo 1 "/app" false Sample.devProject) ≠ Some None ∧
  Package.rangeOf
    (Sample.stateOf (Sample.getInfo 1 "/app" false Sample.devProject) Sample.devProject) 0
    = JStr "*".
Proof.
  split; [reflexivity|]. split; [reflexivity|].
  split; [repeat split; reflexivity|].
  assert (Sample.valueOf (Sample.getInfo 1 "/app" false Sample.devProject) = Some (Some 0))
    as H by (vm_compute; reflexivity).
  split; [exact H|]. split; [rewrite H; discriminate|].
  vm_compute. reflexivity.
Qed.

Lemma version_mismatch_clears_witness :
  ∃ st', Sample.newPackage "/app" (JStr "*") JUndefined Sample.staleProject = Done 0 st' ∧
         dir st' !! "/app/node_modules/.cache/esm"
           = Some (mkCache (Some "") [] (JObj [])) ∧
         ∀ cache, dir st' !! "/app/node_modules/.cache/esm" = Some cache →
           compile cache = [] ∧ buffer cache = Some "" ∧ map cache = JObj [] ∧
           ∀ entryName, Package.cacheGet cache entryName = JUndefined.
Proof.
  unfold Sample.newPackage.
  apply (version_mismatch_clears false false "2.0.0" (JNum 1) (JNum 2) (JNum 3) "/"
           Sample.extname Sample.resolve (fun s => s) Sample.parse
           Sample.staleProject "/app" (JStr "*") JUndefined
           (Sample.autoRecord (JNum 2)) "/app/node_modules/.cache/esm" (JStr "1.0.0")).
  - vm_compute. reflexivity.
  - reflexivity.
  - discriminate.
  - reflexivity.
  - apply (bool_decide_unpack _). vm_compute. reflexivity.
  - reflexivity.
  - reflexivity.
Defined.

Lemma markers_removed_witness :
  (∃ st', Sample.newPackage "/app" (JStr "*") JUndefined Sample.markedProject = Done 0 st' ∧
          readFile (files st') "/app/node_modules/.cache/esm/.dirty" = None) ∧
  (∃ st', Sample.newPackage "/app" (JStr "*") JUndefined Sample.instrumentedProject
            = Done 0 st' ∧
          readFile (files st') "/app/node_modules/.cache/esm/.nyc" = None).
Proof.
  unfold Sample.newPackage. split.
  - destruct (markers_removed false false "2.0.0" (JNum 1) (JNum 2) (JNum 3) "/"
                Sample.extname Sample.resolve (fun s => s) Sample.parse
                Sample.markedProject "/app" (JStr "*") JUndefined
                (Sample.autoRecord (JNum 2)) "/app/node_modules/.cache/esm")
      as (Hdirty & _ & _).
    + vm_compute. reflexivity.
    + reflexivity.
    + discriminate.
    + reflexivity.
    + apply Hdirty. apply (bool_decide_unpack _). vm_compute. reflexivity.
  - destruct (markers_removed false false "2.0.0" (JNum 1) (JNum 2) (JNum 3) "/"
                Sample.extname Sample.resolve (fun s => s) Sample.parse
                Sample.instrumentedProject "/app" (JStr "*") JUndefined
                (Sample.autoRecord (JNum 2)) "/app/node_modules/.cache/esm")
      as (_ & Hnyc & _).
    + vm_compute. reflexivity.
    + reflexivity.
    + discriminate.
    + reflexivity.
    + apply (Hnyc eq_refl [] ["0a1b2c3d4e5f.js"]).
      * vm_compute. reflexivity.
      * apply not_elem_of_nil.
Defined.

Lemma markers_removed_counterexample :
  let run := Sample.newPackage "/app" (JStr "*") JUndefined Sample.markedProject in
  let st' := Sample.stateOf run Sample.markedProject in
  run = Done 0 st' ∧
  readFile (files Sample.markedProject) "/app/node_modules/.cache/esm/.nyc" = Some "" ∧
  readFile (files st') "/app/node_modules/.cache/esm/.nyc" = Some "" ∧
  readFile (files st') "/app/node_modules/.cache/esm/.dirty" = None.
Proof.
  intros run st'. split; [|split; [|split]]; vm_compute; reflexivity.
Qed.

Lemma getInfo_memoized_witness :
  let st1 :=
    Sample.stateOf (Sample.getInfo 1 "/app" false Sample.devProject) Sample.devProject in
  Sample.getInfo 1 "/app" false st1 = Done (Some 0) st1.
Proof.
  intros st1. unfold Sample.getInfo.
  apply (proj1 (getInfo_memoized false (JObj []) false "2.0.0"
                  (JNum 1) (JNum 2) (JNum 3) (JStr "*") "/"
                  Sample.basename Sample.dirname Sample.extname Sample.resolve (fun s => s)
                  Sample.parse Sample.parse Sample.validRange Sample.findPath Sample.loadESM
                  0 "/app" st1)).
  vm_compute. reflexivity.
Defined.

End PackageFacts.

(** ** Facts about the compiler front end *)

Module CompilerFacts.
Import Compiler FileFacts.

Lemma cacheGetEntry_cacheSet entries name result :
  cacheGetEntry (cacheSet entries name result) name = Some result.
Proof.
  induction entries as [|[k r] entries IH]; simpl.
  - by rewrite String.eqb_refl.
  - destruct (k =? name) eqn:E; simpl; by rewrite E.
Qed.

Lemma cacheGetEntry_cacheSet_ne entries name other result :
  (name =? other) = false →
  cacheGetEntry (cacheSet entries name result) other = cacheGetEntry entries other.
Proof.
  intros Hne. induction entries as [|[k r] entries IH]; simpl.
  - by rewrite Hne.
  - destruct (k =? name) eqn:E; simpl.
    + apply String.eqb_eq in E. subst. by rewrite Hne.
    + by rewrite IH.
Qed.

(** A name starts with its own first [n] code units. *)
Lemma startsWith_take n l : startsWith l (take n l) = true.
Proof.
  revert n. induction l as [|c l IH]; intros [|n]; simpl; try done.
  by rewrite N.eqb_refl, IH.
Qed.

Lemma sharesShortname_refl name : sharesShortname name name = true.
Proof. apply startsWith_take. Qed.

(** The short name is eight code units, not eight bytes: the names
    below agree on their first eight bytes and differ in their fifth
    code unit. *)
Lemma sharesShortname_units :
  String.prefix (String.substring 0 8 "ééééabcd1.js") "éééézzzz0.js" = true ∧
  sharesShortname "ééééabcd1.js" "éééézzzz0.js" = false ∧
  sharesShortname "ééééabcd1.js" "ééééabcd0.js" = true.
Proof. repeat split; vm_compute; reflexivity. Qed.

Section WithCollaborators.

Variable compile : string → CompileOptions → Completion CompileResult.
Variable gzip : string → string.
Variable path_join : string → string → string.
Variable path_extname : string → string.

Local Abbreviation toCompileOptions := (Compiler.toCompileOptions path_extname).
Local Abbreviation compileAndCache := (Compiler.compileAndCache compile path_extname).
Local Abbreviation compileAndWrite :=
  (Compiler.compileAndWrite compile gzip path_join path_extname).
Local Abbreviation removeExpired := (Compiler.removeExpired path_join).
Local Abbreviation completeWrite := (Compiler.completeWrite path_join).

(** The sweep only removes. *)
Lemma removeExpired_None keys cachePath cacheFileName (d : gmap string string) p :
  d !! p = None → removeExpired keys cachePath cacheFileName d !! p = None.
Proof.
  unfold Compiler.removeExpired. revert d.
  induction keys as [|key keys IH]; intros d H; simpl; [done|].
  apply IH. destruct (_ && _); [|done].
  unfold removeFile. destruct (decide (path_join cachePath key = p)) as [->|Hne].
  - apply lookup_delete_eq.
  - by rewrite lookup_delete_ne.
Qed.

Lemma removeExpired_removed keys cachePath cacheFileName (d : gmap string string) key :
  key ∈ keys →
  negb (key =? cacheFileName) && sharesShortname cacheFileName key = true →
  removeExpired keys cachePath cacheFileName d !! path_join cachePath key = None.
Proof.
  unfold Compiler.removeExpired. revert d.
  induction keys as [|k keys IH]; intros d Hin Hexp; [by apply elem_of_nil in Hin|].
  simpl. apply elem_of_cons in Hin as [<-|Hin]; [|by apply IH].
  rewrite Hexp. apply (removeExpired_None keys cachePath cacheFileName).
  apply lookup_delete_eq.
Qed.

Lemma removeExpired_kept keys cachePath cacheFileName (d : gmap string string) p :
  (∀ key, key ∈ keys →
     negb (key =? cacheFileName) && sharesShortname cacheFileName key = true →
     path_join cachePath key ≠ p) →
  removeExpired keys cachePath cacheFileName d !! p = d !! p.
Proof.
  unfold Compiler.removeExpired. revert d.
  induction keys as [|k keys IH]; intros d Hkeep; simpl; [done|].
  rewrite IH.
  - destruct (_ && _) eqn:E; [|done]. unfold removeFile.
    apply lookup_delete_ne. apply Hkeep; [by left | done].
  - intros key Hin. apply Hkeep. by right.
Qed.

(** C6. A compile result is always registered in the in-memory cache
    under the entry name. [compileAndWrite] hands a write to
    [writeFileDefer] only when the type of the result is ["module"]: for a
    result of another type, in particular ["script"] or ["unambiguous"],
    the deferred writes and the disk are as before. *)
Theorem compileAndWrite_dispatch (code : string) (options : CallOptions)
    (st : CState) (result : CompileResult) :
  compile code (toCompileOptions options) = Return result →
  let c := pkgCache (pkgInfo options) in
  let registered :=
    mkCState (<[c := cacheSet (cacheOf st c) (cacheFileName options) result]> (caches st))
             (disk st) (pending st) in
  compileAndCache code options st = Return (result, registered) ∧
  cacheGetEntry (cacheOf registered c) (cacheFileName options) = Some result ∧
  (result_type result ≠ "module" →
     compileAndWrite code options st = Return (result, registered)) ∧
  (result_type result = "script" ∨ result_type result = "unambiguous" →
     ∃ st', compileAndWrite code options st = Return (result, st') ∧
            pending st' = pending st ∧ disk st' = disk st ∧
            cacheGetEntry (cacheOf st' c) (cacheFileName options) = Some result) ∧
  (result_type result = "module" →
     ∃ w, compileAndWrite code options st = Return (result, writeFileDefer w registered) ∧
          dw_path w = path_join (cachePath options) (cacheFileName options) ∧
          pending (writeFileDefer w registered) = pending st ++ [w]).
Proof.
  intros Hc c registered.
  assert (compileAndCache code options st = Return (result, registered)) as Hcache.
  { unfold Compiler.compileAndCache. by rewrite Hc. }
  assert (cacheGetEntry (cacheOf registered c) (cacheFileName options) = Some result) as Hget.
  { unfold cacheOf, registered. cbn [caches]. rewrite lookup_insert_eq. cbn.
    apply cacheGetEntry_cacheSet. }
  assert (result_type result ≠ "module" →
          compileAndWrite code options st = Return (result, registered)) as Hskip.
  { intros Hne. unfold Compiler.compileAndWrite. fold compileAndCache.
    rewrite Hcache. cbn [bindC fst snd].
    apply String.eqb_neq in Hne. by rewrite Hne. }
  split; [done|]. split; [done|]. split; [done|]. split.
  - intros Hty. exists registered. split; [|done].
    apply Hskip. by destruct Hty as [-> | ->].
  - intros Hty. unfold Compiler.compileAndWrite. fold compileAndCache.
    rewrite Hcache. cbn [bindC fst snd]. rewrite Hty. cbn [String.eqb negb].
    change ("module" =? "module") with true. cbn [negb].
    eexists. split; [reflexivity|]. split; reflexivity.
Qed.


End WithCollaborators.
Lemma compileAndWrite_dispatch_witness :
  ∃ st', Sample.compileAndWrite "var x" Sample.scriptCall Sample.idle
           = Return (mkResult "script" "var x", st') ∧
         pending st' = pending Sample.idle ∧ disk st' = disk Sample.idle ∧
         cacheGetEntry (cacheOf st' (pkgCache (pkgInfo Sample.scriptCall)))
                       (cacheFileName Sample.scriptCall)
           = Some (mkResult "script" "var x").
Proof.
  unfold Sample.compileAndWrite.
  destruct (compileAndWrite_dispatch Sample.translate (fun s => s) Sample.join
              Sample.extname "var x" Sample.scriptCall Sample.idle
              (mkResult "script" "var x") eq_refl)
    as (_ & _ & _ & Hscript & _).
  apply Hscript. left. reflexivity.
Defined.



End CompilerFacts.

(** ** More facts about the options merge *)

Module OptionsMore.
Import ObjFacts OptionsFacts.

#[local] Arguments defaults : simpl never.
#[local] Arguments assign : simpl never.
#[local] Arguments putProp : simpl never.

Section WithConstants.

Variable DEVELOPMENT : bool.
Variables OPTIONS_MODE_ALL OPTIONS_MODE_AUTO OPTIONS_MODE_STRICT : JValue.
Variable toStringLiteral : string → string.

Local Abbreviation defaultCJS := Options.defaultCJS.
Local Abbreviation autoCJS := Options.autoCJS.
Local Abbreviation defaultOptions := (Options.defaultOptions DEVELOPMENT).
Local Abbreviation cjsLoop := (Options.cjsLoop toStringLiteral).
Local Abbreviation createCJS := (Options.createCJS toStringLiteral).
Local Abbreviation optionsLoop := (Options.optionsLoop DEVELOPMENT).
Local Abbreviation normalizeMode :=
  (Options.normalizeMode OPTIONS_MODE_ALL OPTIONS_MODE_AUTO OPTIONS_MODE_STRICT).
Local Abbreviation createOptions :=
  (Options.createOptions DEVELOPMENT
     OPTIONS_MODE_ALL OPTIONS_MODE_AUTO OPTIONS_MODE_STRICT toStringLiteral).
Local Abbreviation normalized := (Shape.normalized DEVELOPMENT toStringLiteral).
Local Abbreviation collected := (More.collected DEVELOPMENT).
Local Abbreviation baseline := More.baseline.

Local Abbreviation finish :=
  (More.finish DEVELOPMENT
     OPTIONS_MODE_ALL OPTIONS_MODE_AUTO OPTIONS_MODE_STRICT toStringLiteral).

(** [createOptions] is its three parts in sequence. *)
Lemma createOptions_parts value :
  createOptions value =
  (let? no := collected value in finish (baseline no.1 no.2)).
Proof. reflexivity. Qed.

Lemma getProp_putProp_ne (o : Obj) name k v :
  (name =? k) = false → getProp (putProp o name v) k = getProp o k.
Proof. intros H. rewrite getProp_putProp, H. by rewrite andb_false_r. Qed.

Lemma getProp_putProp_eq (o : Obj) name v :
  (name =? "__proto__") = false → getProp (putProp o name v) name = v.
Proof. intros H. by rewrite getProp_putProp, H, String.eqb_refl. Qed.

(** The record the last part returns, field by field. *)
Lemma finish_trace options R :
  finish options = Return R →
  ∃ c,
    createCJS (getProp options "cjs") = Return c ∧
    let o3 := defaults options defaultOptions in
    getProp R "cjs" = JObj c ∧
    Options.normalizeMainFields (getProp o3 "mainFields") = Return (getProp R "mainFields") ∧
    normalizeMode (getProp o3 "mode") = Return (getProp R "mode") ∧
    getProp R "cache" = Options.normalizeCache (getProp o3 "cache") ∧
    getProp R "debug" = JBool (truthy (getProp o3 "debug")) ∧
    getProp R "warnings" = JBool (truthy (getProp o3 "warnings")) ∧
    getProp R "await" = getProp o3 "await" ∧
    getProp R "sourceMap" = getProp o3 "sourceMap".
Proof.
  unfold More.finish. intros H.
  destruct (createCJS (getProp options "cjs")) as [c|] eqn:Ec; cbn [bindC] in H; [|done].
  exists c. split; [done|].
  generalize dependent (defaults options defaultOptions). intros o3 H. cbv zeta.
  rewrite (getProp_putProp_ne o3 "cjs" "mainFields") in H by reflexivity.
  destruct (Options.normalizeMainFields (getProp o3 "mainFields")) as [mf|] eqn:Emf;
    cbn [bindC] in H; [|done].
  rewrite (getProp_putProp_ne _ "mainFields" "mode"),
          (getProp_putProp_ne _ "cjs" "mode") in H by reflexivity.
  destruct (normalizeMode (getProp o3 "mode")) as [m|] eqn:Em; cbn [bindC] in H; [|done].
  injection H as <-.
  repeat (first [ rewrite getProp_putProp_eq by reflexivity
                | rewrite getProp_putProp_ne by reflexivity ]).
  done.
Qed.

Lemma getProp_baseline names o k :
  getProp (baseline names o) k =
  if (k =? "cjs") && negb (elem "cjs" names) then JObj autoCJS
  else if (k =? "mode") && negb (elem "mode" names) then JStr "auto"
  else getProp o k.
Proof.
  unfold More.baseline. cbv zeta.
  rewrite !(String.eqb_sym k).
  destruct (elem "cjs" names), (elem "mode" names); cbn [negb andb];
    rewrite ?getProp_putProp, ?andb_false_r;
    change ("cjs" =? "__proto__") with false;
    change ("mode" =? "__proto__") with false; cbn [negb andb];
    destruct ("cjs" =? k) eqn:Ec, ("mode" =? k) eqn:Em; try done.
  all: apply String.eqb_eq in Ec, Em; by subst.
Qed.

Lemma hasProp_baseline names o k :
  hasProp o k = true → hasProp (baseline names o) k = true.
Proof.
  intros H. unfold More.baseline. cbv zeta.
  destruct (elem "cjs" names), (elem "mode" names); cbn [negb];
    repeat apply hasProp_putProp_mono; done.
Qed.

Lemma hasProp_baseline_mode names o :
  elem "mode" names = false → hasProp (baseline names o) "mode" = true.
Proof.
  intros H. unfold More.baseline. cbv zeta. rewrite H. cbn [negb].
  rewrite hasProp_putProp. apply orb_true_r.
Qed.

(** The loop leaves alone the names it does not visit. *)
Lemma optionsLoop_absent value possibleNames todo names o names' o' k :
  elem k todo = false →
  (k =? "sourceMap") && elem "sourcemap" todo = false →
  optionsLoop value possibleNames todo names o = Return (names', o') →
  elem k names' = elem k names ∧ getProp o' k = getProp o k ∧ hasProp o' k = hasProp o k.
Proof.
  revert names o. induction todo as [|name rest IH]; intros names o Hk Ha H.
  - by injection H as <- <-.
  - cbn [elem] in Hk, Ha. apply orb_false_iff in Hk as [Hne Hk].
    assert ((k =? "sourceMap") && elem "sourcemap" rest = false) as Ha'.
    { destruct (k =? "sourceMap"); [|done]. cbn [andb] in *.
      by apply orb_false_iff in Ha as [_ ?]. }
    cbn [Options.optionsLoop] in H.
    destruct (Reflect_has defaultOptions name).
    + destruct (IH _ _ Hk Ha' H) as (-> & -> & ->).
      rewrite elem_app, getProp_putProp, hasProp_putProp. cbn [elem].
      by rewrite Hne, !andb_false_r, !orb_false_r.
    + destruct ((name =? "sourcemap") && negb (elem "sourceMap" possibleNames)) eqn:Ealias;
        [|done].
      apply andb_true_iff in Ealias as [->%String.eqb_eq _].
      assert ((k =? "sourceMap") = false) as Hsm.
      { destruct (k =? "sourceMap"); [|done]. cbn [andb] in Ha.
        by rewrite String.eqb_refl in Ha. }
      destruct (negb (isUndefined (get value "sourcemap"))).
      * destruct (IH _ _ Hk Ha' H) as (-> & -> & ->).
        rewrite elem_app, getProp_putProp, hasProp_putProp. cbn [elem].
        rewrite (String.eqb_sym "sourceMap" k), Hsm.
        by rewrite !andb_false_r, !orb_false_r.
      * by apply (IH _ _ Hk Ha' H).
Qed.

(** A recognised name the loop has copied stays as copied. *)
Lemma optionsLoop_keeps value possibleNames todo names o names' o' k :
  Reflect_has defaultOptions k = true → (k =? "__proto__") = false →
  elem k possibleNames = true →
  elem k names = true ∧ getProp o k = get value k ∧ hasProp o k = true →
  optionsLoop value possibleNames todo names o = Return (names', o') →
  elem k names' = true ∧ getProp o' k = get value k ∧ hasProp o' k = true.
Proof.
  intros Hrec Hproto Hpn. revert names o.
  induction todo as [|name rest IH]; intros names o Hinv H.
  - by injection H as <- <-.
  - destruct Hinv as (Hn & Hg & Hh). cbn [Options.optionsLoop] in H.
    destruct (Reflect_has defaultOptions name).
    + apply (IH _ _) in H; [done|].
      rewrite elem_app, Hn, getProp_putProp, hasProp_putProp, Hh.
      split; [done|]. split; [|done].
      destruct (negb (name =? "__proto__") && (name =? k)) eqn:E; [|done].
      apply andb_true_iff in E as [_ ->%String.eqb_eq]. done.
    + destruct ((name =? "sourcemap") && negb (elem "sourceMap" possibleNames)) eqn:Ealias;
        [|done].
      apply andb_true_iff in Ealias as [_ Hno%negb_true_iff].
      assert (("sourceMap" =? k) = false) as Hsm.
      { destruct ("sourceMap" =? k) eqn:E; [|done].
        apply String.eqb_eq in E. subst. congruence. }
      destruct (negb (isUndefined (get value "sourcemap"))).
      * apply (IH _ _) in H; [done|].
        rewrite elem_app, Hn, getProp_putProp, hasProp_putProp, Hh, Hsm.
        by rewrite andb_false_r.
      * by apply (IH _ _) in H.
Qed.

(** A recognised name the loop visits is copied with its value. *)
Lemma optionsLoop_given value possibleNames todo names o names' o' k :
  Reflect_has defaultOptions k = true → (k =? "__proto__") = false →
  elem k possibleNames = true → elem k todo = true →
  optionsLoop value possibleNames todo names o = Return (names', o') →
  elem k names' = true ∧ getProp o' k = get value k ∧ hasProp o' k = true.
Proof.
  intros Hrec Hproto Hpn. revert names o.
  induction todo as [|name rest IH]; intros names o Hin H; [done|].
  cbn [elem] in Hin.
  destruct (name =? k) eqn:E.
  - apply String.eqb_eq in E. subst name. cbn [Options.optionsLoop] in H.
    rewrite Hrec in H.
    eapply optionsLoop_keeps; [done..| |exact H].
    rewrite elem_app, getProp_putProp, hasProp_putProp, Hproto, String.eqb_refl.
    cbn [elem negb andb]. rewrite String.eqb_refl. cbn [orb].
    by rewrite !orb_true_r.
  - cbn [orb] in Hin. cbn [Options.optionsLoop] in H.
    destruct (Reflect_has defaultOptions name); [by eapply IH|].
    destruct ((name =? "sourcemap") && negb (elem "sourceMap" possibleNames)); [|done].
    destruct (negb (isUndefined (get value "sourcemap"))); by eapply IH.
Qed.

Lemma collected_given O names o0 k :
  collected (JObj O) = Return (names, o0) →
  Reflect_has defaultOptions k = true → (k =? "__proto__") = false →
  hasProp O k = true →
  elem k names = true ∧ getProp o0 k = getProp O k ∧ hasProp o0 k = true.
Proof.
  unfold More.collected. cbn [keys get]. intros H Hrec Hproto Hk.
  rewrite hasProp_elem in Hk.
  by apply (optionsLoop_given _ _ _ _ _ _ _ k Hrec Hproto Hk Hk H).
Qed.

Lemma collected_absent O names o0 k :
  collected (JObj O) = Return (names, o0) →
  hasProp O k = false →
  (k =? "sourceMap") && hasProp O "sourcemap" = false →
  elem k names = false ∧ getProp o0 k = JUndefined ∧ hasProp o0 k = false.
Proof.
  unfold More.collected. cbn [keys]. intros H Hk Ha.
  rewrite hasProp_elem in Hk, Ha.
  by apply (optionsLoop_absent _ _ _ _ _ _ _ k Hk Ha H).
Qed.

Lemma baseline_given names o k :
  elem k names = true → getProp (baseline names o) k = getProp o k.
Proof.
  intros H. rewrite getProp_baseline.
  destruct (k =? "cjs") eqn:Ec.
  { apply String.eqb_eq in Ec. subst. by rewrite H. }
  destruct (k =? "mode") eqn:Em; [|done].
  apply String.eqb_eq in Em. subst. by rewrite H.
Qed.

Lemma defaultOptions_NoDup : NoDup defaultOptions.*1.
Proof. solve_nodup. Qed.

(** What the merge starts from at a name the record gives with a value
    other than [undefined]. *)
Lemma merged_given O names o0 k :
  collected (JObj O) = Return (names, o0) →
  Reflect_has defaultOptions k = true → (k =? "__proto__") = false →
  hasProp O k = true → isUndefined (getProp O k) = false →
  getProp (baseline names o0) k = getProp O k ∧
  getProp (defaults (baseline names o0) defaultOptions) k = getProp O k.
Proof.
  intros H Hrec Hproto Hk Hdef.
  destruct (collected_given _ _ _ _ H Hrec Hproto Hk) as (Hn & Hg & Hh).
  assert (getProp (baseline names o0) k = getProp O k) as Hb.
  { by rewrite baseline_given. }
  split; [done|].
  rewrite getProp_defaults; [|apply defaultOptions_NoDup|done].
  rewrite Hb, Hdef, (hasProp_baseline _ _ _ Hh). cbn [negb orb].
  by rewrite andb_false_r.
Qed.

(** What the merge starts from at a name of [defaultOptions], other than
    [cjs] and [mode], that the record lacks or gives as [undefined]. *)
Lemma merged_missing O names o0 k :
  collected (JObj O) = Return (names, o0) →
  hasProp defaultOptions k = true →
  (k =? "cjs") = false → (k =? "mode") = false →
  (k =? "sourceMap") && hasProp O "sourcemap" = false →
  hasProp O k = false ∨ getProp O k = JUndefined →
  getProp (defaults (baseline names o0) defaultOptions) k = getProp defaultOptions k.
Proof.
  intros H Hd Hc Hm Ha Hmiss.
  assert (getProp (baseline names o0) k = JUndefined) as Hb.
  { rewrite getProp_baseline, Hc, Hm. cbn [andb].
    destruct (hasProp O k) eqn:Hk.
    - destruct Hmiss as [|Hu]; [done|]. rewrite <- Hu.
      eapply collected_given; [done| |  |done].
      + unfold Reflect_has. by rewrite Hd.
      + destruct (k =? "__proto__") eqn:E; [|done].
        apply String.eqb_eq in E. by subst.
    - by eapply collected_absent. }
  rewrite getProp_defaults; [|apply defaultOptions_NoDup|done].
  by rewrite Hd, Hb.
Qed.

(** X4. What [createOptions] makes of an option the record gives with a
    value other than [undefined]: [await] and [sourceMap] are returned as
    given, without coercion; [cache] is kept when it is a string and
    coerced to a boolean otherwise; [debug] and [warnings] are coerced to
    booleans; [mainFields], [mode] and [cjs] are what their normalisation
    returns for the given value. *)
Theorem createOptions_given (O R : Obj) :
  createOptions (JObj O) = Return R →
  let given k v := hasProp O k = true ∧ getProp O k = v ∧ isUndefined v = false in
  (∀ v, given "await" v → getProp R "await" = v) ∧
  (∀ v, given "sourceMap" v → getProp R "sourceMap" = v) ∧
  (∀ v, given "cache" v → getProp R "cache" = Options.normalizeCache v) ∧
  (∀ v, given "debug" v → getProp R "debug" = JBool (truthy v)) ∧
  (∀ v, given "warnings" v → getProp R "warnings" = JBool (truthy v)) ∧
  (∀ v, given "mainFields" v →
        Options.normalizeMainFields v = Return (getProp R "mainFields")) ∧
  (∀ v, given "mode" v → normalizeMode v = Return (getProp R "mode")) ∧
  (∀ v, given "cjs" v → ∃ c, createCJS v = Return c ∧ getProp R "cjs" = JObj c).
Proof.
  intros H given. rewrite createOptions_parts in H.
  destruct (collected (JObj O)) as [[names o0]|] eqn:E0; cbn [bindC fst snd] in H; [|done].
  destruct (finish_trace _ _ H)
    as (c & Hc & Hcjs & Hmf & Hmode & Hcache & Hdebug & Hwarn & Hawait & Hsm).
  assert (∀ k v, Reflect_has defaultOptions k = true → (k =? "__proto__") = false →
                 given k v →
                 getProp (baseline names o0) k = v ∧
                 getProp (defaults (baseline names o0) defaultOptions) k = v) as Hg.
  { intros k v Hrec Hproto (Hk & <- & Hdef). by eapply merged_given. }
  repeat split; intros v Hv.
  - rewrite Hawait. by apply Hg.
  - rewrite Hsm. by apply Hg.
  - rewrite Hcache. f_equal. by apply Hg.
  - rewrite Hdebug. do 2 f_equal. by apply Hg.
  - rewrite Hwarn. do 2 f_equal. by apply Hg.
  - rewrite <- Hmf. f_equal. symmetry. by apply Hg.
  - rewrite <- Hmode. f_equal. symmetry. by apply Hg.
  - exists c. split; [|done]. rewrite <- Hc. f_equal. symmetry. by apply Hg.
Qed.

(** X5. An option the record lacks, or lists as [undefined], gets its
    default: [await] and [debug] are [false], [cache] is [true],
    [warnings] is [DEVELOPMENT], [mainFields] is [["main"]], and
    [sourceMap] stays [undefined] when the alias [sourcemap] is absent
    too. *)
Theorem createOptions_missing (O R : Obj) :
  createOptions (JObj O) = Return R →
  let missing k := hasProp O k = false ∨ getProp O k = JUndefined in
  (missing "await" → getProp R "await" = JBool false) ∧
  (missing "cache" → getProp R "cache" = JBool true) ∧
  (missing "debug" → getProp R "debug" = JBool false) ∧
  (missing "warnings" → getProp R "warnings" = JBool DEVELOPMENT) ∧
  (missing "mainFields" → getProp R "mainFields" = JArr [JStr "main"]) ∧
  (missing "sourceMap" → hasProp O "sourcemap" = false →
   getProp R "sourceMap" = JUndefined).
Proof.
  intros H missing. rewrite createOptions_parts in H.
  destruct (collected (JObj O)) as [[names o0]|] eqn:E0; cbn [bindC fst snd] in H; [|done].
  destruct (finish_trace _ _ H)
    as (c & Hc & Hcjs & Hmf & Hmode & Hcache & Hdebug & Hwarn & Hawait & Hsm).
  cbv zeta in *.
  repeat split.
  - intros Hm. rewrite Hawait. by rewrite (merged_missing O names o0 "await").
  - intros Hm. rewrite Hcache. by rewrite (merged_missing O names o0 "cache").
  - intros Hm. rewrite Hdebug. by rewrite (merged_missing O names o0 "debug").
  - intros Hm. rewrite Hwarn. rewrite (merged_missing O names o0 "warnings") by done.
    by destruct DEVELOPMENT.
  - intros Hm. rewrite (merged_missing O names o0 "mainFields") in Hmf by done.
    by injection Hmf as <-.
  - intros Hm Halias. rewrite Hsm.
    rewrite (merged_missing O names o0 "sourceMap"); [done..| |done].
    by rewrite Halias.
Qed.

(** X3. A record that lacks [cjs] gets the [cjs] group of [autoOptions]
    and one that lacks [mode] gets the auto mode; a record that lists
    [cjs] or [mode] with the value [undefined] gets the group of
    [defaultOptions] (every toggle off) and the strict mode instead. *)
Theorem createOptions_baseline (O R : Obj) :
  createOptions (JObj O) = Return R →
  (hasProp O "cjs" = false → getProp R "cjs" = JObj autoCJS) ∧
  (hasProp O "mode" = false → getProp R "mode" = OPTIONS_MODE_AUTO) ∧
  (hasProp O "cjs" = true → getProp O "cjs" = JUndefined →
   getProp R "cjs" = JObj defaultCJS) ∧
  (hasProp O "mode" = true → getProp O "mode" = JUndefined →
   getProp R "mode" = OPTIONS_MODE_STRICT).
Proof.
  intros H. rewrite createOptions_parts in H.
  destruct (collected (JObj O)) as [[names o0]|] eqn:E0; cbn [bindC fst snd] in H; [|done].
  destruct (finish_trace _ _ H) as (c & Hc & Hcjs & _ & Hmode & _).
  cbv zeta in *.
  split; [|split; [|split]].
  - intros Hk. destruct (collected_absent _ _ _ "cjs" E0 Hk eq_refl) as (Hn & _).
    rewrite getProp_baseline, Hn in Hc. cbn in Hc. injection Hc as <-. done.
  - intros Hk. destruct (collected_absent _ _ _ "mode" E0 Hk eq_refl) as (Hn & _ & Hh).
    rewrite getProp_defaults in Hmode; [|apply defaultOptions_NoDup|done].
    rewrite getProp_baseline, Hn, (hasProp_baseline_mode _ _ Hn) in Hmode.
    cbn in Hmode. by injection Hmode as <-.
  - intros Hk Hu.
    destruct (collected_given _ _ _ "cjs" E0 eq_refl eq_refl Hk) as (Hn & Hg & _).
    rewrite baseline_given, Hg, Hu in Hc by done. cbn in Hc. injection Hc as <-. done.
  - intros Hk Hu.
    destruct (collected_given _ _ _ "mode" E0 eq_refl eq_refl Hk) as (Hn & Hg & _).
    rewrite getProp_defaults in Hmode; [|apply defaultOptions_NoDup|done].
    rewrite baseline_given, Hg, Hu in Hmode by done. cbn in Hmode.
    by injection Hmode as <-.
Qed.

(** What the loop of [createCJS] leaves at a toggle. *)
Lemma cjsLoop_value value names o o' k :
  (k =? "__proto__") = false →
  cjsLoop value names o = Return o' →
  getProp o' k =
  if elem k names then JBool (truthy (get value k)) else getProp o k.
Proof.
  intros Hproto. revert o.
  induction names as [|name rest IH]; intros o H; cbn [Options.cjsLoop elem] in *.
  - by injection H as <-.
  - destruct (Reflect_has defaultCJS name); [|done].
    rewrite (IH _ H).
    destruct (elem k rest); [by rewrite orb_true_r|]. rewrite orb_false_r.
    destruct (name =? k) eqn:E.
    + apply String.eqb_eq in E. subst name. by rewrite getProp_putProp_eq.
    + by rewrite getProp_putProp_ne.
Qed.

Lemma cjsLoop_has value names o o' k :
  cjsLoop value names o = Return o' → hasProp o k = true → hasProp o' k = true.
Proof.
  revert o. induction names as [|name rest IH]; intros o H Hk; cbn [Options.cjsLoop] in H.
  - by injection H as <-.
  - destruct (Reflect_has defaultCJS name); [|done].
    apply (IH _ H). by apply hasProp_putProp_mono.
Qed.

Lemma cjsLoop_visited value names o o' k :
  (k =? "__proto__") = false →
  cjsLoop value names o = Return o' → elem k names = true → hasProp o' k = true.
Proof.
  intros Hproto. revert o.
  induction names as [|name rest IH]; intros o H Hk; cbn [Options.cjsLoop elem] in *; [done|].
  destruct (Reflect_has defaultCJS name); [|done].
  destruct (elem k rest) eqn:Er; [by apply (IH _ H)|].
  rewrite orb_false_r in Hk. apply String.eqb_eq in Hk. subst name.
  apply (cjsLoop_has _ _ _ _ _ H). rewrite hasProp_putProp, Hproto, String.eqb_refl.
  apply orb_true_r.
Qed.

Lemma defaultCJS_NoDup : NoDup defaultCJS.*1.
Proof. solve_nodup. Qed.

Lemma defaultCJS_false k :
  hasProp defaultCJS k = true → getProp defaultCJS k = JBool false.
Proof.
  cbn [hasProp getProp Options.defaultCJS existsb fst snd].
  repeat (destruct (_ =? k); [done|]). done.
Qed.

Lemma hasProp_not_proto (o : Obj) k :
  hasProp o "__proto__" = false → hasProp o k = true → (k =? "__proto__") = false.
Proof.
  intros Hp Hk. destruct (k =? "__proto__") eqn:E; [|done].
  apply String.eqb_eq in E. subst. by rewrite Hk in Hp.
Qed.

(** X8. Each toggle of the record [createCJS] returns: [false] for the
    value [undefined]; for an object, the toggle's own value coerced to a
    boolean when the object lists it and [false] otherwise; for any other
    value, that value coerced to a boolean. *)
Theorem createCJS_toggles value c k :
  createCJS value = Return c →
  hasProp defaultCJS k = true →
  getProp c k =
  if isUndefined value then JBool false
  else if isObjectLike value
       then if elem k (keys value) then JBool (truthy (get value k)) else JBool false
       else JBool (truthy value).
Proof.
  intros H Hk.
  assert ((k =? "__proto__") = false) as Hproto.
  { by apply (hasProp_not_proto defaultCJS). }
  unfold Options.createCJS in H. cbv zeta in H.
  destruct (isUndefined value) eqn:Eu.
  { injection H as <-. change (assign [] defaultCJS) with defaultCJS.
    by apply defaultCJS_false. }
  destruct (isObjectLike value) eqn:Eo.
  - destruct (cjsLoop value (keys value) []) as [o|] eqn:EL; cbn [bindC] in H; [|done].
    injection H as <-.
    rewrite getProp_defaults; [|apply defaultCJS_NoDup|done].
    rewrite Hk, (cjsLoop_value _ _ _ _ k Hproto EL). cbn [andb].
    destruct (elem k (keys value)) eqn:Ek.
    + rewrite (cjsLoop_visited _ _ _ _ k Hproto EL Ek). done.
    + cbn [getProp isUndefined orb]. by apply defaultCJS_false.
  - injection H as <-.
    match goal with
    | |- getProp ?o k = _ => change o with (broadcast (truthy value))
    end.
    revert Hk. generalize (truthy value). intros b.
    cbn [hasProp getProp Options.defaultCJS broadcast fmap list_fmap fst snd].
    repeat (destruct (_ =? k); [by intros _|]). done.
Qed.

Lemma cjsLoop_outcome value names o :
  match find (fun n => negb (Reflect_has defaultCJS n)) names with
  | Some n =>
      cjsLoop value names o =
      Throw (ERR_UNKNOWN_ESM_OPTION ("cjs[" +:+ toStringLiteral n +:+ "]"))
  | None => ∃ o', cjsLoop value names o = Return o'
  end.
Proof.
  revert o. induction names as [|name rest IH]; intros o; cbn [find Options.cjsLoop].
  - by eexists.
  - destruct (Reflect_has defaultCJS name); cbn [negb]; [apply IH|done].
Qed.

(** X9. [createCJS] throws exactly when the value has a key that fails
    [Reflect.has(defaultCJS, key)], and the error is the unknown-option
    error that names the first such key as [cjs["key"]]; otherwise
    it returns a record. *)
Theorem createCJS_outcome value :
  match find (fun n => negb (Reflect_has defaultCJS n)) (keys value) with
  | Some n =>
      createCJS value =
      Throw (ERR_UNKNOWN_ESM_OPTION ("cjs[" +:+ toStringLiteral n +:+ "]"))
  | None => ∃ c, createCJS value = Return c
  end.
Proof.
  unfold Options.createCJS. cbv zeta.
  destruct value as [| |b|z|s|l|l]; cbn [isUndefined isObjectLike keys find]; try by eexists.
  - pose proof (cjsLoop_outcome (JArr l) (keys (JArr l)) []) as H. cbn [keys] in H.
    destruct (find _ _); [by rewrite H|].
    destruct H as [o' ->]. by eexists.
  - pose proof (cjsLoop_outcome (JObj l) (keys (JObj l)) []) as H. cbn [keys] in H.
    destruct (find _ _); [by rewrite H|].
    destruct H as [o' ->]. by eexists.
Qed.

Lemma cjsLoop_throws value names o e :
  cjsLoop value names o = Throw e →
  ∃ n, n ∈ names ∧ Reflect_has defaultCJS n = false ∧
       e = ERR_UNKNOWN_ESM_OPTION ("cjs[" +:+ toStringLiteral n +:+ "]").
Proof.
  revert o. induction names as [|name rest IH]; intros o H; cbn [Options.cjsLoop] in H; [done|].
  destruct (Reflect_has defaultCJS name) eqn:E.
  - destruct (IH _ H) as (n & Hn & Hr & He). exists n. split; [by right|done].
  - injection H as <-. exists name. split; [by left|done].
Qed.

Lemma createCJS_throws value e :
  createCJS value = Throw e →
  ∃ n, n ∈ keys value ∧ Reflect_has defaultCJS n = false ∧
       e = ERR_UNKNOWN_ESM_OPTION ("cjs[" +:+ toStringLiteral n +:+ "]").
Proof.
  unfold Options.createCJS. cbv zeta.
  destruct (isUndefined value); [done|].
  destruct (isObjectLike value); [|done].
  destruct (cjsLoop value (keys value) []) as [o|e'] eqn:EL; cbn [bindC]; [done|].
  intros [= <-]. by eapply cjsLoop_throws.
Qed.

Lemma optionsLoop_throws value possibleNames todo names o e :
  optionsLoop value possibleNames todo names o = Throw e →
  ∃ n, n ∈ todo ∧ rejected DEVELOPMENT possibleNames n = true ∧
       e = ERR_UNKNOWN_ESM_OPTION n.
Proof.
  revert names o.
  induction todo as [|name rest IH]; intros names o H; cbn [Options.optionsLoop] in H; [done|].
  assert (∀ names o, optionsLoop value possibleNames rest names o = Throw e →
            ∃ n, n ∈ name :: rest ∧ rejected DEVELOPMENT possibleNames n = true ∧
                 e = ERR_UNKNOWN_ESM_OPTION n) as IH'.
  { intros ?? H'. destruct (IH _ _ H') as (n & Hn & Hr). exists n. split; [by right|done]. }
  destruct (Reflect_has defaultOptions name) eqn:E; [by eapply IH'|].
  destruct ((name =? "sourcemap") && negb (elem "sourceMap" possibleNames)) eqn:Ea.
  - cbv zeta in H. destruct (negb (isUndefined (get value "sourcemap"))); by eapply IH'.
  - injection H as <-. exists name. split; [by left|]. split; [|done].
    unfold rejected. by rewrite E, Ea.
Qed.

(** X7. [createOptions] throws three kinds of error only: the
    unknown-option error for a key of the value that the loop rejects,
    or for a name of the [cjs] group written [cjs["name"]] that
    [defaultCJS] does not have; the invalid-option error named
    [mainFields]; the invalid-option error named [mode]. The last two
    carry the value their normalisation rejected. *)
Theorem createOptions_errors value e :
  createOptions value = Throw e →
  match e with
  | ERR_UNKNOWN_ESM_OPTION name =>
      (name ∈ keys value ∧ rejected DEVELOPMENT (keys value) name = true) ∨
      ∃ n, Reflect_has defaultCJS n = false ∧
           name = "cjs[" +:+ toStringLiteral n +:+ "]"
  | ERR_INVALID_ESM_OPTION name v =>
      (name = "mainFields" ∧ Options.normalizeMainFields v = Throw e) ∨
      (name = "mode" ∧ normalizeMode v = Throw e)
  | ForeignError _ => False
  end.
Proof.
  rewrite createOptions_parts.
  destruct (collected value) as [[names o0]|e0] eqn:E0; cbn [bindC fst snd].
  2: { intros [= <-]. unfold More.collected in E0.
       assert (optionsLoop value (keys value) (keys value) [] [] = Throw e0) as HL.
       { by destruct value. }
       destruct (optionsLoop_throws _ _ _ _ _ _ HL) as (n & Hn & Hr & ->). by left. }
  unfold More.finish. cbv zeta.
  destruct (createCJS _) as [c|ec] eqn:Ec; cbn [bindC].
  2: { intros [= <-]. destruct (createCJS_throws _ _ Ec) as (n & _ & Hr & ->).
       right. by exists n. }
  destruct (Options.normalizeMainFields _) as [mf|emf] eqn:Emf; cbn [bindC].
  2: { intros [= <-]. revert Emf. generalize (getProp
         (putProp (defaults (baseline names o0) defaultOptions) "cjs" (JObj c)) "mainFields").
       intros v Hv. pose proof Hv as Hv'. unfold Options.normalizeMainFields in Hv.
       destruct v; try done; injection Hv as <-; by left. }
  destruct (normalizeMode _) as [m|em] eqn:Em; cbn [bindC]; [done|].
  intros [= <-]. revert Em.
  match goal with |- normalizeMode ?t = _ → _ => generalize t end.
  intros v Hv. pose proof Hv as Hv'. unfold Options.normalizeMode in Hv.
  destruct v; try (injection Hv as <-; by right).
  repeat (destruct (_ =? _); [done|]). injection Hv as <-. by right.
Qed.

(** X1. Every record [createOptions] returns has distinct keys, holds
    every key of [defaultOptions], and each of its keys passes
    [Reflect.has(defaultOptions, key)]. Its [cjs] field is a record with
    distinct keys that holds every toggle of the group, each of its
    properties a boolean; [mainFields] is an array; [mode] is one of the
    three mode constants; [cache] is a boolean or a string; [debug] and
    [warnings] are booleans. *)
Theorem createOptions_shape value R :
  createOptions value = Return R →
  NoDup R.*1 ∧
  (∀ k, hasProp defaultOptions k = true → hasProp R k = true) ∧
  (∀ k, hasProp R k = true → Reflect_has defaultOptions k = true) ∧
  (∃ c, getProp R "cjs" = JObj c ∧ NoDup c.*1 ∧
        (∀ k, hasProp defaultCJS k = true → hasProp c k = true) ∧
        (∀ k, hasProp c k = true → ∃ b, getProp c k = JBool b)) ∧
  (∃ l, getProp R "mainFields" = JArr l) ∧
  (getProp R "mode" = OPTIONS_MODE_ALL ∨ getProp R "mode" = OPTIONS_MODE_AUTO ∨
   getProp R "mode" = OPTIONS_MODE_STRICT) ∧
  ((∃ b, getProp R "cache" = JBool b) ∨ (∃ s, getProp R "cache" = JStr s)) ∧
  (∃ b, getProp R "debug" = JBool b) ∧
  (∃ b, getProp R "warnings" = JBool b).
Proof.
  intros H.
  destruct (createOptions_normalized _ _ _ _ _ _ _ H)
    as (((Hnd & _ & Hin) & Hall & (c & Hc & Hcc) & Hmf & Hcache & Hd & Hw & _) & m0 & Hm).
  destruct (createCJS_wf _ _ _ Hcc) as ((Hcnd & _) & Hb & Hcall).
  repeat split; try done.
  - by exists c.
  - by eapply normalizeMode_inv.
  - destruct (getProp R "cache"); try done; [left|right]; by eexists.
Qed.

(** X2. A string is shorthand for a record that only sets [mode]:
    [createOptions(s)] is [createOptions({ mode: s })], and it is the
    record of the auto [cjs] group and the defaults of the other options
    with the normalised mode, or the invalid-option error the mode
    normalisation throws for [s]. *)
Theorem createOptions_string (s : string) :
  createOptions (JStr s) = createOptions (JObj [("mode", JStr s)]) ∧
  createOptions (JStr s) =
  (let? mode := normalizeMode (JStr s) in
   Return [ ("mode", mode); ("cjs", JObj autoCJS); ("await", JBool false);
            ("cache", JBool true); ("debug", JBool false);
            ("mainFields", JArr [JStr "main"]); ("sourceMap", JUndefined);
            ("warnings", JBool DEVELOPMENT) ]).
Proof.
  split; [reflexivity|].
  rewrite createOptions_parts.
  change (collected (JStr s)) with (Return (["mode"], [("mode", JStr s)])).
  cbn [bindC fst snd].
  change (baseline ["mode"] [("mode", JStr s)])
    with [("mode", JStr s); ("cjs", JObj autoCJS)].
  unfold More.finish. cbv zeta.
  change (createCJS (getProp [("mode", JStr s); ("cjs", JObj autoCJS)] "cjs"))
    with (Return autoCJS).
  cbn [bindC].
  change (defaults [("mode", JStr s); ("cjs", JObj autoCJS)] defaultOptions)
    with [ ("mode", JStr s); ("cjs", JObj autoCJS); ("await", JBool false);
           ("cache", JBool true); ("debug", JBool false);
           ("mainFields", JArr [JStr "main"]); ("sourceMap", JUndefined);
           ("warnings", JBool DEVELOPMENT) ].
  match goal with
  | |- (let? mainFields := Options.normalizeMainFields ?t in _) = _ =>
      change t with (JArr [JStr "main"])
  end.
  cbn [Options.normalizeMainFields bindC].
  match goal with
  | |- (let? mode := normalizeMode ?t in _) = _ => change t with (JStr s)
  end.
  destruct (normalizeMode (JStr s)) as [m|e]; cbn [bindC]; [|done].
  reflexivity.
Qed.

(** What the loop leaves at [sourceMap] when the names it visits lack it. *)
Lemma optionsLoop_sourceMap value possibleNames todo names o names' o' :
  elem "sourceMap" todo = false →
  optionsLoop value possibleNames todo names o = Return (names', o') →
  let hit := elem "sourcemap" todo && negb (elem "sourceMap" possibleNames) &&
             negb (isUndefined (get value "sourcemap")) in
  elem "sourceMap" names' = hit || elem "sourceMap" names ∧
  getProp o' "sourceMap" =
    (if hit then JBool (truthy (get value "sourcemap")) else getProp o "sourceMap") ∧
  hasProp o' "sourceMap" = hit || hasProp o "sourceMap".
Proof.
  revert names o.
  induction todo as [|name rest IH]; intros names o Ht H;
    cbn [Options.optionsLoop elem] in *.
  - by injection H as <- <-.
  - apply orb_false_iff in Ht as [Hn Ht].
    pose proof (fun names o => IH names o Ht) as IH'. clear IH. rename IH' into IH.
    destruct (Reflect_has defaultOptions name) eqn:E.
    + assert ((name =? "sourcemap") = false) as Hs.
      { destruct (name =? "sourcemap") eqn:Es; [|done].
        apply String.eqb_eq in Es. subst name. done. }
      rewrite Hs. cbn [orb].
      destruct (IH _ _ H) as (H1 & H2 & H3). cbv zeta in *.
      rewrite H1, H2, H3, elem_app, hasProp_putProp, getProp_putProp_ne by done.
      cbn [elem]. by rewrite Hn, !orb_false_r, andb_false_r, orb_false_r.
    + destruct (name =? "sourcemap") eqn:Es; cbn [andb orb] in *; [|done].
      destruct (elem "sourceMap" possibleNames) eqn:Ep; cbn [negb andb] in *; [done|].
      cbv zeta in H. rewrite andb_true_r in IH.
      destruct (isUndefined (get value "sourcemap")) eqn:Eu; cbn [negb andb] in *.
      * destruct (IH _ _ H) as (H1 & H2 & H3). rewrite andb_false_r in *. done.
      * destruct (IH _ _ H) as (H1 & H2 & H3). rewrite andb_true_r in *.
        rewrite H1, H2, H3, elem_app, hasProp_putProp, getProp_putProp_eq by done.
        cbn. rewrite !orb_true_r. by destruct (elem "sourcemap" rest).
Qed.

(** X6. In a record without [sourceMap], the alias [sourcemap] sets
    [sourceMap] to its value coerced to a boolean; an alias that holds
    [undefined] is ignored. *)
Theorem createOptions_alias (O R : Obj) :
  createOptions (JObj O) = Return R →
  hasProp O "sourceMap" = false → hasProp O "sourcemap" = true →
  getProp R "sourceMap" =
  if isUndefined (getProp O "sourcemap") then JUndefined
  else JBool (truthy (getProp O "sourcemap")).
Proof.
  intros H Hno Halias. rewrite createOptions_parts in H.
  destruct (collected (JObj O)) as [[names o0]|] eqn:E0; cbn [bindC fst snd] in H; [|done].
  destruct (finish_trace _ _ H) as (c & _ & _ & _ & _ & _ & _ & _ & _ & Hsm).
  cbv zeta in Hsm. rewrite Hsm.
  unfold More.collected in E0. cbn [keys] in E0.
  rewrite hasProp_elem in Hno, Halias.
  destruct (optionsLoop_sourceMap _ _ _ _ _ _ _ Hno E0) as (_ & Hg & Hh).
  rewrite Hno, Halias in Hg, Hh. cbn [negb andb get] in Hg, Hh.
  rewrite getProp_defaults; [|apply defaultOptions_NoDup|done].
  rewrite getProp_baseline. cbn [String.eqb Ascii.eqb Bool.eqb andb].
  rewrite Hg.
  destruct (isUndefined (getProp O "sourcemap")); cbn [negb].
  - by destruct (_ && _).
  - rewrite (hasProp_baseline _ _ _ Hh). cbn [isUndefined negb orb].
    by rewrite andb_false_r.
Qed.

Lemma find_first {A} (f : A → bool) (l : list A) (x : A) :
  find f l = Some x →
  ∃ pre post, l = pre ++ x :: post ∧ f x = true ∧ ∀ k, k ∈ pre → f k = false.
Proof.
  induction l as [|y l IH]; cbn [find]; [done|].
  destruct (f y) eqn:E.
  - intros [= <-]. exists [], l. split; [done|]. split; [done|].
    by intros k ?%elem_of_nil.
  - intros H. destruct (IH H) as (pre & post & -> & Hx & Hpre).
    exists (y :: pre), post. split; [done|]. split; [done|].
    intros k [->|Hk]%elem_of_cons; [done|by apply Hpre].
Qed.

(** A record with both keys is rejected for the first key that
    [defaultOptions] does not have. *)
Lemma both_keys_rejected (O : Obj) :
  hasProp O "sourcemap" = true → hasProp O "sourceMap" = true →
  ∃ name,
    createOptions (JObj O) = Throw (ERR_UNKNOWN_ESM_OPTION name) ∧
    (∃ pre post, O.*1 = pre ++ name :: post ∧
                 Reflect_has defaultOptions name = false ∧
                 ∀ k, k ∈ pre → Reflect_has defaultOptions k = true) ∧
    (∀ pre post, O.*1 = pre ++ "sourcemap" :: post →
                 (∀ k, k ∈ pre → Reflect_has defaultOptions k = true) →
                 name = "sourcemap").
Proof.
  intros Halias Hboth. rewrite hasProp_elem in Hboth.
  destruct (find_rejected_some DEVELOPMENT O.*1 O.*1) as [name Hf]; [|done|].
  { by apply hasProp_spec. }
  exists name. split; [by apply createOptions_unknown_key|]. split.
  - destruct (find_first _ _ _ Hf) as (pre & post & HO & Hname & Hpre).
    exists pre, post. split; [done|].
    unfold rejected in Hname, Hpre. rewrite Hboth in Hname.
    split.
    + apply andb_true_iff in Hname as [Hname _]. by apply negb_true_iff.
    + intros k Hk. specialize (Hpre k Hk). rewrite Hboth in Hpre.
      cbn [negb] in Hpre. rewrite andb_false_r in Hpre. cbn [negb] in Hpre.
      rewrite andb_true_r in Hpre. by apply negb_false_iff.
  - intros pre post HO Hpre.
    pose proof (find_rejected_first DEVELOPMENT O.*1 pre post Hpre Hboth) as Hfirst.
    rewrite <- HO, Hf in Hfirst. by injection Hfirst.
Qed.

Lemma rejected_alias (possibleNames : list string) :
  elem "sourceMap" possibleNames = false →
  rejected DEVELOPMENT possibleNames "sourcemap" = false.
Proof. intros H. unfold rejected. rewrite H. apply andb_false_r. Qed.

(** Without [sourceMap] in the record the alias is not what the merge
    rejects. *)
Lemma alias_not_rejected (O : Obj) (e : Error) :
  hasProp O "sourceMap" = false →
  createOptions (JObj O) = Throw e → e ≠ ERR_UNKNOWN_ESM_OPTION "sourcemap".
Proof.
  intros Hno. rewrite createOptions_parts.
  destruct (collected (JObj O)) as [[names o0]|e0] eqn:E0; cbn [bindC fst snd].
  2: { intros [= <-]. unfold More.collected in E0. cbn [keys] in E0.
       destruct (optionsLoop_throws _ _ _ _ _ _ E0) as (n & _ & Hr & ->).
       intros [= ->]. rewrite rejected_alias in Hr; [done|].
       by rewrite <- hasProp_elem. }
  unfold More.finish. cbv zeta.
  destruct (createCJS _) as [c|ec] eqn:Ec; cbn [bindC].
  2: { intros [= <-]. destruct (createCJS_throws _ _ Ec) as (n & _ & _ & ->).
       by intros [= Hn]. }
  destruct (Options.normalizeMainFields _) as [mf|emf] eqn:Emf; cbn [bindC].
  2: { intros [= <-]. revert Emf.
       match goal with |- Options.normalizeMainFields ?t = _ → _ => generalize t end.
       intros t Ht. unfold Options.normalizeMainFields in Ht.
       destruct t; try discriminate Ht; by injection Ht as <-. }
  destruct (normalizeMode _) as [m|em] eqn:Em; cbn [bindC]; [done|].
  intros [= <-]. revert Em.
  match goal with |- normalizeMode ?t = _ → _ => generalize t end.
  intros t Ht. unfold Options.normalizeMode in Ht.
  destruct t; try (by injection Ht as <-).
  repeat (destruct (_ =? _); [discriminate Ht|]). by injection Ht as <-.
Qed.

(** C10, amended. A record that holds both the canonical key
    [sourceMap] and the alias [sourcemap] is always rejected with the
    unknown-option error, which names the first key in enumeration order
    that [defaultOptions] does not have: [sourcemap] when every key
    before it is a recognised one, and the unrecognised key before it
    otherwise. In a record that holds the alias and not [sourceMap] the
    alias never causes the unknown-option error; in the record returned
    the alias itself is not a key, and [sourceMap] is the alias's value
    coerced to a boolean, or [undefined] when that value is [undefined]. *)
Theorem createOptions_sourcemap_alias (O : Obj) :
  hasProp O "sourcemap" = true →
  (hasProp O "sourceMap" = true →
   ∃ name,
     createOptions (JObj O) = Throw (ERR_UNKNOWN_ESM_OPTION name) ∧
     (∃ pre post, O.*1 = pre ++ name :: post ∧
                  Reflect_has defaultOptions name = false ∧
                  ∀ k, k ∈ pre → Reflect_has defaultOptions k = true) ∧
     (∀ pre post, O.*1 = pre ++ "sourcemap" :: post →
                  (∀ k, k ∈ pre → Reflect_has defaultOptions k = true) →
                  name = "sourcemap")) ∧
  (hasProp O "sourceMap" = false →
   (∀ e, createOptions (JObj O) = Throw e → e ≠ ERR_UNKNOWN_ESM_OPTION "sourcemap") ∧
   (∀ R, createOptions (JObj O) = Return R →
         hasProp R "sourcemap" = false ∧
         getProp R "sourceMap" =
           if isUndefined (getProp O "sourcemap") then JUndefined
           else JBool (truthy (getProp O "sourcemap")))).
Proof.
  intros Halias. split.
  - intros Hboth. by apply both_keys_rejected.
  - intros Hno. split.
    + intros e H. by apply (alias_not_rejected O).
    + intros R H. split.
      * destruct (createOptions_normalized _ _ _ _ _ _ _ H) as (((_ & _ & Hin) & _) & _).
        destruct (hasProp R "sourcemap") eqn:E; [|done].
        specialize (Hin _ E). vm_compute in Hin. discriminate Hin.
      * rewrite createOptions_parts in H.
        destruct (collected (JObj O)) as [[names o0]|] eqn:E0;
          cbn [bindC fst snd] in H; [|done].
        destruct (finish_trace _ _ H) as (c & _ & _ & _ & _ & _ & _ & _ & _ & Hsm).
        cbv zeta in Hsm. rewrite Hsm.
        unfold More.collected in E0. cbn [keys] in E0.
        rewrite hasProp_elem in Hno, Halias.
        destruct (optionsLoop_sourceMap _ _ _ _ _ _ _ Hno E0) as (_ & Hg & Hh).
        rewrite Hno, Halias in Hg, Hh. cbn [negb andb get] in Hg, Hh.
        rewrite getProp_defaults; [|apply defaultOptions_NoDup|done].
        rewrite getProp_baseline. cbn [String.eqb Ascii.eqb Bool.eqb andb].
        rewrite Hg.
        destruct (isUndefined (getProp O "sourcemap")); cbn [negb].
        -- by destruct (_ && _).
        -- rewrite (hasProp_baseline _ _ _ Hh). cbn [isUndefined negb orb].
           by rewrite andb_false_r.
Qed.

End WithConstants.
Lemma createOptions_shape_witness :
  NoDup Examples.tunedRecord.*1 ∧
  ∃ b, getProp Examples.tunedRecord "debug" = JBool b.
Proof.
  destruct (createOptions_shape false (JNum 1) (JNum 2) (JNum 3) (fun s => s)
              (JObj Examples.tuned) Examples.tunedRecord)
    as (Hnd & _ & _ & _ & _ & _ & _ & Hd & _).
  - vm_compute. reflexivity.
  - split; assumption.
Defined.

Lemma createOptions_given_witness :
  getProp Examples.tunedRecord "cache" = JStr "/tmp/cache" ∧
  getProp Examples.tunedRecord "debug" = JBool true.
Proof.
  destruct (createOptions_given false (JNum 1) (JNum 2) (JNum 3) (fun s => s)
              Examples.tuned Examples.tunedRecord)
    as (_ & _ & Hc & Hd & _).
  - vm_compute. reflexivity.
  - split.
    + apply (Hc (JStr "/tmp/cache")). repeat split; reflexivity.
    + apply (Hd (JNum 1)). repeat split; reflexivity.
Defined.

Lemma createOptions_missing_witness :
  getProp Examples.tunedRecord "await" = JBool false ∧
  getProp Examples.tunedRecord "mainFields" = JArr [JStr "main"].
Proof.
  destruct (createOptions_missing false (JNum 1) (JNum 2) (JNum 3) (fun s => s)
              Examples.tuned Examples.tunedRecord)
    as (Ha & _ & _ & _ & Hm & _).
  - vm_compute. reflexivity.
  - split; [apply Ha | apply Hm]; left; reflexivity.
Defined.

Lemma createOptions_baseline_witness :
  getProp Examples.hollowRecord "cjs" = JObj Options.defaultCJS ∧
  getProp Examples.hollowRecord "mode" = JNum 3.
Proof.
  destruct (createOptions_baseline false (JNum 1) (JNum 2) (JNum 3) (fun s => s)
              Examples.hollow Examples.hollowRecord)
    as (_ & _ & Hc & Hm).
  - vm_compute. reflexivity.
  - split; [apply Hc | apply Hm]; reflexivity.
Defined.

Lemma createOptions_alias_witness :
  getProp Examples.tunedRecord "sourceMap" = JBool true.
Proof.
  apply (createOptions_alias false (JNum 1) (JNum 2) (JNum 3) (fun s => s)
           Examples.tuned Examples.tunedRecord).
  - vm_compute. reflexivity.
  - reflexivity.
  - reflexivity.
Defined.

Lemma createOptions_errors_witness :
  ("mode" = "mainFields" ∧
   Options.normalizeMainFields (JStr "fast")
     = Throw (ERR_INVALID_ESM_OPTION "mode" (JStr "fast"))) ∨
  ("mode" = "mode" ∧
   Options.normalizeMode (JNum 1) (JNum 2) (JNum 3) (JStr "fast")
     = Throw (ERR_INVALID_ESM_OPTION "mode" (JStr "fast"))).
Proof.
  apply (createOptions_errors false (JNum 1) (JNum 2) (JNum 3) (fun s => s)
           (JStr "fast") (ERR_INVALID_ESM_OPTION "mode" (JStr "fast"))).
  vm_compute. reflexivity.
Defined.

Lemma createCJS_toggles_witness :
  getProp [ ("vars", JBool true); ("cache", JBool false); ("extensions", JBool false);
            ("interop", JBool false); ("mutableNamespace", JBool false);
            ("namedExports", JBool false); ("paths", JBool false);
            ("topLevelReturn", JBool false) ] "vars" = JBool true.
Proof.
  apply (createCJS_toggles (fun s => s) (JObj [("vars", JNum 1)])
           [ ("vars", JBool true); ("cache", JBool false); ("extensions", JBool false);
             ("interop", JBool false); ("mutableNamespace", JBool false);
             ("namedExports", JBool false); ("paths", JBool false);
             ("topLevelReturn", JBool false) ] "vars").
  - vm_compute. reflexivity.
  - reflexivity.
Defined.

Lemma createOptions_sourcemap_alias_witness :
  Examples.createOptions (JObj [("sourceMap", JBool true); ("sourcemap", JBool true)])
    = Throw (ERR_UNKNOWN_ESM_OPTION "sourcemap") ∧
  hasProp Examples.tunedRecord "sourcemap" = false ∧
  getProp Examples.tunedRecord "sourceMap" = JBool true.
Proof.
  split.
  - destruct (createOptions_sourcemap_alias false (JNum 1) (JNum 2) (JNum 3) (fun s => s)
                [("sourceMap", JBool true); ("sourcemap", JBool true)] eq_refl)
      as (Hboth & _).
    destruct (Hboth eq_refl) as (name & Hthrow & _ & Hfirst).
    assert (name = "sourcemap") as Hname.
    { apply (Hfirst ["sourceMap"] [] eq_refl).
      intros k Hk. apply list_elem_of_singleton in Hk as ->. reflexivity. }
    rewrite Hname in Hthrow. exact Hthrow.
  - destruct (createOptions_sourcemap_alias false (JNum 1) (JNum 2) (JNum 3) (fun s => s)
                Examples.tuned eq_refl) as (_ & Halone).
    destruct (Halone eq_refl) as (_ & Hvalue).
    apply (Hvalue Examples.tunedRecord). vm_compute. reflexivity.
Defined.

Lemma createOptions_sourcemap_alias_counterexample :
  Examples.createOptions
    (JObj [("foo", JNum 1); ("sourceMap", JBool true); ("sourcemap", JBool true)])
    = Throw (ERR_UNKNOWN_ESM_OPTION "foo") ∧
  Examples.createOptions
    (JObj [("foo", JNum 1); ("sourceMap", JBool true); ("sourcemap", JBool true)])
    ≠ Throw (ERR_UNKNOWN_ESM_OPTION "sourcemap").
Proof.
  assert (Examples.createOptions
            (JObj [("foo", JNum 1); ("sourceMap", JBool true); ("sourcemap", JBool true)])
          = Throw (ERR_UNKNOWN_ESM_OPTION "foo")) as H by (vm_compute; reflexivity).
  split; [exact H|]. rewrite H. discriminate.
Qed.

End OptionsMore.

(** ** More facts about packages *)

Module PackageMore.
Import ObjFacts FileFacts PackageFacts Manifest.

Section WithEnvironment.

Variable DEVELOPMENT : bool.
Variable OPTIONS : JValue.
Variable NYC : bool.
Variable PKG_VERSION : string.
Variables OPTIONS_MODE_ALL OPTIONS_MODE_AUTO OPTIONS_MODE_STRICT : JValue.
Variable RANGE_ALL : JValue.
Variable sep : string.
Variables basename dirname extname : string → string.
Variable resolve : string → string → string.
Variable resolve1 : string → string.
Variable toStringLiteral : string → string.
Variables parseJSON parseJSON6 : string → JValue.
Variable validRange : JValue → JValue.
Variable _findPath : Files → string → list string → bool → list string → string.
Variable loadESM : Files → string → Completion JValue.

Local Abbreviation createOptions :=
  (Package.createOptions DEVELOPMENT
     OPTIONS_MODE_ALL OPTIONS_MODE_AUTO OPTIONS_MODE_STRICT toStringLiteral).
Local Abbreviation clearBabelCache := (Package.clearBabelCache sep extname resolve).
Local Abbreviation readJSON := (Package.readJSON parseJSON).
Local Abbreviation loadCache :=
  (Package.loadCache NYC PKG_VERSION sep extname resolve parseJSON).
Local Abbreviation cachePathFor := (Package.cachePathFor sep resolve).
Local Abbreviation newPackage :=
  (Package.newPackage DEVELOPMENT NYC PKG_VERSION
     OPTIONS_MODE_ALL OPTIONS_MODE_AUTO OPTIONS_MODE_STRICT sep
     extname resolve toStringLiteral parseJSON).
Local Abbreviation findRoot := (Package.findRoot sep basename dirname).
Local Abbreviation getRoot := (Package.getRoot sep basename dirname).
Local Abbreviation getRange := (Package.getRange validRange).
Local Abbreviation probeOptions :=
  (Package.probeOptions DEVELOPMENT NYC PKG_VERSION
     OPTIONS_MODE_ALL OPTIONS_MODE_AUTO OPTIONS_MODE_STRICT RANGE_ALL sep
     extname resolve toStringLiteral parseJSON parseJSON6 _findPath loadESM).
Local Abbreviation finishInfo :=
  (Package.finishInfo DEVELOPMENT OPTIONS NYC PKG_VERSION
     OPTIONS_MODE_ALL OPTIONS_MODE_AUTO OPTIONS_MODE_STRICT sep
     basename dirname extname resolve toStringLiteral parseJSON).
Local Abbreviation readInfo :=
  (Package.readInfo DEVELOPMENT OPTIONS NYC PKG_VERSION
     OPTIONS_MODE_ALL OPTIONS_MODE_AUTO OPTIONS_MODE_STRICT RANGE_ALL sep
     basename dirname extname resolve toStringLiteral parseJSON parseJSON6
     validRange _findPath loadESM).
Local Abbreviation resolveInfo :=
  (Package.resolveInfo DEVELOPMENT OPTIONS NYC PKG_VERSION
     OPTIONS_MODE_ALL OPTIONS_MODE_AUTO OPTIONS_MODE_STRICT RANGE_ALL sep
     basename dirname extname resolve toStringLiteral parseJSON parseJSON6
     validRange _findPath loadESM).
Local Abbreviation getInfo :=
  (Package.getInfo DEVELOPMENT OPTIONS NYC PKG_VERSION
     OPTIONS_MODE_ALL OPTIONS_MODE_AUTO OPTIONS_MODE_STRICT RANGE_ALL sep
     basename dirname extname resolve toStringLiteral parseJSON parseJSON6
     validRange _findPath loadESM).
Local Abbreviation get :=
  (Package.get DEVELOPMENT OPTIONS NYC PKG_VERSION
     OPTIONS_MODE_ALL OPTIONS_MODE_AUTO OPTIONS_MODE_STRICT RANGE_ALL sep
     basename dirname extname resolve resolve1 toStringLiteral parseJSON parseJSON6
     validRange _findPath loadESM).
Local Abbreviation boot :=
  (Package.boot DEVELOPMENT NYC PKG_VERSION
     OPTIONS_MODE_ALL OPTIONS_MODE_AUTO OPTIONS_MODE_STRICT sep
     extname resolve toStringLiteral parseJSON).

(** *** The sweep of the Babel cache *)

Local Abbreviation sweep babel :=
  (foldl (fun (fs : Files) cacheName =>
            if extname cacheName =? ".json"
            then removeFile fs (babel +:+ sep +:+ cacheName) else fs)).

Lemma sweep_None babel names (fs : Files) path :
  readFile fs path = None → readFile (sweep babel fs names) path = None.
Proof.
  revert fs. induction names as [|n names IH]; intros fs H; cbn [foldl]; [done|].
  apply IH. destruct (extname n =? ".json"); [|done].
  by apply readFile_removeFile_None.
Qed.

Lemma sweep_removed babel names (fs : Files) name :
  name ∈ names → extname name = ".json" →
  readFile (sweep babel fs names) (babel +:+ sep +:+ name) = None.
Proof.
  revert fs. induction names as [|n names IH]; intros fs Hin Hext; cbn [foldl].
  { by apply elem_of_nil in Hin. }
  apply elem_of_cons in Hin as [<-|Hin]; [|by apply IH].
  rewrite Hext. cbn. apply sweep_None, readFile_removeFile.
Qed.

Lemma sweep_kept babel names (fs : Files) path :
  (∀ name, name ∈ names → extname name = ".json" → path ≠ babel +:+ sep +:+ name) →
  readFile (sweep babel fs names) path = readFile fs path.
Proof.
  revert fs. induction names as [|n names IH]; intros fs H; cbn [foldl]; [done|].
  rewrite IH by (intros name Hn; apply H; by right).
  destruct (extname n =? ".json") eqn:E; [|done].
  apply readFile_removeFile_ne. apply String.eqb_neq. intros Heq.
  apply (H n); [by left|by apply String.eqb_eq|done].
Qed.

(** X10. [clearBabelCache] removes the files of the directory
    [../@babel/register], relative to the cache path, whose extension is
    [.json], and leaves every other file as it was. *)
Theorem clearBabelCache_exact (fs : Files) (cachePath : string) :
  let babel := resolve cachePath "../@babel/register" in
  let listed := readdir sep fs babel in
  (∀ name, name ∈ listed → extname name = ".json" →
     readFile (clearBabelCache fs cachePath) (babel +:+ sep +:+ name) = None) ∧
  (∀ path,
     (∀ name, name ∈ listed → extname name = ".json" →
              path ≠ babel +:+ sep +:+ name) →
     readFile (clearBabelCache fs cachePath) path = readFile fs path).
Proof.
  intros babel listed. split.
  - intros name Hin Hext. by apply sweep_removed.
  - intros path H. by apply sweep_kept.
Qed.

(** *** Loading a cache directory that is in order *)

Lemma scan_clean names s :
  Package.hasDirtyMarker s = false →
  Package.hasDirtyMarker (Package.scanCacheNames names s) = false →
  ".dirty" ∉ names.
Proof.
  intros Hs H Hin. by rewrite scan_dirty in H.
Qed.

(** The index of a scan that met no dirty marker. *)
Lemma scan_index names s name :
  ".dirty" ∉ names →
  getProp (Package.compileCache (Package.scanCacheNames names s)) name =
  if Package.notDotted name && elem name names then JBool true
  else getProp (Package.compileCache s) name.
Proof.
  revert s. induction names as [|n names IH]; intros s Hd; cbn [Package.scanCacheNames elem].
  { by rewrite andb_false_r. }
  apply not_elem_of_cons in Hd as [Hn Hd].
  assert (∀ s', Package.compileCache s' = Package.compileCache s →
                (n =? name) && Package.notDotted name = false →
                getProp (Package.compileCache (Package.scanCacheNames names s')) name =
                if Package.notDotted name && ((n =? name) || elem name names)
                then JBool true else getProp (Package.compileCache s) name) as Hskip.
  { intros s' Hs' Hnn. rewrite IH, Hs' by done.
    destruct (Package.notDotted name); [|done]. rewrite andb_true_r in Hnn.
    by rewrite Hnn. }
  assert (Package.notDotted n = false → (n =? name) && Package.notDotted name = false) as Hdot.
  { intros Hnd. destruct (n =? name) eqn:E; [|done].
    apply String.eqb_eq in E. by subst. }
  destruct (Package.notDotted n) eqn:End.
  - rewrite IH by done. cbn [Package.compileCache]. rewrite getProp_setProp.
    destruct (n =? name) eqn:E.
    + apply String.eqb_eq in E. subst n. rewrite End. cbn.
      by destruct (elem name names).
    + done.
  - destruct (n =? ".data.blob"); [by apply Hskip; auto|].
    destruct (n =? ".data.json"); [by apply Hskip; auto|].
    destruct (n =? ".dirty") eqn:E; [by apply String.eqb_eq in E|].
    destruct (n =? ".nyc"); by apply Hskip; auto.
Qed.

(** X11. When the scan of a cache directory finds no reason to discard
    it (no dirty marker, the instrumentation marker present exactly when
    [NYC] is set, and metadata, if any, of version [PKG_VERSION]), the
    constructor leaves the disk as it is; the index it builds holds
    [true] at exactly the listed names that do not start with a dot; the
    buffer is the content of [.data.blob] when listed and empty
    otherwise; the map is the [map] field of the metadata when
    [.data.json] is listed and empty otherwise. *)
Theorem loadCache_intact (fs : Files) (cachePath : string) :
  let listing := readdir sep fs cachePath in
  let s := Package.scanCacheNames listing Package.scanStart in
  let dataJSON := readJSON fs (cachePath +:+ sep +:+ ".data.json") in
  Package.hasDirtyMarker s || (NYC && negb (Package.hasNycMarker s))
    || (negb NYC && Package.hasNycMarker s) = false →
  (Package.hasMap s = true →
   ∃ d, dataJSON = JObj d ∧ getProp d "version" = JStr PKG_VERSION) →
  ∃ c, loadCache fs cachePath = Return (fs, c) ∧
       (∀ name, Package.cacheGet c name =
                if Package.notDotted name && elem name listing
                then JBool true else JUndefined) ∧
       buffer c = (if Package.hasBuffer s
                   then readFile fs (cachePath +:+ sep +:+ ".data.blob")
                   else Some "") ∧
       map c = (if Package.hasMap s then JS.get dataJSON "map" else JObj []).
Proof.
  intros listing s dataJSON Hinv Hmap.
  assert (Package.hasDirtyMarker s = false ∧ negb NYC && Package.hasNycMarker s = false)
    as [Hd Hn].
  { apply orb_false_iff in Hinv as [[? ?]%orb_false_iff ?]. done. }
  assert (∀ name, getProp (Package.compileCache s) name =
                  if Package.notDotted name && elem name listing
                  then JBool true else JUndefined) as Hidx.
  { intros name. unfold s. rewrite scan_index; [reflexivity|].
    by apply (scan_clean _ Package.scanStart). }
  unfold Package.loadCache. fold listing. fold s. rewrite Hinv, Hd, Hn.
  cbn [negb]. rewrite andb_true_r. fold dataJSON.
  destruct (Package.hasMap s) eqn:Em.
  - destruct Hmap as (d & Hd' & Hv); [done|]. rewrite Hd'.
    cbn [Package.member bindC JS.get]. rewrite Hv.
    cbn [Package.differsFrom]. rewrite String.eqb_refl. cbn [negb bindC].
    eexists. split; [reflexivity|]. by cbn.
  - cbn [bindC]. eexists. split; [reflexivity|]. by cbn.
Qed.

(** *** Constructing on a registered cache path *)

Lemma newPackage_Done dirPath range options st ref st1 :
  newPackage dirPath range options st = Done ref st1 →
  ∃ opts, createOptions options = Return opts ∧
          ref = length (heap st) ∧
          heap st1 = heap st ++ [mkPackage (cachePathFor dirPath opts) dirPath opts range] ∧
          is_Some (dir st1 !! cachePathFor dirPath opts) ∧
          root st1 = root st ∧ memo st1 = memo st ∧
          state_default st1 = state_default st.
Proof.
  unfold Package.newPackage, bindM, liftC, getState, modify, retM.
  fold createOptions.
  destruct (createOptions options) as [opts|]; [|done].
  fold (cachePathFor dirPath opts).
  destruct (dir st !! cachePathFor dirPath opts) as [c|] eqn:Ed.
  - intros [= <- <-]. exists opts. cbn. rewrite Ed. by eauto 10.
  - destruct (cachePathFor dirPath opts =? "").
    + intros [= <- <-]. exists opts. cbn. rewrite lookup_insert_eq. by eauto 10.
    + fold loadCache. destruct (loadCache _ _) as [fc|]; [|done].
      intros [= <- <-]. exists opts. cbn. rewrite lookup_insert_eq. by eauto 10.
Qed.

Lemma newPackage_registered dirPath range options opts c st :
  createOptions options = Return opts →
  dir st !! cachePathFor dirPath opts = Some c →
  newPackage dirPath range options st =
  Done (length (heap st))
       (setHeap st (heap st ++ [mkPackage (cachePathFor dirPath opts) dirPath opts range])).
Proof.
  intros Ho Hd. unfold Package.newPackage, bindM, liftC, getState, modify, retM.
  fold createOptions. rewrite Ho. fold (cachePathFor dirPath opts). by rewrite Hd.
Qed.

(** X12. The cache of a cache path is loaded once. Constructing a
    package whose cache path is that of a package constructed earlier
    reads and removes nothing on disk and leaves the registry of caches
    untouched: it only allocates the new instance. *)
Theorem newPackage_shares_cache dirPath range options st ref st1
    dirPath' range' options' opts' :
  newPackage dirPath range options st = Done ref st1 →
  createOptions options' = Return opts' →
  (∃ p, heap st1 !! ref = Some p ∧ cachePath p = cachePathFor dirPath' opts') →
  ∃ st2, newPackage dirPath' range' options' st1 = Done (S ref) st2 ∧
         files st2 = files st1 ∧ dir st2 = dir st1 ∧
         heap st2 = heap st1 ++
                    [mkPackage (cachePathFor dirPath' opts') dirPath' opts' range'].
Proof.
  intros H Ho' (p & Hp & Hcp).
  destruct (newPackage_Done _ _ _ _ _ _ H) as (opts & Ho & -> & Hheap & [c Hc] & _).
  rewrite Hheap, lookup_app_r, Nat.sub_diag in Hp by done. injection Hp as <-.
  cbn [cachePath] in Hcp. rewrite Hcp in Hc.
  rewrite (newPackage_registered _ _ _ _ _ _ Ho' Hc).
  exists (setHeap st1 (heap st1 ++
            [mkPackage (cachePathFor dirPath' opts') dirPath' opts' range'])).
  split; [|done]. f_equal. rewrite Hheap, length_app. cbn. lia.
Qed.

(** X13. With the option [cache] set to [false] the constructor works
    in memory: the cache path is empty, the disk is not touched, and the
    cache registered under the empty path, unless one is registered
    already, has an empty index and neither buffer nor map. *)
Lemma newPackage_uncached dirPath range options opts st :
  createOptions options = Return opts →
  getProp opts "cache" = JBool false →
  newPackage dirPath range options st =
  Done (length (heap st))
       (mkState (files st)
                (match dir st !! "" with
                 | Some _ => dir st
                 | None => <["" := mkCache None [] JNull]> (dir st)
                 end)
                (root st) (heap st ++ [mkPackage "" dirPath opts range])
                (memo st) (state_default st) (moduleState st) (unbuilt st)).
Proof.
  intros Ho Hc. unfold Package.newPackage, bindM, liftC, getState, modify, retM.
  fold createOptions. rewrite Ho. unfold Package.cachePathFor. rewrite Hc.
  by destruct (dir st !! "") as [c|] eqn:Ed.
Qed.

Theorem newPackage_in_memory dirPath range options opts st :
  createOptions options = Return opts →
  getProp opts "cache" = JBool false →
  ∃ st', newPackage dirPath range options st = Done (length (heap st)) st' ∧
         files st' = files st ∧
         heap st' = heap st ++ [mkPackage "" dirPath opts range] ∧
         dir st' !! "" = Some (default (mkCache None [] JNull) (dir st !! "")).
Proof.
  intros Ho Hc. rewrite (newPackage_uncached _ _ _ _ _ Ho Hc).
  eexists. split; [reflexivity|]. cbn [files heap dir].
  split; [done|]. split; [done|].
  destruct (dir st !! "") as [c|] eqn:Ed; cbn; [done|].
  by rewrite lookup_insert_eq.
Qed.

(** X28. When the metadata file of a cache directory that no marker
    invalidates reads as [null], the constructor throws the [TypeError]
    of the member access and leaves the disk as it is, but the cache
    object it registered before the scan stays registered, its fields
    still [null]. A later construction on the same cache path finds it,
    skips the scan and returns. *)
Theorem newPackage_failed_load (st : State) dirPath range options opts :
  createOptions options = Return opts →
  let cp := cachePathFor dirPath opts in
  let s := Package.scanCacheNames (readdir sep (files st) cp) Package.scanStart in
  cp ≠ "" → dir st !! cp = None →
  Package.hasDirtyMarker s || (NYC && negb (Package.hasNycMarker s))
    || (negb NYC && Package.hasNycMarker s) = false →
  Package.hasMap s = true →
  readJSON (files st) (cp +:+ sep +:+ ".data.json") = JNull →
  ∃ st', newPackage dirPath range options st = Failed (ForeignError "TypeError") st' ∧
         files st' = files st ∧ heap st' = heap st ∧
         dir st' !! cp = Some (mkCache None [] JNull) ∧ cp ∈ unbuilt st' ∧
         ∀ range',
           newPackage dirPath range' options st' =
           Done (length (heap st))
                (setHeap st' (heap st ++ [mkPackage cp dirPath opts range'])).
Proof.
  intros Ho cp s Hne Hdir Hinv Hmap Hjson.
  assert (loadCache (files st) cp = Throw (ForeignError "TypeError")) as Hload.
  { unfold Package.loadCache. fold s. rewrite Hinv, Hmap. cbn [andb negb].
    fold readJSON. by rewrite Hjson. }
  set (st' := setUnbuilt (setDir st (<[cp := mkCache None [] JNull]> (dir st)))
                         ({[cp]} ∪ unbuilt st)).
  assert (dir st' !! cp = Some (mkCache None [] JNull)) as Hreg.
  { unfold st'. cbn [dir setUnbuilt setDir]. apply lookup_insert_eq. }
  exists st'. split.
  { unfold Package.newPackage, bindM, liftC, getState, modify, retM.
    fold createOptions. rewrite Ho. fold cp. rewrite Hdir.
    apply String.eqb_neq in Hne. rewrite Hne. fold loadCache. by rewrite Hload. }
  split; [done|]. split; [done|]. split; [done|]. split.
  { unfold st'. cbn [unbuilt setUnbuilt]. apply elem_of_union_l. by apply elem_of_singleton. }
  intros range'.
  by rewrite (newPackage_registered dirPath range' options opts _ st' Ho Hreg).
Qed.

(** *** Resolution *)

(** X15. A directory named [node_modules] resolves to [null], with or
    without [force], unless the memo already holds a package for it; the
    [null] is memoized, no package is constructed and the disk and the
    caches are left alone. *)
Theorem getInfo_node_modules (fuel : nat) (dirPath : string) (force : bool) (st : State) :
  basename dirPath = "node_modules" →
  (∀ pkg, memo st !! dirPath ≠ Some (Some pkg)) →
  ∃ st', getInfo (S fuel) dirPath force st = Done None st' ∧
         memo st' !! dirPath = Some None ∧
         files st' = files st ∧ dir st' = dir st ∧ heap st' = heap st.
Proof.
  intros Hb Hm. cbn [Package.getInfo]. unfold bindM at 1. unfold getState at 1.
  assert (∃ st', resolveInfo fuel (getInfo fuel) dirPath force st = Done None st' ∧
                 memo st' !! dirPath = Some None ∧
                 files st' = files st ∧ dir st' = dir st ∧ heap st' = heap st) as Hres.
  { unfold Package.resolveInfo. rewrite Hb. cbn.
    eexists. split; [reflexivity|]. cbn. by rewrite lookup_insert_eq. }
  destruct (memo st !! dirPath) as [[pkg|]|] eqn:E; [by destruct (Hm pkg)| |done].
  destruct force; cbn [negb]; [done|]. by exists st.
Qed.

(** X16. [Package.get] after [Package.set] on the same path, other than
    ["."]: a package that was set is returned as it is, with or without
    [force]; after setting [null], [Package.get] without [force] falls
    back to the default package of the state. The memo entry is the only
    change. *)
Theorem get_after_set (fuel : nat) (dirPath : string) (pkg : option Ref)
    (force : bool) (st : State) :
  dirPath ≠ "." → force = false ∨ is_Some pkg →
  (let! _ := Package.set dirPath pkg in get (S fuel) dirPath force) st =
  Done (match pkg with Some _ => pkg | None => state_default st end)
       (setMemo st (<[dirPath := pkg]> (memo st))).
Proof.
  intros Hdot Hf. apply String.eqb_neq in Hdot.
  unfold bindM at 1. unfold Package.set, modify. unfold Package.get. rewrite Hdot.
  unfold bindM at 1. cbn [Package.getInfo]. unfold bindM at 1. unfold getState at 1.
  cbn [memo setMemo]. rewrite lookup_insert_eq.
  destruct pkg as [ref|]; [done|].
  destruct Hf as [->|[? ?]]; done.
Qed.

(** [readInfo] without [force] on a directory that holds neither an
    activation file nor a manifest. *)
Lemma readInfo_nothing fuel rec dirPath st :
  readFile (files st) (dirPath +:+ sep +:+ Package.ESMRC_FILENAME) = None →
  _findPath (files st) Package.ESMRC_FILENAME [dirPath] false Package.searchExts = "" →
  readFile (files st) (dirPath +:+ sep +:+ Package.PACKAGE_FILENAME) = None →
  readInfo fuel rec dirPath false st = Done None st.
Proof.
  intros Hrc Hfind Hpkg. unfold Package.readInfo. unfold bindM at 1.
  fold probeOptions. rewrite (probe_none _ _ _ _ _ _ _ _ _ _ _ _ _ _ _ _ _ Hrc Hfind).
  unfold bindM, getState. by rewrite Hpkg.
Qed.

(** X17. A directory that holds neither an activation file nor a
    manifest resolves, without [force], to whatever its parent directory
    resolves to: the same package reference or [null]. The result is
    memoized under the directory and no package is constructed for it. *)
Theorem getInfo_inherits (fuel : nat) (dirPath : string) (st : State)
    (v : option Ref) (st1 : State) :
  memo st !! dirPath = None → basename dirPath ≠ "node_modules" →
  readFile (files st) (dirPath +:+ sep +:+ Package.ESMRC_FILENAME) = None →
  _findPath (files st) Package.ESMRC_FILENAME [dirPath] false Package.searchExts = "" →
  readFile (files st) (dirPath +:+ sep +:+ Package.PACKAGE_FILENAME) = None →
  dirname dirPath ≠ dirPath →
  getInfo fuel (dirname dirPath) false st = Done v st1 →
  getInfo (S fuel) dirPath false st =
  Done v (setMemo st1 (<[dirPath := v]> (memo st1))).
Proof.
  intros Hm Hb Hrc Hfind Hpkg Hpar Hparent.
  apply String.eqb_neq in Hb, Hpar.
  cbn [Package.getInfo]. unfold bindM at 1. unfold getState at 1. rewrite Hm.
  unfold Package.resolveInfo. rewrite Hb.
  unfold bindM at 1. fold readInfo. fold getInfo. rewrite readInfo_nothing by done.
  rewrite Hpar. cbn [negb]. unfold bindM at 1. rewrite Hparent.
  by destruct v.
Qed.

(** X18. Where neither the directory nor any directory above it holds
    an activation file or a manifest, and the memo holds no package for
    any of them, [getInfo] without [force] returns [null] when the chain
    of parent directories ends within the recursion budget; it memoizes
    [null], leaves the memo of every other path as it was, constructs
    nothing and leaves the disk and the caches alone. *)
Theorem getInfo_nothing_found (n : nat) :
  ∀ (fuel : nat) (dirPath : string) (st : State),
  let ancestor k := Nat.iter k dirname dirPath in
  (∀ k, (k ≤ n)%nat →
     readFile (files st) (ancestor k +:+ sep +:+ Package.ESMRC_FILENAME) = None) →
  (∀ k, (k ≤ n)%nat →
     _findPath (files st) Package.ESMRC_FILENAME [ancestor k] false Package.searchExts
       = "") →
  (∀ k, (k ≤ n)%nat →
     readFile (files st) (ancestor k +:+ sep +:+ Package.PACKAGE_FILENAME) = None) →
  (∀ k pkg, (k ≤ n)%nat → memo st !! ancestor k ≠ Some (Some pkg)) →
  dirname (ancestor n) = ancestor n →
  (n < fuel)%nat →
  ∃ st', getInfo fuel dirPath false st = Done None st' ∧
         memo st' !! dirPath = Some None ∧
         (∀ d, (∀ k, (k ≤ n)%nat → d ≠ ancestor k) → memo st' !! d = memo st !! d) ∧
         files st' = files st ∧ dir st' = dir st ∧ heap st' = heap st.
Proof.
  induction n as [|n IH]; intros fuel dirPath st ancestor Hrc Hfind Hpkg Hmemo Hfix Hfuel;
    (destruct fuel as [|fuel]; [lia|]).
  - change (dirname dirPath = dirPath) in Hfix.
    specialize (Hrc 0 (le_n 0)). specialize (Hfind 0 (le_n 0)).
    specialize (Hpkg 0 (le_n 0)).
    change (ancestor 0) with dirPath in Hrc, Hfind, Hpkg.
    cbn [Package.getInfo]. unfold bindM at 1. unfold getState at 1.
    destruct (memo st !! dirPath) as [[pkg|]|] eqn:E;
      [by destruct (Hmemo 0 pkg (le_n 0))| |].
    { by exists st. }
    assert (∀ d, (∀ k, (k ≤ 0)%nat → d ≠ ancestor k) →
                 <[dirPath := None]> (memo st) !! d = memo st !! d) as Hframe.
    { intros d Hd. apply lookup_insert_ne. intros Heq. by apply (Hd 0). }
    unfold Package.resolveInfo.
    destruct (basename dirPath =? "node_modules").
    { cbn. eexists. split; [reflexivity|]. cbn. by rewrite lookup_insert_eq. }
    unfold bindM at 1. fold readInfo. fold getInfo. rewrite readInfo_nothing by done.
    rewrite Hfix, String.eqb_refl. cbn.
    eexists. split; [reflexivity|]. cbn. by rewrite lookup_insert_eq.
  - assert (∀ k, Nat.iter k dirname (dirname dirPath) = ancestor (S k)) as Hup.
    { intros k. unfold ancestor. by rewrite Nat.iter_succ_r. }
    destruct (IH fuel (dirname dirPath) st) as (st1 & Hrun & _ & Hm1 & Hf1 & Hd1 & Hh1).
    { intros k Hk. rewrite Hup. apply Hrc. lia. }
    { intros k Hk. rewrite Hup. apply Hfind. lia. }
    { intros k Hk. rewrite Hup. apply Hpkg. lia. }
    { intros k pkg Hk. rewrite Hup. apply Hmemo. lia. }
    { by rewrite Hup. }
    { lia. }
    specialize (Hrc 0 (Nat.le_0_l _)). specialize (Hfind 0 (Nat.le_0_l _)).
    specialize (Hpkg 0 (Nat.le_0_l _)).
    change (ancestor 0) with dirPath in Hrc, Hfind, Hpkg.
    cbn [Package.getInfo]. unfold bindM at 1. unfold getState at 1.
    destruct (memo st !! dirPath) as [[pkg|]|] eqn:E;
      [by destruct (Hmemo 0 pkg (Nat.le_0_l _))| |].
    { by exists st. }
    assert (∀ d, (∀ k, (k ≤ S n)%nat → d ≠ ancestor k) →
                 <[dirPath := None]> (memo st) !! d = memo st !! d) as Hframe.
    { intros d Hd. apply lookup_insert_ne. intros Heq. by apply (Hd 0); [lia|]. }
    unfold Package.resolveInfo.
    destruct (basename dirPath =? "node_modules").
    { cbn. eexists. split; [reflexivity|]. cbn. by rewrite lookup_insert_eq. }
    unfold bindM at 1. fold readInfo. fold getInfo. rewrite readInfo_nothing by done.
    destruct (dirname dirPath =? dirPath); cbn [negb].
    + cbn. eexists. split; [reflexivity|]. cbn. by rewrite lookup_insert_eq.
    + unfold bindM at 1. rewrite Hrun. cbn.
      eexists. split; [reflexivity|]. cbn. rewrite lookup_insert_eq.
      split; [done|]. split; [|done].
      intros d Hd. rewrite lookup_insert_ne.
      * apply Hm1. intros k Hk. rewrite Hup. apply Hd. lia.
      * intros Heq. by apply (Hd 0); [lia|].
Qed.

(** The tail of [readInfo] never hands back [null]. *)
Lemma finishInfo_Some fuel dirPath p pkgParsed pkgText r st v st' :
  finishInfo fuel dirPath p pkgParsed pkgText r st = Done v st' → is_Some v.
Proof.
  unfold Package.finishInfo. destruct (Package.scriptPkg p) as [pkg|].
  - unfold bindM, Package.assignRange, modify, retM. by intros [= <- <-].
  - intros H. apply bindM_Done in H as (d & st1 & _ & H).
    apply bindM_Done in H as (ref & st2 & _ & H).
    unfold retM in H. by injection H as <- <-.
Qed.

Lemma readInfo_forced fuel rec dirPath st v st' :
  readInfo fuel rec dirPath true st = Done v st' → is_Some v.
Proof.
  unfold Package.readInfo. intros H.
  apply bindM_Done in H as (p & st1 & _ & H).
  apply bindM_Done in H as (st2 & st3 & _ & H).
  cbn [negb andb] in H.
  apply bindM_Done in H as (parent & st4 & _ & H).
  by eapply finishInfo_Some.
Qed.

(** X19. With [force] set, [getInfo] never returns [null] for a
    directory that is not named [node_modules]: what it returns is a
    package, and the memo holds it afterwards. *)
Theorem getInfo_forced (fuel : nat) (dirPath : string) (st : State)
    (v : option Ref) (st' : State) :
  basename dirPath ≠ "node_modules" →
  getInfo fuel dirPath true st = Done v st' →
  is_Some v ∧ memo st' !! dirPath = Some v.
Proof.
  intros Hb H. apply String.eqb_neq in Hb.
  destruct fuel as [|fuel]; [done|].
  cbn [Package.getInfo] in H. unfold bindM at 1 in H. unfold getState at 1 in H.
  assert (resolveInfo fuel (getInfo fuel) dirPath true st = Done v st' →
          is_Some v ∧ memo st' !! dirPath = Some v) as Hres.
  { clear H. intros H. split; [|by eapply resolveInfo_memo].
    unfold Package.resolveInfo in H. rewrite Hb in H.
    apply bindM_Done in H as (p1 & st1 & _ & H).
    apply bindM_Done in H as (p2 & st2 & _ & H).
    apply bindM_Done in H as (p3 & st3 & H3 & H).
    unfold bindM, Package.set, modify, retM in H. injection H as <- <-.
    destruct p2 as [ref|].
    - unfold retM in H3. by injection H3 as <- <-.
    - fold readInfo in H3. by eapply readInfo_forced. }
  destruct (memo st !! dirPath) as [[pkg|]|] eqn:E; [|by apply Hres..].
  unfold retM in H. by injection H as <- <-.
Qed.

(** *** The package root *)

(** X20. [findRoot] returns within the recursion budget whenever the
    chain of parent directories ends within it. A root it returns, when
    not the empty string, is the directory itself or one of its
    ancestors, and it is named [node_modules], or holds a manifest, or
    lies directly in a directory named [node_modules]. *)
Theorem findRoot_found (fs : Files) :
  (∀ n fuel dirPath,
     dirname (Nat.iter n dirname dirPath) = Nat.iter n dirname dirPath →
     n < fuel → is_Some (findRoot fuel fs dirPath)) ∧
  (∀ fuel dirPath r,
     findRoot fuel fs dirPath = Some r → r ≠ "" →
     (∃ n, r = Nat.iter n dirname dirPath) ∧
     (basename r = "node_modules" ∨
      isFile fs (r +:+ sep +:+ Package.PACKAGE_FILENAME) = true ∨
      basename (dirname r) = "node_modules")).
Proof.
  split.
  - induction n as [|n IH]; intros fuel dirPath Hfix Hfuel;
      (destruct fuel as [|fuel]; [lia|]); cbn [Package.findRoot].
    + change (dirname dirPath = dirPath) in Hfix. destruct (_ || _); [done|].
      by rewrite Hfix, String.eqb_refl.
    + destruct (_ || _); [done|].
      destruct (dirname dirPath =? dirPath); [done|].
      destruct (basename (dirname dirPath) =? "node_modules"); [done|].
      apply IH; [|lia]. by rewrite <- Nat.iter_succ_r.
  - induction fuel as [|fuel IH]; intros dirPath r H Hr; cbn [Package.findRoot] in H; [done|].
    destruct (basename dirPath =? "node_modules") eqn:Eb; cbn [orb] in H.
    { injection H as <-. split; [by exists 0|]. left. by apply String.eqb_eq. }
    destruct (isFile fs _) eqn:Ef.
    { injection H as <-. split; [by exists 0|]. right. by left. }
    destruct (dirname dirPath =? dirPath); [by injection H as <-|].
    destruct (basename (dirname dirPath) =? "node_modules") eqn:Ep.
    { injection H as <-. split; [by exists 0|]. right. right. by apply String.eqb_eq. }
    destruct (IH _ _ H Hr) as ([n ->] & Hcase). split; [|done].
    exists (S n). by rewrite Nat.iter_succ_r.
Qed.

(** X21. [getRoot] records the root it returns under the directory and
    changes nothing else; the root of a directory with a non-empty path
    is not empty; a later call returns the recorded root without
    searching again. *)
Theorem getRoot_memoizes (fuel : nat) (dirPath : string) (st : State)
    (r : string) (st' : State) :
  getRoot fuel dirPath st = Done r st' →
  root st' !! dirPath = Some r ∧
  files st' = files st ∧ heap st' = heap st ∧ memo st' = memo st ∧
  (dirPath ≠ "" → r ≠ "") ∧
  (r ≠ "" → ∀ fuel', getRoot fuel' dirPath st' = Done r st').
Proof.
  unfold Package.getRoot.
  assert (∀ st0,
            match findRoot fuel (files st0) dirPath with
            | Some found =>
                Done (if negb (found =? "") then found else dirPath)
                     (setRoot st0 (<[dirPath := if negb (found =? "") then found else dirPath]>
                                     (root st0)))
            | None => Diverged
            end = Done r st' →
            root st' !! dirPath = Some r ∧
            files st' = files st0 ∧ heap st' = heap st0 ∧ memo st' = memo st0 ∧
            (dirPath ≠ "" → r ≠ "")) as Hscan.
  { intros st0 H. destruct (findRoot fuel (files st0) dirPath) as [found|]; [|done].
    injection H as <- <-. cbn. rewrite lookup_insert_eq. repeat split.
    intros Hd. destruct (found =? "") eqn:E; cbn [negb]; [done|].
    by apply String.eqb_neq. }
  assert (root st' !! dirPath = Some r → r ≠ "" →
          ∀ fuel', Package.getRoot sep basename dirname fuel' dirPath st' = Done r st')
    as Hagain.
  { intros Hr Hne fuel'. unfold Package.getRoot. rewrite Hr.
    apply String.eqb_neq in Hne. by rewrite Hne. }
  destruct (root st !! dirPath) as [cached|] eqn:E.
  - destruct (cached =? "") eqn:Ec; cbn [negb].
    + intros H. destruct (Hscan st H) as (H1 & H2 & H3 & H4 & H5).
      repeat split; try done. by apply Hagain.
    + intros [= <- <-]. apply String.eqb_neq in Ec. repeat split; try done.
      by apply Hagain.
  - intros H. destruct (Hscan st H) as (H1 & H2 & H3 & H4 & H5).
    repeat split; try done. by apply Hagain.
Qed.

(** *** The version range of a resolved package *)

(** X22. For a directory not yet resolved, with a manifest and no
    activation file, whose manifest yields a range under [dependencies]
    or [peerDependencies], [getInfo] returns and memoizes a package
    constructed with that range and with the options of the manifest.
    The range under [dependencies] takes precedence over the one under
    [peerDependencies]. *)
Theorem getInfo_declared_range (fuel : nat) (st : State) (path text : string)
    (ref : Ref) (st1 : State) :
  memo st !! path = None → basename path ≠ "node_modules" →
  readFile (files st) (path +:+ sep +:+ Package.ESMRC_FILENAME) = None →
  _findPath (files st) Package.ESMRC_FILENAME [path] false Package.searchExts = "" →
  readFile (files st) (path +:+ sep +:+ Package.PACKAGE_FILENAME) = Some text →
  let json := parseJSON text in
  let r := jor (getRange json "dependencies") (getRange json "peerDependencies") in
  isNull r = false →
  newPackage path r (manifestOptions OPTIONS json) st = Done ref st1 →
  getInfo (S fuel) path false st =
    Done (Some ref) (setMemo st1 (<[path := Some ref]> (memo st1))) ∧
  Package.rangeOf st1 ref = r ∧
  (truthy (getRange json "dependencies") = true →
   declares json "dependencies" = true ∧
   r = validRange (JS.get (JS.get json "dependencies") "esm")).
Proof.
  intros Hmemo Hbase Hrc Hfind Htext json r Hr Hnew.
  split; [|split].
  - apply getInfo_resolved; [done..|].
    unfold Package.readInfo. unfold bindM at 1. fold probeOptions.
    rewrite (probe_none _ _ _ _ _ _ _ _ _ _ _ _ _ _ _ _ _ Hrc Hfind).
    unfold bindM at 1. unfold getState at 1. rewrite Htext.
    cbn [is_Some_b negb andb Package.optionsFound]. unfold bindM at 1. unfold retM at 1.
    fold getRange. fold json. fold r. rewrite Hr.
    assert (∀ p, Package.scriptPkg p = None →
                 (if isTrue (Package.foundOptions p) || negb (Package.optionsFound p)
                  then OPTIONS else Package.foundOptions p) = manifestOptions OPTIONS json →
                 finishInfo fuel path p true (Some text) r st =
                 Done (Some ref) st1) as Hfin.
    { intros p Hs Ho. apply finishInfo_new; [done|]. by rewrite Ho. }
    unfold manifestOptions, effective in Hfin.
    destruct (has json "esm"); cbn [orb]; apply Hfin; try done.
    cbn. by rewrite orb_false_r.
  - by eapply newPackage_range.
  - intros Hd. unfold r, jor. rewrite Hd.
    destruct (declares json "dependencies") eqn:E.
    + split; [done|]. by apply getRange_declared.
    + by rewrite getRange_undeclared in Hd.
Qed.

(** X23. A directory with an [.esmrc] file and no manifest, below a
    directory that resolves to a package, resolves to a new package that
    takes its range from the parent package, its options from the
    [.esmrc] file and its directory from [getRoot]. *)
Theorem getInfo_parent_range (fuel : nat) (st : State) (path content : string)
    (parent : Ref) (st1 : State) (rootPath : string) (st2 : State)
    (ref : Ref) (st3 : State) :
  memo st !! path = None → basename path ≠ "node_modules" →
  readFile (files st) (path +:+ sep +:+ Package.ESMRC_FILENAME) = Some content →
  readFile (files st) (path +:+ sep +:+ Package.PACKAGE_FILENAME) = None →
  getInfo fuel (dirname path) false st = Done (Some parent) st1 →
  getRoot fuel path st1 = Done rootPath st2 →
  newPackage rootPath (Package.rangeOf st1 parent)
    (effective OPTIONS (parseJSON6 content)) st2 = Done ref st3 →
  getInfo (S fuel) path false st =
    Done (Some ref) (setMemo st3 (<[path := Some ref]> (memo st3))) ∧
  Package.rangeOf st3 ref = Package.rangeOf st1 parent ∧
  ∃ pkg, heap st3 !! ref = Some pkg ∧ dirPath pkg = rootPath.
Proof.
  intros Hmemo Hbase Hrc Hpkg Hparent Hroot Hnew.
  split; [|split].
  - apply getInfo_resolved; [done..|].
    unfold Package.readInfo. unfold bindM at 1. fold probeOptions.
    rewrite (probe_rc _ _ _ _ _ _ _ _ _ _ _ _ _ _ _ _ _ _ Hrc).
    unfold bindM at 1. unfold getState at 1. rewrite Hpkg.
    cbn [is_Some_b negb andb Package.optionsFound]. unfold bindM at 1.
    fold getInfo. rewrite Hparent. unfold bindM at 1. unfold getState at 1.
    unfold Package.finishInfo. cbn [Package.scriptPkg Package.optionsFound
      Package.foundOptions negb andb is_Some_b orb].
    unfold bindM at 1. fold getRoot. rewrite Hroot.
    unfold bindM at 1. fold newPackage. rewrite orb_false_r.
    unfold effective in Hnew. by rewrite Hnew.
  - by eapply newPackage_range.
  - destruct (newPackage_alloc _ _ _ _ _ _ _ _ _ _ _ _ _ _ _ _ _ Hnew)
      as (pkg & Hp & _ & Hd & _).
    by exists pkg.
Qed.

(** *** The activation script and forced reads *)

(** X24. When the activation file of a directory is a script and the
    package for it can be constructed, the search for the activation
    file leaves [parseOnly] and [parsing] of the module state as they
    were, whether loading the script and merging its exports returns or
    throws, and the new package is memoized under the directory in both
    cases. *)
Theorem probeOptions_restores (path : string) (st : State) (ref : Ref) (st1 : State) :
  let found :=
    _findPath (files st) Package.ESMRC_FILENAME [path] false Package.searchExts in
  readFile (files st) (path +:+ sep +:+ Package.ESMRC_FILENAME) = None →
  found ≠ "" → extname found ≠ ".json" →
  newPackage path RANGE_ALL JUndefined (setModuleState st (false, false)) = Done ref st1 →
  match probeOptions path st with
  | Done p st' =>
      Package.scriptPkg p = Some ref ∧
      moduleState st' = moduleState st ∧ memo st' !! path = Some (Some ref)
  | Failed e st' =>
      moduleState st' = moduleState st ∧ memo st' !! path = Some (Some ref)
  | Diverged => False
  end.
Proof.
  intros found Hrc Hne Hext Hnew.
  unfold Package.probeOptions. unfold bindM at 1. unfold getState at 1.
  rewrite Hrc. fold found.
  apply String.eqb_neq in Hne, Hext. rewrite Hne, Hext. cbn [negb].
  unfold bindM at 1. unfold modify at 1.
  unfold bindM at 1. fold newPackage. rewrite Hnew.
  unfold bindM at 1. unfold Package.set at 1. unfold modify at 1.
  unfold bindM at 1. unfold finallyM, bindM, getState, liftC.
  cbn [files setMemo].
  destruct (loadESM (files st1) found) as [exports|e]; cbn.
  - destruct (Package.createOptions _ _ _ _ _ exports) as [opts|e]; cbn.
    + by rewrite lookup_insert_eq.
    + by rewrite lookup_insert_eq.
  - by rewrite lookup_insert_eq.
Qed.

(** The package an activation script gave rise to is on the heap. *)
Lemma probe_alloc path st p st1 ref :
  probeOptions path st = Done p st1 → Package.scriptPkg p = Some ref →
  is_Some (heap st1 !! ref).
Proof.
  unfold Package.probeOptions. unfold bindM at 1. unfold getState at 1.
  destruct (readFile (files st) _) as [text|]; [by intros [= <- <-]|].
  destruct (negb (_ =? "")); [|by intros [= <- <-]].
  destruct (extname _ =? ".json"); [by intros [= <- <-]|].
  unfold bindM at 1. unfold modify at 1.
  intros H Hs.
  apply bindM_Done in H as (r & st2 & Hnew & H).
  destruct (newPackage_alloc _ _ _ _ _ _ _ _ _ _ _ _ _ _ _ _ _ Hnew) as (pkg & Hpkg & _).
  unfold bindM at 1 in H. unfold Package.set at 1 in H. unfold modify at 1 in H.
  apply bindM_Done in H as ([] & st3 & Hfin & H).
  unfold retM in H. injection H as <- <-. cbn in Hs. injection Hs as <-.
  unfold finallyM, bindM, getState, liftC in Hfin. cbn [files setMemo] in Hfin.
  destruct (loadESM _ _) as [exports|]; [|done].
  destruct (Package.createOptions _ _ _ _ _ exports) as [opts|]; [|done].
  unfold Package.assignOptions, modify in Hfin. injection Hfin as <-.
  cbn [heap setModuleState setHeap setMemo].
  rewrite list_lookup_alter_eq, Hpkg. by eexists.
Qed.

(** X25. With [force] set, [readInfo] never returns [null]: it returns
    a package, the one of the activation script or a new one, and the
    range of that package is [RANGE_ALL] whatever the manifest
    declares. *)
Theorem readInfo_forced_range (fuel : nat) (rec : string → bool → M (option Ref))
    (dirPath : string) (st : State) (v : option Ref) (st' : State) :
  readInfo fuel rec dirPath true st = Done v st' →
  ∃ ref, v = Some ref ∧ Package.rangeOf st' ref = RANGE_ALL.
Proof.
  unfold Package.readInfo. intros H.
  apply bindM_Done in H as (p & st1 & Hprobe & H). fold probeOptions in Hprobe.
  unfold bindM at 1 in H. unfold getState at 1 in H.
  cbn [negb andb] in H. unfold bindM at 1 in H. unfold retM at 1 in H.
  match type of H with
  | Package.finishInfo _ _ _ _ _ _ _ _ _ _ _ _ _ _ _ _ ?q ?b ?t _ _ = _ =>
      assert (Package.scriptPkg q = Package.scriptPkg p) as Hs
        by (by destruct (_ && _));
      revert H Hs; generalize q b t
  end.
  intros p' b t H Hs. unfold Package.finishInfo in H. rewrite Hs in H.
  destruct (Package.scriptPkg p) as [pkg|] eqn:Ep.
  - unfold bindM, Package.assignRange, modify, retM in H. injection H as <- <-.
    exists pkg. split; [done|].
    destruct (probe_alloc _ _ _ _ _ Hprobe Ep) as [obj Hobj].
    unfold Package.rangeOf. cbn [heap setHeap].
    by rewrite list_lookup_alter_eq, Hobj.
  - apply bindM_Done in H as (d & st2 & _ & H).
    apply bindM_Done in H as (ref & st3 & Hnew & H).
    unfold retM in H. injection H as <- <-.
    exists ref. split; [done|]. by eapply newPackage_range.
Qed.

(** *** The in-memory package *)

(** X14. Loading the module registers, under the empty directory path,
    a package with the range [PKG_VERSION], an empty cache path, the
    option [cache] off, every [cjs] toggle on and the auto mode, without
    touching the disk; [getInfo] of the empty path returns it, with or
    without [force]. *)
Theorem boot_in_memory (fs : Files) :
  ∃ st opts,
    boot fs = Done tt st ∧ files st = fs ∧
    memo st !! "" = Some (Some 0) ∧
    heap st = [mkPackage "" "" opts (JStr PKG_VERSION)] ∧
    getProp opts "cache" = JBool false ∧
    getProp opts "cjs" = JObj (broadcast true) ∧
    getProp opts "mode" = OPTIONS_MODE_AUTO ∧
    dir st !! "" = Some (mkCache None [] JNull) ∧
    ∀ fuel force, getInfo (S fuel) "" force st = Done (Some 0) st.
Proof.
  set (opts := [ ("cache", JBool false); ("cjs", JObj (broadcast true));
                 ("mode", OPTIONS_MODE_AUTO); ("await", JBool false);
                 ("debug", JBool false); ("mainFields", JArr [JStr "main"]);
                 ("sourceMap", JUndefined); ("warnings", JBool DEVELOPMENT) ]).
  assert (createOptions (JObj [("cache", JBool false); ("cjs", JBool true)]) = Return opts)
    as Ho by reflexivity.
  set (st0 := mkState fs ∅ ∅ [] ∅ None (false, false) ∅).
  exists (mkState fs (<["" := mkCache None [] JNull]> ∅) ∅
                  [mkPackage "" "" opts (JStr PKG_VERSION)]
                  (<["" := Some 0]> ∅) None (false, false) ∅), opts.
  split.
  { unfold Package.boot. fold st0. unfold bindM.
    fold newPackage. rewrite (newPackage_uncached _ _ _ _ st0 Ho eq_refl).
    unfold st0. cbn [dir]. rewrite lookup_empty. reflexivity. }
  split; [done|]. split; [apply lookup_insert_eq|]. split; [done|].
  split; [done|]. split; [done|]. split; [done|]. split; [apply lookup_insert_eq|].
  intros fuel force. cbn [Package.getInfo]. unfold bindM, getState. cbn [memo].
  by rewrite lookup_insert_eq.
Qed.

End WithEnvironment.
Lemma clearBabelCache_exact_witness :
  let fs' :=
    Package.clearBabelCache "/" Sample.extname Sample.resolve
      Examples.babelDisk "/app/node_modules/.cache/esm" in
  readFile fs' "/app/node_modules/.cache/@babel/register/.babel.7.json" = None ∧
  readFile fs' "/app/node_modules/.cache/esm/0a1b2c3d4e5f.js" = Some "code".
Proof.
  destruct (clearBabelCache_exact "/" Sample.extname Sample.resolve
              Examples.babelDisk "/app/node_modules/.cache/esm") as (Hgone & Hkept).
  split.
  - apply (Hgone ".babel.7.json"); [|reflexivity].
    apply (bool_decide_unpack _). vm_compute. reflexivity.
  - rewrite (Hkept "/app/node_modules/.cache/esm/0a1b2c3d4e5f.js"); [reflexivity|].
    intros name _ _. vm_compute. intros H. discriminate H.
Defined.

Lemma loadCache_intact_witness :
  ∃ c, Package.loadCache false "2.0.0" "/" Sample.extname Sample.resolve Examples.parse
         Examples.warmDisk "/app/node_modules/.cache/esm" = Return (Examples.warmDisk, c) ∧
       Package.cacheGet c "0a1b2c3d4e5f.js" = JBool true ∧
       buffer c = Some "blob".
Proof.
  destruct (loadCache_intact false "2.0.0" "/" Sample.extname Sample.resolve Examples.parse
              Examples.warmDisk "/app/node_modules/.cache/esm")
    as (c & Hload & Hidx & Hbuf & _).
  - reflexivity.
  - intros _. exists [("version", JStr "2.0.0");
                      ("map", JObj [("0a1b2c3d4e5f.js", JStr "module")])].
    split; reflexivity.
  - exists c. split; [exact Hload|]. split; [apply Hidx | exact Hbuf].
Defined.

Lemma newPackage_shares_cache_witness :
  let st1 :=
    Sample.stateOf (Examples.newPackage "/app" (JStr "*") JUndefined (Sample.emptyState []))
      (Sample.emptyState []) in
  ∃ st2, Examples.newPackage "/app" (JStr "^3.0.0") JUndefined st1 = Done 1 st2 ∧
         files st2 = files st1 ∧ dir st2 = dir st1.
Proof.
  intros st1.
  destruct (newPackage_shares_cache false false "2.0.0" (JNum 1) (JNum 2) (JNum 3) "/"
              Sample.extname Sample.resolve (fun s => s) Examples.parse
              "/app" (JStr "*") JUndefined (Sample.emptyState []) 0 st1
              "/app" (JStr "^3.0.0") JUndefined (Sample.autoRecord (JNum 2)))
    as (st2 & Hrun & Hf & Hd & _).
  - vm_compute. reflexivity.
  - vm_compute. reflexivity.
  - eexists. split; vm_compute; reflexivity.
  - exists st2. split; [exact Hrun|]. split; assumption.
Defined.

Lemma newPackage_in_memory_witness :
  ∃ st', Examples.newPackage "/app" (JStr "*") (JObj [("cache", JBool false)])
           Sample.staleProject = Done 0 st' ∧
         files st' = files Sample.staleProject.
Proof.
  destruct (newPackage_in_memory false false "2.0.0" (JNum 1) (JNum 2) (JNum 3) "/"
              Sample.extname Sample.resolve (fun s => s) Examples.parse
              "/app" (JStr "*") (JObj [("cache", JBool false)]) Examples.uncachedRecord
              Sample.staleProject)
    as (st' & Hrun & Hf & _).
  - vm_compute. reflexivity.
  - reflexivity.
  - exists st'. split; assumption.
Defined.

Lemma newPackage_failed_load_witness :
  ∃ st', Examples.newPackage "/app" (JStr "*") JUndefined Examples.corruptProject
           = Failed (ForeignError "TypeError") st' ∧
         dir st' !! "/app/node_modules/.cache/esm" = Some (mkCache None [] JNull) ∧
         Examples.newPackage "/app" (JStr "*") JUndefined st'
           = Done 0 (setHeap st' [mkPackage "/app/node_modules/.cache/esm" "/app"
                                             (Sample.autoRecord (JNum 2)) (JStr "*")]).
Proof.
  destruct (newPackage_failed_load false false "2.0.0" (JNum 1) (JNum 2) (JNum 3) "/"
              Sample.extname Sample.resolve (fun s => s) Examples.parse
              Examples.corruptProject "/app" (JStr "*") JUndefined
              (Sample.autoRecord (JNum 2)))
    as (st' & Hrun & _ & _ & Hdir & _ & Hagain).
  - vm_compute. reflexivity.
  - vm_compute. intros H. discriminate H.
  - reflexivity.
  - vm_compute. reflexivity.
  - vm_compute. reflexivity.
  - vm_compute. reflexivity.
  - exists st'. split; [exact Hrun|]. split; [exact Hdir|]. apply Hagain.
Defined.

Lemma getInfo_node_modules_witness :
  ∃ st', Examples.getInfo 1 "/app/node_modules" true Sample.devProject = Done None st' ∧
         memo st' !! "/app/node_modules" = Some None.
Proof.
  destruct (getInfo_node_modules false (JObj []) false "2.0.0"
              (JNum 1) (JNum 2) (JNum 3) (JStr "*") "/"
              Sample.basename Sample.dirname Sample.extname Sample.resolve (fun s => s)
              Examples.parse Examples.parse Sample.validRange Sample.findPath Sample.loadESM
              0 "/app/node_modules" true Sample.devProject)
    as (st' & Hrun & Hm & _).
  - reflexivity.
  - intros pkg. vm_compute. intros H. discriminate H.
  - exists st'. split; assumption.
Defined.

Lemma get_after_set_witness :
  (let! _ := Package.set "/app" None in
   Package.get false (JObj []) false "2.0.0" (JNum 1) (JNum 2) (JNum 3) (JStr "*") "/"
     Sample.basename Sample.dirname Sample.extname Sample.resolve (fun s => s) (fun s => s)
     Examples.parse Examples.parse Sample.validRange Sample.findPath Sample.loadESM
     1 "/app" false) Sample.devProject =
  Done None (setMemo Sample.devProject (<["/app" := None]> (memo Sample.devProject))).
Proof.
  apply (get_after_set false (JObj []) false "2.0.0" (JNum 1) (JNum 2) (JNum 3) (JStr "*")
           "/" Sample.basename Sample.dirname Sample.extname Sample.resolve (fun s => s)
           (fun s => s) Examples.parse Examples.parse Sample.validRange Sample.findPath
           Sample.loadESM 0 "/app" None false Sample.devProject).
  - discriminate.
  - left. reflexivity.
Defined.

Lemma getInfo_inherits_witness :
  let st1 :=
    Sample.stateOf (Examples.getInfo 1 "/app" false Sample.devProject) Sample.devProject in
  Examples.getInfo 2 "/app/src" false st1 =
  Done (Some 0) (setMemo st1 (<["/app/src" := Some 0]> (memo st1))).
Proof.
  intros st1.
  apply (getInfo_inherits false (JObj []) false "2.0.0"
           (JNum 1) (JNum 2) (JNum 3) (JStr "*") "/"
           Sample.basename Sample.dirname Sample.extname Sample.resolve (fun s => s)
           Examples.parse Examples.parse Sample.validRange Sample.findPath Sample.loadESM
           1 "/app/src" st1 (Some 0) st1).
  - vm_compute. reflexivity.
  - vm_compute. intros H. discriminate H.
  - vm_compute. reflexivity.
  - vm_compute. reflexivity.
  - vm_compute. reflexivity.
  - vm_compute. intros H. discriminate H.
  - vm_compute. reflexivity.
Defined.

Lemma getInfo_nothing_found_witness :
  ∃ st', Examples.getInfo 3 "/a/b" false Examples.booted = Done None st' ∧
         memo st' !! "/a/b" = Some None ∧
         memo st' !! "" = Some (Some 0).
Proof.
  destruct (getInfo_nothing_found false (JObj []) false "2.0.0"
              (JNum 1) (JNum 2) (JNum 3) (JStr "*") "/"
              Sample.basename Sample.dirname Sample.extname Sample.resolve (fun s => s)
              Examples.parse Examples.parse Sample.validRange Sample.findPath Sample.loadESM
              2 3 "/a/b" Examples.booted)
    as (st' & Hrun & Hm & Hframe & _).
  - intros k _. vm_compute. reflexivity.
  - intros k _. vm_compute. reflexivity.
  - intros k _. vm_compute. reflexivity.
  - intros k pkg Hk. destruct k as [|[|[|k]]]; [| | |lia];
      vm_compute; intros H; discriminate H.
  - reflexivity.
  - lia.
  - exists st'. split; [exact Hrun|]. split; [exact Hm|].
    rewrite Hframe; [vm_compute; reflexivity|].
    intros k Hk. destruct k as [|[|[|k]]]; [| | |lia];
      vm_compute; intros H; discriminate H.
Defined.

Lemma getInfo_forced_witness :
  let run := Examples.getInfo 4 "/app" true (Sample.emptyState []) in
  run = Done (Some 0) (Sample.stateOf run (Sample.emptyState [])) ∧
  is_Some (Some 0).
Proof.
  intros run. assert (run = Done (Some 0) (Sample.stateOf run (Sample.emptyState []))) as H.
  { vm_compute. reflexivity. }
  split; [exact H|].
  apply (getInfo_forced false (JObj []) false "2.0.0"
           (JNum 1) (JNum 2) (JNum 3) (JStr "*") "/"
           Sample.basename Sample.dirname Sample.extname Sample.resolve (fun s => s)
           Examples.parse Examples.parse Sample.validRange Sample.findPath Sample.loadESM
           4 "/app" (Sample.emptyState []) (Some 0)
           (Sample.stateOf run (Sample.emptyState []))).
  - vm_compute. intros E. discriminate E.
  - exact H.
Defined.

Lemma findRoot_found_witness :
  is_Some (Package.findRoot "/" Sample.basename Sample.dirname 3 [] "/a/b") ∧
  isFile (files Sample.devProject) "/app/package.json" = true.
Proof.
  destruct (findRoot_found "/" Sample.basename Sample.dirname (files Sample.devProject))
    as (_ & Hfound).
  destruct (findRoot_found "/" Sample.basename Sample.dirname []) as (Hterm & _).
  split.
  - apply (Hterm 2 3 "/a/b"); [reflexivity | lia].
  - destruct (Hfound 3 "/app/src/lib" "/app") as (_ & [H|[H|H]]).
    + vm_compute. reflexivity.
    + discriminate.
    + vm_compute in H. discriminate H.
    + exact H.
    + vm_compute in H. discriminate H.
Defined.

Lemma getRoot_memoizes_witness :
  let st' :=
    setRoot Sample.devProject (<["/app/src" := "/app"]> (root Sample.devProject)) in
  root st' !! "/app/src" = Some "/app" ∧
  Examples.getRoot 0 "/app/src" st' = Done "/app" st'.
Proof.
  intros st'.
  destruct (getRoot_memoizes "/" Sample.basename Sample.dirname
              2 "/app/src" Sample.devProject "/app" st')
    as (Hroot & _ & _ & _ & _ & Hagain).
  - vm_compute. reflexivity.
  - split; [exact Hroot|]. apply Hagain. discriminate.
Defined.

Lemma getInfo_declared_range_witness :
  let st1 :=
    Sample.stateOf (Examples.newPackage "/lib" (JStr "^3.0.0") (JObj []) Examples.libProject)
      Examples.libProject in
  Examples.getInfo 1 "/lib" false Examples.libProject =
    Done (Some 0) (setMemo st1 (<["/lib" := Some 0]> (memo st1))) ∧
  Package.rangeOf st1 0 = JStr "^3.0.0".
Proof.
  intros st1.
  destruct (getInfo_declared_range false (JObj []) false "2.0.0"
              (JNum 1) (JNum 2) (JNum 3) (JStr "*") "/"
              Sample.basename Sample.dirname Sample.extname Sample.resolve (fun s => s)
              Examples.parse Examples.parse Sample.validRange Sample.findPath Sample.loadESM
              0 Examples.libProject "/lib" "lib manifest" 0 st1)
    as (Hrun & Hrange & _).
  - reflexivity.
  - vm_compute. intros H. discriminate H.
  - reflexivity.
  - reflexivity.
  - reflexivity.
  - reflexivity.
  - vm_compute. reflexivity.
  - split; [exact Hrun | exact Hrange].
Defined.

Lemma getInfo_parent_range_witness :
  let st1 :=
    Sample.stateOf (Examples.getInfo 1 "/app" false Examples.nestedProject)
      Examples.nestedProject in
  let st2 := Sample.stateOf (Examples.getRoot 2 "/app/sub" st1) st1 in
  let st3 := Sample.stateOf (Examples.newPackage "/app" (JStr "*") JNull st2) st2 in
  Examples.getInfo 3 "/app/sub" false Examples.nestedProject =
    Done (Some 1) (setMemo st3 (<["/app/sub" := Some 1]> (memo st3))) ∧
  Package.rangeOf st3 1 = Package.rangeOf st1 0.
Proof.
  intros st1 st2 st3.
  destruct (getInfo_parent_range false (JObj []) false "2.0.0"
              (JNum 1) (JNum 2) (JNum 3) (JStr "*") "/"
              Sample.basename Sample.dirname Sample.extname Sample.resolve (fun s => s)
              Examples.parse Examples.parse Sample.validRange Sample.findPath Sample.loadESM
              2 Examples.nestedProject "/app/sub" "{}" 0 st1 "/app" st2 1 st3)
    as (Hrun & Hrange & _).
  - reflexivity.
  - vm_compute. intros H. discriminate H.
  - reflexivity.
  - reflexivity.
  - vm_compute. reflexivity.
  - vm_compute. reflexivity.
  - vm_compute. reflexivity.
  - split; [exact Hrun | exact Hrange].
Defined.

Lemma probeOptions_restores_witness :
  let run := Examples.probeOptions "/app" Examples.scriptProject in
  run = Failed (ForeignError "SyntaxError") (Examples.finalState run Examples.scriptProject) ∧
  moduleState (Examples.finalState run Examples.scriptProject) = (true, false).
Proof.
  intros run.
  pose proof (probeOptions_restores false false "2.0.0" (JNum 1) (JNum 2) (JNum 3)
                (JStr "*") "/" Sample.extname Sample.resolve (fun s => s)
                Examples.parse Examples.parse Sample.findPath Examples.loadFailing
                "/app" Examples.scriptProject 0
                (Sample.stateOf
                   (Examples.newPackage "/app" (JStr "*") JUndefined
                      (setModuleState Examples.scriptProject (false, false)))
                   Examples.scriptProject)) as H.
  assert (run = Failed (ForeignError "SyntaxError")
                       (Examples.finalState run Examples.scriptProject)) as Hrun.
  { vm_compute. reflexivity. }
  split; [exact Hrun|].
  fold Examples.probeOptions in H. fold run in H. rewrite Hrun in H.
  apply H.
  - reflexivity.
  - vm_compute. intros E. discriminate E.
  - vm_compute. intros E. discriminate E.
  - vm_compute. reflexivity.
Defined.

Lemma readInfo_forced_range_witness :
  let run := Examples.readInfo 3 (Examples.getInfo 3) "/app" true Sample.devProject in
  run = Done (Some 0) (Sample.stateOf run Sample.devProject) ∧
  Package.rangeOf (Sample.stateOf run Sample.devProject) 0 = JStr "*".
Proof.
  intros run.
  assert (run = Done (Some 0) (Sample.stateOf run Sample.devProject)) as Hrun.
  { vm_compute. reflexivity. }
  split; [exact Hrun|].
  destruct (readInfo_forced_range false (JObj []) false "2.0.0"
              (JNum 1) (JNum 2) (JNum 3) (JStr "*") "/"
              Sample.basename Sample.dirname Sample.extname Sample.resolve (fun s => s)
              Examples.parse Examples.parse Sample.validRange Sample.findPath Sample.loadESM
              3 (Examples.getInfo 3) "/app" Sample.devProject (Some 0)
              (Sample.stateOf run Sample.devProject) Hrun)
    as (ref & Href & Hrange).
  injection Href as <-. exact Hrange.
Defined.

End PackageMore.

(** ** More facts about the compiler front end *)

Module CompilerMore.
Import Compiler CompilerFacts.

Section WithCollaborators.

Variable compile : string → CompileOptions → Completion CompileResult.
Variable gzip : string → string.
Variable path_join : string → string → string.
Variable path_extname : string → string.

Local Abbreviation toCompileOptions := (Compiler.toCompileOptions path_extname).
Local Abbreviation compileAndCache := (Compiler.compileAndCache compile path_extname).
Local Abbreviation compileAndWrite :=
  (Compiler.compileAndWrite compile gzip path_join path_extname).
Local Abbreviation Compiler_compile :=
  (Compiler.Compiler_compile compile gzip path_join path_extname).

(** X26. [Compiler.compile] throws what the translator throws. When
    the translator returns a result, the call returns it and registers it
    in the cache of the package under the entry name; the other entries
    of that cache, the other caches and the disk are as before; no write
    is deferred when there is no file path or the result is not of type
    ["module"], and exactly one is appended when there is a file path and
    the result is of type ["module"]. *)
Theorem Compiler_compile_frame (code : string) (options : CallOptions) (st : CState) :
  let c := pkgCache (pkgInfo options) in
  match compile code (toCompileOptions options) with
  | Throw e => Compiler_compile code options st = Throw e
  | Return result =>
      ∃ st', Compiler_compile code options st = Return (result, st') ∧
             cacheGetEntry (cacheOf st' c) (cacheFileName options) = Some result ∧
             (∀ other, (cacheFileName options =? other) = false →
                       cacheGetEntry (cacheOf st' c) other =
                       cacheGetEntry (cacheOf st c) other) ∧
             (∀ c', c' ≠ c → caches st' !! c' = caches st !! c') ∧
             disk st' = disk st ∧
             (filePath options = None ∨ result_type result ≠ "module" →
              pending st' = pending st) ∧
             (is_Some (filePath options) → result_type result = "module" →
              ∃ w, pending st' = pending st ++ [w])
  end.
Proof.
  intros c. destruct (compile code (toCompileOptions options)) as [result|e] eqn:Ec.
  2: { unfold Compiler.Compiler_compile, Compiler.compileWithFilename,
         Compiler.compileAndWrite, Compiler.compileAndCache.
       rewrite Ec. by destruct (filePath options). }
  assert (compileAndCache code options st =
          Return (result,
                  mkCState (<[c := cacheSet (cacheOf st c) (cacheFileName options) result]>
                              (caches st)) (disk st) (pending st))) as Hcache.
  { unfold Compiler.compileAndCache. by rewrite Ec. }
  assert (∀ p, cacheOf (mkCState (<[c := cacheSet (cacheOf st c) (cacheFileName options)
                                          result]> (caches st)) (disk st) p) c
               = cacheSet (cacheOf st c) (cacheFileName options) result) as Hof.
  { intros p. unfold cacheOf at 1. cbn [caches]. by rewrite lookup_insert_eq. }
  unfold Compiler.Compiler_compile, Compiler.compileWithFilename.
  destruct (filePath options) as [p|] eqn:Ef.
  - unfold Compiler.compileAndWrite. rewrite Hcache. cbn [bindC fst snd].
    destruct (result_type result =? "module") eqn:Et; cbn [negb].
    + eexists. split; [reflexivity|]. unfold writeFileDefer. cbn [caches disk pending].
      rewrite Hof. split; [apply cacheGetEntry_cacheSet|].
      split; [by intros other Ho; apply cacheGetEntry_cacheSet_ne|].
      split; [by intros c' Hc'; apply lookup_insert_ne|].
      split; [done|]. split.
      * intros [?|Hne]; [done|]. by apply String.eqb_eq in Et.
      * intros _ _. by eexists.
    + eexists. split; [reflexivity|]. cbn [caches disk pending].
      rewrite Hof. split; [apply cacheGetEntry_cacheSet|].
      split; [by intros other Ho; apply cacheGetEntry_cacheSet_ne|].
      split; [by intros c' Hc'; apply lookup_insert_ne|].
      split; [done|]. split; [done|].
      intros _ Hm. apply String.eqb_neq in Et. done.
  - rewrite Hcache. eexists. split; [reflexivity|]. cbn [caches disk pending].
    rewrite Hof. split; [apply cacheGetEntry_cacheSet|].
    split; [by intros other Ho; apply cacheGetEntry_cacheSet_ne|].
    split; [by intros c' Hc'; apply lookup_insert_ne|].
    split; [done|]. split; [done|].
    by intros [? ?].
Qed.

(** X27. The write [compileAndWrite] defers for a result of type
    ["module"] targets the entry name joined to the cache path, is scoped
    to the directory of the package, and carries the cache, cache path
    and entry name for the expiry; when the target ends in [.gz] the
    content is the gzipped code with no encoding, otherwise the code
    itself with the encoding [utf8]. *)
Theorem compileAndWrite_record (code : string) (options : CallOptions)
    (st : CState) (result : CompileResult) (st' : CState) :
  compileAndWrite code options st = Return (result, st') →
  result_type result = "module" →
  let target := path_join (cachePath options) (cacheFileName options) in
  ∃ w, pending st' = pending st ++ [w] ∧
       dw_path w = target ∧
       dw_scopePath w = pkgDirPath (pkgInfo options) ∧
       dw_cache w = pkgCache (pkgInfo options) ∧
       dw_cachePath w = cachePath options ∧
       dw_cacheFileName w = cacheFileName options ∧
       (path_extname target = ".gz" →
        dw_content w = gzip (result_code result) ∧ dw_encoding w = None) ∧
       (path_extname target ≠ ".gz" →
        dw_content w = result_code result ∧ dw_encoding w = Some "utf8").
Proof.
  unfold Compiler.compileAndWrite, Compiler.compileAndCache.
  destruct (compile code (toCompileOptions options)) as [r|e]; cbn [bindC fst snd]; [|done].
  destruct (result_type r =? "module") eqn:Et; cbn [negb].
  - intros [= <- <-] _. eexists. split; [reflexivity|].
    cbn [dw_path dw_scopePath dw_cache dw_cachePath dw_cacheFileName dw_content dw_encoding].
    do 5 (split; [reflexivity|]). split; intros H.
    + by rewrite H.
    + apply String.eqb_neq in H. by rewrite H.
  - intros [= <- <-] Hm. apply String.eqb_neq in Et. done.
Qed.

End WithCollaborators.

Lemma Compiler_compile_frame_witness :
  let options :=
    mkCallOptions None "/app/.cache" "aaaaaaaa3.js" Sample.pkgInfo JUndefined in
  ∃ st', Compiler.Compiler_compile Sample.translate (fun s => s) Sample.join Sample.extname
           "import x" options Sample.idle = Return (mkResult "script" "import x", st') ∧
         disk st' = disk Sample.idle ∧ pending st' = pending Sample.idle.
Proof.
  intros options.
  pose proof (Compiler_compile_frame Sample.translate (fun s => s) Sample.join Sample.extname
                "import x" options Sample.idle) as H.
  cbv beta iota zeta delta [Sample.translate] in H.
  destruct H as (st' & Hrun & _ & _ & _ & Hdisk & Hpend & _).
  exists st'. split; [exact Hrun|]. split; [exact Hdisk|].
  apply Hpend. left. reflexivity.
Defined.

Lemma compileAndWrite_record_witness :
  ∃ w, pending Sample.written = pending Sample.idle ++ [w] ∧
       dw_path w = "/app/.cache/aaaaaaaa2.js" ∧
       dw_content w = "import x" ∧ dw_encoding w = Some "utf8".
Proof.
  destruct (compileAndWrite_record Sample.translate (fun s => s) Sample.join Sample.extname
              "import x" Sample.moduleCall Sample.idle
              (mkResult "module" "import x") Sample.written)
    as (w & Hp & Hpath & _ & _ & _ & _ & _ & Hplain).
  - vm_compute. reflexivity.
  - reflexivity.
  - exists w. split; [exact Hp|]. split; [exact Hpath|].
    apply Hplain. vm_compute. intros H. discriminate H.
Defined.

End CompilerMore.
